(** * Flight search relay: a shallow embedding of [searchFlights]

    The repository holds four versions of the same Express relay.  Each one
    defines [searchFlights(params)], which checks a request, calls the
    flight-data provider once through [axios.get] and flattens the answer.

    - [Server]   : src/server.js                      (one-way and round-trip)
    - [Part000a] : src/unnamed/part_000, first file   (one-way, INR)
    - [Part000b] : src/unnamed/part_000, second file  (no type flag, USD)
    - [Part001]  : src/unnamed/part_001               (one-way, empty result fails)

    What is modelled, and how:

    - JavaScript values are [value]; [||], [&&], [===] and [?.] are
      [or_else], [and_then], [strict_eq] and [chain];
    - a request field is [param]: absent, [null], or a string;
    - the provider's JSON answer has the shape the relay reads it in: the
      records of module [Serp], whose leaves are any [value];
    - an exception is the left side of [result]; the [try] block of
      [searchFlights] is the only place that catches;
    - the call to the provider is a [call] written in the log that
      [searchFlights] returns beside its answer; what the provider answers
      is the field [axios_get] of the [world]. *)

From Stdlib Require Import String Ascii List ZArith Bool Arith Lia.
Import ListNotations.
Open Scope string_scope.

(** ** JavaScript values *)

(** The values a parsed JSON document can hold, and [undefined] for what is
    absent.  Numbers are the integers among the JavaScript numbers (prices,
    minutes, counts). *)
#[warnings="-register-all"]
Inductive value : Type :=
| VUndefined
| VNull
| VBool (b : bool)
| VNum (n : Z)
| VStr (s : string)
| VArr (elems : list value)
| VObj (props : list (string * value)).

(** ToBoolean. *)
Definition truthy (v : value) : bool :=
  match v with
  | VUndefined | VNull => false
  | VBool b => b
  | VNum n => negb (n =? 0)%Z
  | VStr s => negb (s =? "")
  | VArr _ | VObj _ => true
  end.

(** [v == null], the test behind [?.]. *)
Definition nullish (v : value) : bool :=
  match v with
  | VUndefined | VNull => true
  | _ => false
  end.

(** [a || b] and [a && b] return one of their operands. *)
Definition or_else (a b : value) : value := if truthy a then a else b.
Definition and_then (a b : value) : value := if truthy a then b else a.

Infix "|||" := or_else (at level 50, left associativity).
Infix "&&&" := and_then (at level 40, left associativity).

(** [l ++%L l'] is the concatenation of arrays where [++] is that of strings. *)
Notation "l ++%L l'" := (@app _ l l') (at level 60, right associativity, only parsing).

(** [a === b].  Arrays and objects are compared by reference; the two sides
    of every comparison in the relay come from two different JSON documents
    (the request and the provider's answer), so they are never the same
    reference. *)
Definition strict_eq (a b : value) : bool :=
  match a, b with
  | VUndefined, VUndefined => true
  | VNull, VNull => true
  | VBool x, VBool y => Bool.eqb x y
  | VNum x, VNum y => (x =? y)%Z
  | VStr x, VStr y => (x =? y)
  | _, _ => false
  end.

(** ** Strings

    A [string] stands for a JavaScript string whose code units are below 256. *)

(** String.prototype.includes. *)
Fixpoint includes (s sub : string) : bool :=
  if String.prefix sub s then true
  else match s with
       | EmptyString => false
       | String _ rest => includes rest sub
       end.

(** White space and line terminators, as [trim] sees them, below 256:
    TAB, LF, VT, FF, CR, SP and NBSP. *)
Definition is_white (c : ascii) : bool :=
  let n := nat_of_ascii c in
  ((9 <=? n)%nat && (n <=? 13)%nat) || (n =? 32)%nat || (n =? 160)%nat.

Fixpoint trimStart (s : string) : string :=
  match s with
  | EmptyString => EmptyString
  | String c rest => if is_white c then trimStart rest else s
  end.

Fixpoint trimEnd (s : string) : string :=
  match s with
  | EmptyString => EmptyString
  | String c rest =>
      match trimEnd rest with
      | EmptyString => if is_white c then EmptyString else String c EmptyString
      | kept => String c kept
      end
  end.

(** String.prototype.trim. *)
Definition trim (s : string) : string := trimEnd (trimStart s).

(** ** The request *)

(** A field of the parameter bag: absent, [null], or a string (the request
    carries airport codes and ISO dates). *)
Inductive param : Type :=
| PUndefined
| PNull
| PStr (s : string).

Definition value_of (p : param) : value :=
  match p with
  | PUndefined => VUndefined
  | PNull => VNull
  | PStr s => VStr s
  end.

Coercion value_of : param >-> value.

(** ToString, as a template literal or [includes] applies it. *)
Definition ToString (p : param) : string :=
  match p with
  | PUndefined => "undefined"
  | PNull => "null"
  | PStr s => s
  end.

Module Params.
Record t : Type := mk {
  origin : param;
  destination : param;
  departure_date : param;
  return_date : param
}.
End Params.

(** ** The provider's answer *)

Module Serp.

Record airport : Type := {
  id : value;
  name : value;
  time : value
}.

(** A leg is an object; each of its two airports is an object or absent. *)
Record leg : Type := {
  airline : value;
  flight_number : value;
  duration : value;
  departure_airport : option airport;
  arrival_airport : option airport
}.

Record carbon : Type := {
  this_flight : value
}.

(** An itinerary; [flights] is an array of legs, or absent. *)
Record itinerary : Type := {
  flights : option (list leg);
  price : value;
  carbon_emissions : option carbon
}.

(** [response.data]. *)
Record data : Type := {
  best_flights : option (list itinerary);
  other_flights : option (list itinerary);
  price_insights : value
}.

(** The body the provider sends with an error status. *)
Record error_body : Type := {
  error : option string
}.

End Serp.

(** [a?.f] on an airport that may be absent. *)
Definition chain (a : option Serp.airport) (f : Serp.airport -> value) : value :=
  match a with
  | None => VUndefined
  | Some x => f x
  end.

(** ** Exceptions and the outbound call *)

(** What [catch (error)] receives: [error.message], and [error.response?.data]
    when the provider answered with an error status. *)
Record exn : Type := {
  message : string;
  response_data : option Serp.error_body
}.

Definition TypeError (msg : string) : exn :=
  {| message := msg; response_data := None |}.

Definition result (A : Type) : Type := (exn + A)%type.

Definition ret {A} (a : A) : result A := inr a.
Definition throw {A} (e : exn) : result A := inl e.
Definition bind {A B} (m : result A) (k : A -> result B) : result B :=
  match m with
  | inl e => inl e
  | inr a => k a
  end.

Notation "x <- m ;; k" := (bind m (fun x => k))
  (at level 100, m at next level, right associativity).

(** One call [axios.get(url, { params, timeout })]. *)
Record call : Type := {
  url : string;
  query : list (string * value);
  timeout : Z
}.

(** What the process is started with and what the network answers. *)
Record world : Type := {
  SERP_API_KEY : option string;
  axios_get : call -> result Serp.data
}.

(** [!SERP_API_KEY]. *)
Definition configured (w : world) : bool :=
  match SERP_API_KEY w with
  | None => false
  | Some k => negb (k =? "")
  end.

Definition api_key (w : world) : value :=
  match SERP_API_KEY w with
  | None => VUndefined
  | Some k => VStr k
  end.

(** What axios writes in the URL: parameters that are [null] or [undefined]
    are left out. *)
Definition rendered (q : list (string * value)) : list (string * value) :=
  filter (fun kv => negb (nullish (snd kv))) q.

Definition has_key (k : string) (q : list (string * value)) : bool :=
  existsb (fun kv => fst kv =? k) q.

Fixpoint lookup (k : string) (q : list (string * value)) : value :=
  match q with
  | [] => VUndefined
  | (k', v) :: rest => if k' =? k then v else lookup k rest
  end.

(** [array.forEach(f)] where [f] updates the array [flights] being built and
    may throw. *)
Fixpoint forEach {A S : Type} (l : list A) (f : A -> S -> result S) (s : S)
  : result S :=
  match l with
  | [] => ret s
  | x :: rest => s' <- f x s ;; forEach rest f s'
  end.

(** [array.find((x, idx) => p)] from index [idx] on; [None] is [undefined]. *)
Fixpoint find_from {A : Type} (p : A -> nat -> result bool) (l : list A)
  (idx : nat) : result (option A) :=
  match l with
  | [] => ret None
  | x :: rest =>
      b <- p x idx ;;
      if b then ret (Some x) else find_from p rest (S idx)
  end.

Definition find {A : Type} (p : A -> nat -> result bool) (l : list A)
  : result (option A) := find_from p l 0.

(** An array that may be absent, read as a list. *)
Definition items {A : Type} (o : option (list A)) : list A :=
  match o with
  | Some l => l
  | None => []
  end.

(** [if (array && array.length > 0) array'.forEach(f)], where [array'] is
    [array] or a slice of it. *)
Definition when_some {A S : Type} (array : option (list A))
  (slice : list A -> list A) (f : A -> S -> result S) (s : S) : result S :=
  match array with
  | Some l => if (0 <? length l)%nat then forEach (slice l) f s else ret s
  | None => ret s
  end.

(** [error.response?.data?.error || error.message]. *)
Definition diagnostic (e : exn) : string :=
  match response_data e with
  | Some body =>
      match Serp.error body with
      | Some s => if s =? "" then message e else s
      | None => message e
      end
  | None => message e
  end.

(** ** The relay's answer *)

Module Details.
(** The [outbound] and [return] objects of src/server.js. *)
Record t : Type := mk {
  departure_time : value;
  arrival_time : value;
  departure_airport : value;
  arrival_airport : value;
  duration : value;
  airline : value;
  flight_number : value
}.
End Details.

(** One element of [flights].  A key that a version or a branch does not set
    is [None]. *)
Record flightData : Type := {
  type : string;
  airline : value;
  flight_number : value;
  departure_time : option value;
  arrival_time : option value;
  departure_airport : option value;
  arrival_airport : option value;
  duration : option value;
  price : value;
  stops : Z;
  carbon_emissions : option value;
  is_round_trip : option value;
  outbound : option Details.t;
  return_ : option Details.t
}.

(** The object [searchFlights] returns.  A key that is not set is [None];
    [serp_error] is [Some None] when it is set to [null]. *)
Record envelope : Type := {
  success : bool;
  error : option string;
  fallback_message : option string;
  serp_error : option (option Serp.error_body);
  received : option Params.t;
  route : option string;
  date : option value;
  return_date : option value;
  trip_type : option string;
  flights : option (list flightData);
  total_results : option Z;
  price_insights : option value
}.

(** ** src/server.js *)

Module Server.

(** Line 136: [return_date && return_date !== null && return_date !== 'null'
    && return_date.trim() !== '']; when [return_date] is falsy the chain
    stops at it and [trim] is not called. *)
Definition isRoundTrip (return_date : param) : value :=
  match return_date with
  | PStr s =>
      VStr s
      &&& VBool (negb (strict_eq (VStr s) VNull))
      &&& VBool (negb (strict_eq (VStr s) (VStr "null")))
      &&& VBool (negb (trim s =? ""))
  | falsy => falsy
  end.

(** Lines 143-158. *)
Definition searchParams (w : world) (params : Params.t) : list (string * value) :=
  let isRoundTrip := isRoundTrip (Params.return_date params) in
  [ ("engine", VStr "google_flights");
    ("departure_id", value_of (Params.origin params));
    ("arrival_id", value_of (Params.destination params));
    ("outbound_date", value_of (Params.departure_date params));
    ("type", VStr (if truthy isRoundTrip then "1" else "2"));
    ("currency", VStr "INR");
    ("hl", VStr "en");
    ("api_key", api_key w) ]
  ++%L (if truthy isRoundTrip
      then [("return_date", value_of (Params.return_date params))]
      else []).

(** [name?.includes(x)]: a string searches for [String(x)], an array for an
    element equal to [x], and any other value that is not nullish has no
    [includes] to call. *)
Definition includes_call (name : value) (x : param) : result value :=
  match name with
  | VUndefined | VNull => ret VUndefined
  | VStr s => ret (VBool (includes s (ToString x)))
  | VArr elems => ret (VBool (existsb (fun e => strict_eq e x) elems))
  | _ => throw (TypeError "leg.departure_airport?.name?.includes is not a function")
  end.

(** Lines 191-193, 284-286: the callback of the first [find]. *)
Definition is_outbound (origin : param) (leg : Serp.leg) (idx : nat)
  : result bool :=
  if strict_eq (chain (Serp.departure_airport leg) Serp.id) origin then ret true
  else
    v <- includes_call (chain (Serp.departure_airport leg) Serp.name) origin ;;
    ret (truthy v).

(** Lines 197-202, 290-295: the callback of the second [find]. *)
Definition is_return (origin destination : param) (leg : Serp.leg) (idx : nat)
  : result bool :=
  if (idx =? 0)%nat then ret false
  else if strict_eq (chain (Serp.departure_airport leg) Serp.id) destination
  then ret true
  else if strict_eq (chain (Serp.arrival_airport leg) Serp.id) origin
  then ret true
  else
    v <- includes_call (chain (Serp.departure_airport leg) Serp.name) destination ;;
    ret (truthy v).

(** [find(...) || flight.flights[0]], for a list whose first leg is [first];
    a leg is an object, hence truthy. *)
Definition outboundLeg (origin : param) (first : Serp.leg)
  (legs : list Serp.leg) : result Serp.leg :=
  found <- find (is_outbound origin) legs ;;
  ret (match found with Some leg => leg | None => first end).

(** [find(...) || flight.flights[flight.flights.length - 1]]. *)
Definition returnLeg (origin destination : param) (first : Serp.leg)
  (legs : list Serp.leg) : result Serp.leg :=
  found <- find (is_return origin destination) legs ;;
  ret (match found with Some leg => leg | None => last legs first end).

(** The object literal of lines 209-217, 220-228 and 251-259. *)
Definition details (leg : Serp.leg) (from to : param) : Details.t :=
  {| Details.departure_time :=
       chain (Serp.departure_airport leg) Serp.time ||| VStr "N/A";
     Details.arrival_time :=
       chain (Serp.arrival_airport leg) Serp.time ||| VStr "N/A";
     Details.departure_airport :=
       chain (Serp.departure_airport leg) Serp.id ||| value_of from;
     Details.arrival_airport :=
       chain (Serp.arrival_airport leg) Serp.id ||| value_of to;
     Details.duration := Serp.duration leg ||| VStr "N/A";
     Details.airline := Serp.airline leg ||| VStr "Unknown";
     Details.flight_number := Serp.flight_number leg ||| VStr "N/A" |}.

(** The record of the round-trip branch (lines 180-233 and 274-323). *)
Definition round_trip_record (tag : string) (isRoundTrip : value)
  (origin destination : param) (flight : Serp.itinerary)
  (outboundLeg returnLeg : Serp.leg) : flightData :=
  {| type := tag;
     price := Serp.price flight ||| VStr "N/A";
     is_round_trip := Some isRoundTrip;
     outbound := Some (details outboundLeg origin destination);
     return_ := Some (details returnLeg destination origin);
     airline := Serp.airline outboundLeg ||| VStr "Unknown";
     flight_number := Serp.flight_number outboundLeg ||| VStr "N/A";
     stops := Z.of_nat (length (items (Serp.flights flight))) - 2;
     departure_time := None;
     arrival_time := None;
     departure_airport := None;
     arrival_airport := None;
     duration := None;
     carbon_emissions := None |}.

(** The record of the one-way branch (lines 180-184, 241-259 and 274-278,
    327-345). *)
Definition one_way_record (tag : string) (isRoundTrip : value)
  (origin destination : param) (flight : Serp.itinerary) (leg : Serp.leg)
  : flightData :=
  {| type := tag;
     price := Serp.price flight ||| VStr "N/A";
     is_round_trip := Some isRoundTrip;
     airline := Serp.airline leg ||| VStr "Unknown";
     flight_number := Serp.flight_number leg ||| VStr "N/A";
     departure_time :=
       Some (chain (Serp.departure_airport leg) Serp.time ||| VStr "N/A");
     arrival_time :=
       Some (chain (Serp.arrival_airport leg) Serp.time ||| VStr "N/A");
     duration := Some (Serp.duration leg ||| VStr "N/A");
     stops := Z.of_nat (length (items (Serp.flights flight))) - 1;
     outbound := Some (details leg origin destination);
     return_ := None;
     departure_airport := None;
     arrival_airport := None;
     carbon_emissions := None |}.

(** The callback of both [forEach] (lines 176-264 and 271-350): [tag] is
    ['best'] or ['other']; the array [flights] is the state. *)
Definition eachFlight (tag : string) (isRoundTrip : value)
  (origin destination : param) (flight : Serp.itinerary)
  (flights : list flightData) : result (list flightData) :=
  match Serp.flights flight with
  | Some ((first :: _) as legs) =>
      if truthy isRoundTrip && (2 <=? length legs)%nat then
        outboundLeg <- outboundLeg origin first legs ;;
        returnLeg <- returnLeg origin destination first legs ;;
        ret (flights ++%L
               [round_trip_record tag isRoundTrip origin destination flight
                  outboundLeg returnLeg])
      else
        let leg := first in
        ret (flights ++%L
               [one_way_record tag isRoundTrip origin destination flight leg])
  | _ => ret flights
  end.

(** Lines 169-365, after the call. *)
Definition transform (params : Params.t) (data : Serp.data) : result envelope :=
  let origin := Params.origin params in
  let destination := Params.destination params in
  let isRoundTrip := isRoundTrip (Params.return_date params) in
  flights <- when_some (Serp.best_flights data) (fun l => l)
               (eachFlight "best" isRoundTrip origin destination) [] ;;
  flights <- when_some (Serp.other_flights data) (firstn 5)
               (eachFlight "other" isRoundTrip origin destination) flights ;;
  ret {| success := true;
         route := Some (ToString origin ++ " to " ++ ToString destination);
         date := Some (value_of (Params.departure_date params));
         return_date := Some (value_of (Params.return_date params) ||| VNull);
         trip_type := Some (if truthy isRoundTrip then "round-trip" else "one-way");
         flights := Some flights;
         total_results := Some (Z.of_nat (length flights));
         price_insights := Some (Serp.price_insights data ||| VNull);
         error := None; fallback_message := None; serp_error := None;
         received := None |}.

(** Lines 367-384. *)
Definition on_error (params : Params.t) (e : exn) : envelope :=
  {| success := false;
     error := Some (message e);
     serp_error := Some (response_data e);
     fallback_message :=
       Some ("Unable to fetch flights for " ++ ToString (Params.origin params)
             ++ " to " ++ ToString (Params.destination params)
             ++ " on " ++ ToString (Params.departure_date params)
             ++ ". " ++ diagnostic e);
     received := None; route := None; date := None; return_date := None;
     trip_type := None; flights := None; total_results := None;
     price_insights := None |}.

(** [axios.get(url, { params: searchParams, timeout: 30000 })]. *)
Definition request (w : world) (params : Params.t) : call :=
  {| url := "https://serpapi.com/search";
     query := searchParams w params;
     timeout := 30000 |}.

(** Lines 110-385.  The result is the log of the calls made to the provider
    and the object returned. *)
Definition searchFlights (w : world) (params : Params.t)
  : list call * envelope :=
  if negb (truthy (Params.origin params))
     || negb (truthy (Params.destination params))
     || negb (truthy (Params.departure_date params))
  then
    ([], {| success := false;
            error := Some "Missing required parameters: origin, destination, or departure_date";
            fallback_message := None; serp_error := None; received := None;
            route := None; date := None; return_date := None;
            trip_type := None; flights := None; total_results := None;
            price_insights := None |})
  else if negb (configured w) then
    ([], {| success := false;
            error := Some "SERP_API_KEY not configured";
            fallback_message :=
              Some "MCP server configuration error - API key missing";
            serp_error := None; received := None;
            route := None; date := None; return_date := None;
            trip_type := None; flights := None; total_results := None;
            price_insights := None |})
  else
    let request := request w params in
    ([request],
     match (data <- axios_get w request ;; transform params data) with
     | inr answer => answer
     | inl e => on_error params e
     end).

End Server.

(** ** src/unnamed/part_000, first file *)

Module Part000a.

(** Lines 135-144. *)
Definition searchParams (w : world) (params : Params.t) : list (string * value) :=
  [ ("engine", VStr "google_flights");
    ("departure_id", value_of (Params.origin params));
    ("arrival_id", value_of (Params.destination params));
    ("outbound_date", value_of (Params.departure_date params));
    ("type", VStr "2");
    ("currency", VStr "INR");
    ("hl", VStr "en");
    ("api_key", api_key w) ].

(** The object pushed at lines 163-172 and 182-191. *)
Definition record (tag : string) (flight : Serp.itinerary)
  (firstLeg : Serp.leg) : flightData :=
  {| type := tag;
     airline := Serp.airline firstLeg ||| VStr "Unknown";
     flight_number := Serp.flight_number firstLeg ||| VStr "N/A";
     departure_time :=
       Some (chain (Serp.departure_airport firstLeg) Serp.time ||| VStr "N/A");
     arrival_time :=
       Some (chain (Serp.arrival_airport firstLeg) Serp.time ||| VStr "N/A");
     duration := Some (Serp.duration firstLeg ||| VStr "N/A");
     price := Serp.price flight ||| VStr "N/A";
     stops := Z.of_nat (length (items (Serp.flights flight))) - 1;
     departure_airport := None;
     arrival_airport := None;
     carbon_emissions := None;
     is_round_trip := None;
     outbound := None;
     return_ := None |}.

(** The callback of both [forEach] (lines 160-174 and 179-193); the test is
    [flight.flights && flight.flights[0]], and a leg is an object, hence
    truthy. *)
Definition eachFlight (tag : string) (flight : Serp.itinerary)
  (flights : list flightData) : result (list flightData) :=
  match Serp.flights flight with
  | Some (firstLeg :: _) => ret (flights ++%L [record tag flight firstLeg])
  | _ => ret flights
  end.

(** Lines 155-205. *)
Definition transform (params : Params.t) (data : Serp.data) : result envelope :=
  flights <- when_some (Serp.best_flights data) (fun l => l)
               (eachFlight "best") [] ;;
  flights <- when_some (Serp.other_flights data) (firstn 5)
               (eachFlight "other") flights ;;
  ret {| success := true;
         route := Some (ToString (Params.origin params) ++ " to "
                        ++ ToString (Params.destination params));
         date := Some (value_of (Params.departure_date params));
         flights := Some flights;
         total_results := Some (Z.of_nat (length flights));
         price_insights := Some (Serp.price_insights data ||| VNull);
         return_date := None; trip_type := None;
         error := None; fallback_message := None; serp_error := None;
         received := None |}.

(** Lines 207-217. *)
Definition on_error (params : Params.t) (e : exn) : envelope :=
  {| success := false;
     error := Some (message e);
     fallback_message :=
       Some ("Unable to fetch flights for " ++ ToString (Params.origin params)
             ++ " to " ++ ToString (Params.destination params)
             ++ " on " ++ ToString (Params.departure_date params)
             ++ ". Error: " ++ message e);
     serp_error := None;
     received := None; route := None; date := None; return_date := None;
     trip_type := None; flights := None; total_results := None;
     price_insights := None |}.

(** [axios.get(url, { params: searchParams, timeout: 30000 })]. *)
Definition request (w : world) (params : Params.t) : call :=
  {| url := "https://serpapi.com/search";
     query := searchParams w params;
     timeout := 30000 |}.

(** Lines 110-218. *)
Definition searchFlights (w : world) (params : Params.t)
  : list call * envelope :=
  if negb (truthy (Params.origin params))
     || negb (truthy (Params.destination params))
     || negb (truthy (Params.departure_date params))
  then
    ([], {| success := false;
            error := Some "Missing required parameters: origin, destination, or departure_date";
            fallback_message := None; serp_error := None; received := None;
            route := None; date := None; return_date := None;
            trip_type := None; flights := None; total_results := None;
            price_insights := None |})
  else if negb (configured w) then
    ([], {| success := false;
            error := Some "SERP_API_KEY not configured";
            fallback_message :=
              Some "MCP server configuration error - API key missing";
            serp_error := None; received := None;
            route := None; date := None; return_date := None;
            trip_type := None; flights := None; total_results := None;
            price_insights := None |})
  else
    let request := request w params in
    ([request],
     match (data <- axios_get w request ;; transform params data) with
     | inr answer => answer
     | inl e => on_error params e
     end).

End Part000a.

(** ** src/unnamed/part_000, second file *)

Module Part000b.

(** Lines 303-312: the key [return_date] is always set, to [undefined] when
    [return_date] is falsy; no [type] is sent. *)
Definition searchParams (w : world) (params : Params.t) : list (string * value) :=
  [ ("engine", VStr "google_flights");
    ("departure_id", value_of (Params.origin params));
    ("arrival_id", value_of (Params.destination params));
    ("outbound_date", value_of (Params.departure_date params));
    ("return_date", value_of (Params.return_date params) ||| VUndefined);
    ("currency", VStr "USD");
    ("hl", VStr "en");
    ("api_key", api_key w) ].

(** The object pushed at lines 329-339 and 349-358; only the first sets
    [carbon_emissions]. *)
Definition record (tag : string) (carbon : Serp.itinerary -> option value)
  (flight : Serp.itinerary) (firstLeg : Serp.leg) : flightData :=
  {| type := tag;
     airline := Serp.airline firstLeg ||| VStr "Unknown";
     flight_number := Serp.flight_number firstLeg ||| VStr "N/A";
     departure_time :=
       Some (chain (Serp.departure_airport firstLeg) Serp.time ||| VStr "N/A");
     arrival_time :=
       Some (chain (Serp.arrival_airport firstLeg) Serp.time ||| VStr "N/A");
     duration := Some (Serp.duration firstLeg ||| VStr "N/A");
     price := Serp.price flight ||| VStr "N/A";
     stops := Z.of_nat (length (items (Serp.flights flight))) - 1;
     carbon_emissions := carbon flight;
     departure_airport := None;
     arrival_airport := None;
     is_round_trip := None;
     outbound := None;
     return_ := None |}.

(** The callback of both [forEach] (lines 326-341 and 346-360); the test is
    [flight.flights && flight.flights[0]]. *)
Definition eachFlight (tag : string)
  (carbon : Serp.itinerary -> option value) (flight : Serp.itinerary)
  (flights : list flightData) : result (list flightData) :=
  match Serp.flights flight with
  | Some (firstLeg :: _) =>
      ret (flights ++%L [record tag carbon flight firstLeg])
  | _ => ret flights
  end.

(** [flight.carbon_emissions?.this_flight || 'N/A'] (line 338). *)
Definition carbon_best (flight : Serp.itinerary) : option value :=
  Some (match Serp.carbon_emissions flight with
        | None => VUndefined
        | Some c => Serp.this_flight c
        end ||| VStr "N/A").

Definition carbon_other (flight : Serp.itinerary) : option value := None.

(** Lines 321-370. *)
Definition transform (params : Params.t) (data : Serp.data) : result envelope :=
  flights <- when_some (Serp.best_flights data) (fun l => l)
               (eachFlight "best" carbon_best) [] ;;
  flights <- when_some (Serp.other_flights data) (firstn 5)
               (eachFlight "other" carbon_other) flights ;;
  ret {| success := true;
         route := Some (ToString (Params.origin params) ++ " to "
                        ++ ToString (Params.destination params));
         date := Some (value_of (Params.departure_date params));
         flights := Some flights;
         total_results := Some (Z.of_nat (length flights));
         price_insights := Some (Serp.price_insights data ||| VNull);
         return_date := None; trip_type := None;
         error := None; fallback_message := None; serp_error := None;
         received := None |}.

(** Lines 372-379. *)
Definition on_error (params : Params.t) (e : exn) : envelope :=
  {| success := false;
     error := Some (message e);
     fallback_message :=
       Some ("Unable to fetch flights for " ++ ToString (Params.origin params)
             ++ " to " ++ ToString (Params.destination params)
             ++ " on " ++ ToString (Params.departure_date params)
             ++ ". Please check airport codes and date format.");
     serp_error := None;
     received := None; route := None; date := None; return_date := None;
     trip_type := None; flights := None; total_results := None;
     price_insights := None |}.

(** [axios.get(url, { params: searchParams, timeout: 30000 })]. *)
Definition request (w : world) (params : Params.t) : call :=
  {| url := "https://serpapi.com/search";
     query := searchParams w params;
     timeout := 30000 |}.

(** Lines 289-380: the request fields are not checked. *)
Definition searchFlights (w : world) (params : Params.t)
  : list call * envelope :=
  if negb (configured w) then
    ([], {| success := false;
            error := Some "SERP_API_KEY not configured";
            fallback_message := Some "MCP server configuration error";
            serp_error := None; received := None;
            route := None; date := None; return_date := None;
            trip_type := None; flights := None; total_results := None;
            price_insights := None |})
  else
    let request := request w params in
    ([request],
     match (data <- axios_get w request ;; transform params data) with
     | inr answer => answer
     | inl e => on_error params e
     end).

End Part000b.

(** ** src/unnamed/part_001 *)

Module Part001.

(** Lines 157-166. *)
Definition searchParams (w : world) (params : Params.t) : list (string * value) :=
  [ ("engine", VStr "google_flights");
    ("departure_id", value_of (Params.origin params));
    ("arrival_id", value_of (Params.destination params));
    ("outbound_date", value_of (Params.departure_date params));
    ("type", VStr "2");
    ("currency", VStr "INR");
    ("hl", VStr "en");
    ("api_key", api_key w) ].

(** The object of lines 190-202 and 224-235; only the first sets
    [carbon_emissions]. *)
Definition record (tag : string) (carbon : Serp.itinerary -> option value)
  (origin destination : param) (flight : Serp.itinerary) (leg : Serp.leg)
  : flightData :=
  {| type := tag;
     airline := Serp.airline leg ||| VStr "Unknown";
     flight_number := Serp.flight_number leg ||| VStr "N/A";
     departure_time :=
       Some (chain (Serp.departure_airport leg) Serp.time ||| VStr "N/A");
     arrival_time :=
       Some (chain (Serp.arrival_airport leg) Serp.time ||| VStr "N/A");
     departure_airport :=
       Some (chain (Serp.departure_airport leg) Serp.id ||| value_of origin);
     arrival_airport :=
       Some (chain (Serp.arrival_airport leg) Serp.id ||| value_of destination);
     duration := Some (Serp.duration leg ||| VStr "N/A");
     price := Serp.price flight ||| VStr "N/A";
     stops := Z.of_nat (length (items (Serp.flights flight))) - 1;
     carbon_emissions := carbon flight;
     is_round_trip := None;
     outbound := None;
     return_ := None |}.

(** The callback of both [forEach] (lines 186-210 and 220-237); the test is
    [flight.flights && flight.flights[0]]. *)
Definition eachFlight (tag : string)
  (carbon : Serp.itinerary -> option value) (origin destination : param)
  (flight : Serp.itinerary) (flights : list flightData)
  : result (list flightData) :=
  match Serp.flights flight with
  | Some (leg :: _) =>
      ret (flights ++%L [record tag carbon origin destination flight leg])
  | _ => ret flights
  end.

(** [flight.carbon_emissions?.this_flight || null] (line 201). *)
Definition carbon_best (flight : Serp.itinerary) : option value :=
  Some (match Serp.carbon_emissions flight with
        | None => VUndefined
        | Some c => Serp.this_flight c
        end ||| VNull).

Definition carbon_other (flight : Serp.itinerary) : option value := None.

(** Lines 179-263: an empty [flights] is a failure. *)
Definition transform (params : Params.t) (data : Serp.data) : result envelope :=
  let origin := Params.origin params in
  let destination := Params.destination params in
  flights <- when_some (Serp.best_flights data) (fun l => l)
               (eachFlight "best" carbon_best origin destination) [] ;;
  flights <- when_some (Serp.other_flights data) (firstn 5)
               (eachFlight "other" carbon_other origin destination) flights ;;
  if (length flights =? 0)%nat then
    ret {| success := false;
           error := Some "No flights found";
           fallback_message :=
             Some ("No flights available for " ++ ToString origin ++ " to "
                   ++ ToString destination ++ " on "
                   ++ ToString (Params.departure_date params));
           flights := Some [];
           total_results := Some 0%Z;
           serp_error := None; received := None; route := None; date := None;
           return_date := None; trip_type := None; price_insights := None |}
  else
    ret {| success := true;
           route := Some (ToString origin ++ " to " ++ ToString destination);
           date := Some (value_of (Params.departure_date params));
           flights := Some flights;
           total_results := Some (Z.of_nat (length flights));
           price_insights := Some (Serp.price_insights data ||| VNull);
           return_date := None; trip_type := None;
           error := None; fallback_message := None; serp_error := None;
           received := None |}.

(** Lines 265-289. *)
Definition on_error (params : Params.t) (e : exn) : envelope :=
  {| success := false;
     error := Some (message e);
     serp_error := Some (response_data e);
     fallback_message :=
       Some ("Unable to fetch flights for " ++ ToString (Params.origin params)
             ++ " to " ++ ToString (Params.destination params)
             ++ " on " ++ ToString (Params.departure_date params)
             ++ ". " ++ diagnostic e);
     received := None; route := None; date := None; return_date := None;
     trip_type := None; flights := None; total_results := None;
     price_insights := None |}.

(** [axios.get(url, { params: searchParams, timeout: 30000 })]. *)
Definition request (w : world) (params : Params.t) : call :=
  {| url := "https://serpapi.com/search";
     query := searchParams w params;
     timeout := 30000 |}.

(** Lines 129-290. *)
Definition searchFlights (w : world) (params : Params.t)
  : list call * envelope :=
  if negb (truthy (Params.origin params))
     || negb (truthy (Params.destination params))
     || negb (truthy (Params.departure_date params))
  then
    ([], {| success := false;
            error := Some "Missing required parameters: origin, destination, or departure_date";
            received := Some params;
            fallback_message := None; serp_error := None;
            route := None; date := None; return_date := None;
            trip_type := None; flights := None; total_results := None;
            price_insights := None |})
  else if negb (configured w) then
    ([], {| success := false;
            error := Some "SERP_API_KEY not configured";
            fallback_message :=
              Some "MCP server configuration error - API key missing";
            serp_error := None; received := None;
            route := None; date := None; return_date := None;
            trip_type := None; flights := None; total_results := None;
            price_insights := None |})
  else
    let request := request w params in
    ([request],
     match (data <- axios_get w request ;; transform params data) with
     | inr answer => answer
     | inl e => on_error params e
     end).

End Part001.

From Stdlib Require QArith.

(** ** src/server.js, for a [return_date] of any kind *)

(** The parameters as src/server.js reads them when [return_date] is any
    JSON value, [undefined] when it is absent; the three required fields
    stay absent, [null] or strings. *)
Module Request.
Record t : Type := mk {
  origin : param;
  destination : param;
  departure_date : param;
  return_date : value
}.

(** What is read of a value that has none of the four fields. *)
Definition nothing : t := mk PUndefined PUndefined PUndefined VUndefined.
End Request.

Module ServerAny.

(** The fields that the checks, the records and the [catch] block read. *)
Definition required (r : Request.t) : Params.t :=
  Params.mk (Request.origin r) (Request.destination r)
            (Request.departure_date r) PUndefined.

(** A request whose [return_date] is absent, [null] or a string. *)
Definition of_params (params : Params.t) : Request.t :=
  Request.mk (Params.origin params) (Params.destination params)
             (Params.departure_date params)
             (value_of (Params.return_date params)).

(** Line 136: [return_date && return_date !== null && return_date !== 'null'
    && return_date.trim() !== '']; the chain stops at its first falsy
    operand, so [return_date.trim()] is called for a truthy [return_date]
    other than ['null'], and only a string has a [trim] to call. *)
Definition isRoundTrip (return_date : value) : result value :=
  if negb (truthy return_date) then ret return_date
  else if strict_eq return_date VNull then ret (VBool false)
  else if strict_eq return_date (VStr "null") then ret (VBool false)
  else match return_date with
       | VStr s => ret (VBool (negb (trim s =? "")))
       | _ => throw (TypeError "return_date.trim is not a function")
       end.

(** Lines 143-158. *)
Definition searchParams (w : world) (r : Request.t) (isRoundTrip : value)
  : list (string * value) :=
  [ ("engine", VStr "google_flights");
    ("departure_id", value_of (Request.origin r));
    ("arrival_id", value_of (Request.destination r));
    ("outbound_date", value_of (Request.departure_date r));
    ("type", VStr (if truthy isRoundTrip then "1" else "2"));
    ("currency", VStr "INR");
    ("hl", VStr "en");
    ("api_key", api_key w) ]
  ++%L (if truthy isRoundTrip
      then [("return_date", Request.return_date r)]
      else []).

(** Lines 169-365, after the call; the two callbacks are those of
    [Server]. *)
Definition transform (r : Request.t) (isRoundTrip : value) (data : Serp.data)
  : result envelope :=
  let origin := Request.origin r in
  let destination := Request.destination r in
  flights <- when_some (Serp.best_flights data) (fun l => l)
               (Server.eachFlight "best" isRoundTrip origin destination) [] ;;
  flights <- when_some (Serp.other_flights data) (firstn 5)
               (Server.eachFlight "other" isRoundTrip origin destination) flights ;;
  ret {| success := true;
         route := Some (ToString origin ++ " to " ++ ToString destination);
         date := Some (value_of (Request.departure_date r));
         return_date := Some (Request.return_date r ||| VNull);
         trip_type := Some (if truthy isRoundTrip then "round-trip" else "one-way");
         flights := Some flights;
         total_results := Some (Z.of_nat (length flights));
         price_insights := Some (Serp.price_insights data ||| VNull);
         error := None; fallback_message := None; serp_error := None;
         received := None |}.

(** [axios.get(url, { params: searchParams, timeout: 30000 })]. *)
Definition request (w : world) (r : Request.t) (isRoundTrip : value) : call :=
  {| url := "https://serpapi.com/search";
     query := searchParams w r isRoundTrip;
     timeout := 30000 |}.

(** Lines 110-385.  Line 136 is inside the [try] block and before the call:
    when it throws, the [catch] block answers and no call is made. *)
Definition searchFlights (w : world) (r : Request.t) : list call * envelope :=
  if negb (truthy (Request.origin r))
     || negb (truthy (Request.destination r))
     || negb (truthy (Request.departure_date r))
  then
    ([], {| success := false;
            error := Some "Missing required parameters: origin, destination, or departure_date";
            fallback_message := None; serp_error := None; received := None;
            route := None; date := None; return_date := None;
            trip_type := None; flights := None; total_results := None;
            price_insights := None |})
  else if negb (configured w) then
    ([], {| success := false;
            error := Some "SERP_API_KEY not configured";
            fallback_message :=
              Some "MCP server configuration error - API key missing";
            serp_error := None; received := None;
            route := None; date := None; return_date := None;
            trip_type := None; flights := None; total_results := None;
            price_insights := None |})
  else
    match isRoundTrip (Request.return_date r) with
    | inl e => ([], Server.on_error (required r) e)
    | inr isRoundTrip =>
        let request := request w r isRoundTrip in
        ([request],
         match (data <- axios_get w request ;; transform r isRoundTrip data) with
         | inr answer => answer
         | inl e => Server.on_error (required r) e
         end)
    end.

End ServerAny.

(** ** POST /execute-tool *)

(** A value of [parameters] that is neither absent, nor [null], nor an
    object: a boolean, a number, a string or an array.  It has none of the
    four fields [searchFlights] reads. *)
Inductive plain : Type :=
| PlainBool (b : bool)
| PlainNum (n : Z)
| PlainStr (s : string)
| PlainArr (elems : list value).

Definition plain_value (v : plain) : value :=
  match v with
  | PlainBool b => VBool b
  | PlainNum n => VNum n
  | PlainStr s => VStr s
  | PlainArr elems => VArr elems
  end.

(** [req.body.parameters]: absent, [null], a value without fields, or an
    object, kept as the fields [searchFlights] reads from it. *)
Inductive bag (P : Type) : Type :=
| NoBag
| NullBag
| Plain (v : plain)
| Bag (params : P).

Arguments NoBag {P}.
Arguments NullBag {P}.
Arguments Plain {P} v.
Arguments Bag {P} params.

(** [req.body], an object: [{ tool, parameters }]; [tool] is absent,
    [null] or a string. *)
Module Body.
Record t (P : Type) : Type := mk {
  tool : param;
  parameters : bag P
}.
Arguments mk {P} tool parameters.
Arguments tool {P} t.
Arguments parameters {P} t.
End Body.

(** [parameters] is truthy: [!parameters] is false. *)
Definition given {P : Type} (b : bag P) : bool :=
  match b with
  | NoBag | NullBag => false
  | Plain v => truthy (plain_value v)
  | Bag _ => true
  end.

(** The first line of [searchFlights], [const { origin, ... } = params]:
    it throws when [params] is [undefined] or [null]; of any other value it
    reads the fields, each [undefined] in a value that has none. *)
Definition destructure {P : Type} (no_fields : P) (b : bag P) : result P :=
  match b with
  | NoBag =>
      throw (TypeError
        "Cannot destructure property 'origin' of 'params' as it is undefined.")
  | NullBag =>
      throw (TypeError
        "Cannot destructure property 'origin' of 'params' as it is null.")
  | Plain _ => ret no_fields
  | Bag params => ret params
  end.

(** What is read of a value that has none of the four fields. *)
Definition no_fields : Params.t :=
  Params.mk PUndefined PUndefined PUndefined PUndefined.

(** What [res.json] is given: the answer of [searchFlights], or one of the
    objects the handler builds itself.  The key [stack] of the last one is
    not kept; a key that a version does not set is [None]. *)
Inductive sent (P : Type) : Type :=
| Answer (result : envelope)
| Missing (error : string) (received : Body.t P)
| UnknownTool (error : string) (available_tools : option (list string))
| Failed (error : string).

Arguments Answer {P} result.
Arguments Missing {P} error received.
Arguments UnknownTool {P} error available_tools.
Arguments Failed {P} error.

(** [res.status(code).json(body)]; [res.json(body)] alone is status 200. *)
Record reply (P : Type) : Type := {
  status : Z;
  sent_body : sent P
}.

Arguments status {P} r.
Arguments sent_body {P} r.

(** The double-quote character. *)
Definition dquote : string := String "034"%char EmptyString.

Section ExecuteTool.

(** The fields the file's [searchFlights] reads, what it reads of a value
    without fields, and the function after its first line. *)
Context {P : Type}.
Variable nothing : P.
Variable searchFlights : world -> P -> list call * envelope.

(** [await searchFlights(parameters)], first line included.  Of the
    parameters the answer can show ([received], in part_001) the model keeps
    the fields read. *)
Definition search (w : world) (parameters : bag P)
  : list call * result envelope :=
  match destructure nothing parameters with
  | inl error => ([], throw error)
  | inr params =>
      let (log, answer) := searchFlights w params in (log, ret answer)
  end.

(** The handler of src/server.js, lines 62-107; the first file of part_000
    (lines 62-107) and part_001 (lines 60-105) have the same text. *)
Definition execute_tool (w : world) (body : Body.t P) : list call * reply P :=
  let tool := Body.tool body in
  let parameters := Body.parameters body in
  let attempt : list call * result (reply P) :=
    if negb (truthy tool) then
      ([], ret {| status := 400;
                  sent_body := Missing ("Missing " ++ dquote ++ "tool" ++ dquote
                                        ++ " parameter") body |})
    else if negb (given parameters) then
      ([], ret {| status := 400;
                  sent_body := Missing ("Missing " ++ dquote ++ "parameters"
                                        ++ dquote ++ " parameter") body |})
    else if strict_eq tool (VStr "search_flights") then
      let (log, result) := search w parameters in
      (log,
       result <- result ;;
       ret {| status := 200; sent_body := Answer result |})
    else
      ([], ret {| status := 400;
                  sent_body := UnknownTool ("Unknown tool: " ++ ToString tool)
                                 (Some ["search_flights"]) |}) in
  (fst attempt,
   match snd attempt with
   | inr r => r
   | inl error => {| status := 500; sent_body := Failed (message error) |}
   end).

(** The handler of the second file of part_000, lines 264-286: nothing is
    checked before [searchFlights(parameters)] is called. *)
Definition execute_tool_unchecked (w : world) (body : Body.t P)
  : list call * reply P :=
  let tool := Body.tool body in
  let parameters := Body.parameters body in
  let attempt : list call * result (reply P) :=
    if strict_eq tool (VStr "search_flights") then
      let (log, result) := search w parameters in
      (log,
       result <- result ;;
       ret {| status := 200; sent_body := Answer result |})
    else
      ([], ret {| status := 400;
                  sent_body := UnknownTool ("Unknown tool: " ++ ToString tool)
                                 None |}) in
  (fst attempt,
   match snd attempt with
   | inr r => r
   | inl error => {| status := 500; sent_body := Failed (message error) |}
   end).

End ExecuteTool.

(** The handler of the second file of part_000 with its [searchFlights]. *)
Definition Part000b_execute_tool (w : world) (body : Body.t Params.t)
  : list call * reply Params.t :=
  execute_tool_unchecked no_fields Part000b.searchFlights w body.

(** ** GET /health *)

(** The object of src/server.js lines 52-58, the same in the first file of
    part_000 and in part_001; [port] is [PORT] and [timestamp] the date the
    clock gives. *)
Record health_report : Type := {
  health_status : string;
  timestamp : string;
  serp_configured : bool;
  port : value;
  cors_enabled : bool
}.

(** [process.env.PORT || 3000]. *)
Definition PORT (env_PORT : option string) : value :=
  match env_PORT with
  | Some p => VStr p
  | None => VUndefined
  end ||| VNum 3000.

(** [res.json({...})], lines 50-59. *)
Definition health (w : world) (env_PORT : option string) (now : string)
  : Z * health_report :=
  (200%Z,
   {| health_status := "healthy";
      timestamp := now;
      serp_configured := configured w;
      port := PORT env_PORT;
      cors_enabled := true |}).

(** ** callGemini (src/unnamed/part_001, lines 107-126) *)

Module Gemini.

(** The JSON the completion endpoint answers, in the shape [callGemini]
    reads it: [candidates[0].content.parts[0].text] on success,
    [error?.message] on an error status.  An array or an object that is
    absent is [None]. *)
Record part : Type := {
  text : value
}.

Record content : Type := {
  parts : option (list part)
}.

Record candidate : Type := {
  content_of : option content
}.

Record failure : Type := {
  failure_message : param
}.

Record answer : Type := {
  candidates : option (list candidate);
  error : option failure
}.

(** What [fetch] resolves to: [response.ok], and what [response.json()]
    resolves to or throws. *)
Record response : Type := {
  ok : bool;
  json : result answer
}.

(** [generationConfig]. *)
Record generationConfig : Type := {
  temperature : QArith_base.Q;
  maxOutputTokens : Z
}.

(** The call [fetch(url, { method, headers, body })]; the body is the object
    given to [JSON.stringify]: the prompt is the text of the only part of
    the only content. *)
Record request : Type := {
  url : string;
  method : string;
  content_type : string;
  prompt_text : string;
  config : generationConfig
}.

(** What the process is started with and what the network answers. *)
Record world : Type := {
  GEMINI_API_KEY : option string;
  fetch : request -> result response
}.

(** [error.error?.message]. *)
Definition error_message (a : answer) : param :=
  match error a with
  | None => PUndefined
  | Some f => failure_message f
  end.

(** [undefined[0]] and [undefined.f] throw; the text is the one V8 gives. *)
Definition reading_undefined (what : string) : exn :=
  TypeError ("Cannot read properties of undefined (reading '" ++ what ++ "')").

(** Lines 108-117: the call [fetch(url, {...})]; the key is written in the
    URL by a template literal, which writes [undefined] when it is not set. *)
Definition request_for (w : world) (prompt : string) : request :=
  {| url :=
       "https://generativelanguage.googleapis.com/v1beta/models/gemini-2.5-flash:generateContent?key="
       ++ match GEMINI_API_KEY w with
          | Some k => k
          | None => "undefined"
          end;
     method := "POST";
     content_type := "application/json";
     prompt_text := prompt;
     config := {| temperature := QArith_base.Qmake 1 10;
                  maxOutputTokens := 1000 |} |}.

(** Lines 107-126.  The result is the log of the calls made and what the
    function returns or throws. *)
Definition callGemini (w : world) (prompt : string)
  : list request * result value :=
  let sent := request_for w prompt in
  ([sent],
   response <- fetch w sent ;;
   if negb (ok response) then
     error <- json response ;;
     throw {| message :=
                match error_message error with
                | PStr m => if m =? "" then "Gemini API error" else m
                | _ => "Gemini API error"
                end;
              response_data := None |}
   else
     data <- json response ;;
     match candidates data with
     | None => throw (reading_undefined "0")
     | Some [] => throw (reading_undefined "content")
     | Some (first :: _) =>
         match content_of first with
         | None => throw (reading_undefined "parts")
         | Some c =>
             match parts c with
             | None => throw (reading_undefined "0")
             | Some [] => throw (reading_undefined "text")
             | Some (p :: _) => ret (text p)
             end
         end
     end).

End Gemini.

(** * Vocabulary of the properties *)

(** A request field is falsy exactly when it is absent, [null] or empty. *)
Definition missing (p : param) : Prop :=
  p = PUndefined \/ p = PNull \/ p = PStr "".

Definition legs (flight : Serp.itinerary) : list Serp.leg :=
  items (Serp.flights flight).

(** [flight.flights && flight.flights.length > 0]. *)
Definition has_legs (flight : Serp.itinerary) : bool :=
  match legs flight with
  | [] => false
  | _ :: _ => true
  end.

(** The itineraries a version reads: all of [best_flights], then the first
    five of [other_flights]. *)
Definition best_read (data : Serp.data) : list Serp.itinerary :=
  items (Serp.best_flights data).

Definition other_read (data : Serp.data) : list Serp.itinerary :=
  firstn 5 (items (Serp.other_flights data)).

(** [fd] is the record src/server.js pushes for [flight]. *)
Definition Server_pushed (tag : string) (params : Params.t)
  (flight : Serp.itinerary) (fd : flightData) : Prop :=
  let isRoundTrip := Server.isRoundTrip (Params.return_date params) in
  let origin := Params.origin params in
  let destination := Params.destination params in
  exists first rest,
    Serp.flights flight = Some (first :: rest) /\
    if truthy isRoundTrip && (2 <=? length (first :: rest))%nat
    then exists outboundLeg returnLeg,
        Server.outboundLeg origin first (first :: rest) = inr outboundLeg /\
        Server.returnLeg origin destination first (first :: rest) = inr returnLeg /\
        fd = Server.round_trip_record tag isRoundTrip origin destination flight
               outboundLeg returnLeg
    else fd = Server.one_way_record tag isRoundTrip origin destination flight first.

(** [fd] is the record the one-way versions push for [flight]. *)
Definition Part000a_pushed (tag : string) (flight : Serp.itinerary)
  (fd : flightData) : Prop :=
  exists firstLeg rest,
    Serp.flights flight = Some (firstLeg :: rest) /\
    fd = Part000a.record tag flight firstLeg.

Definition Part000b_pushed (tag : string)
  (carbon : Serp.itinerary -> option value) (flight : Serp.itinerary)
  (fd : flightData) : Prop :=
  exists firstLeg rest,
    Serp.flights flight = Some (firstLeg :: rest) /\
    fd = Part000b.record tag carbon flight firstLeg.

Definition Part001_pushed (tag : string)
  (carbon : Serp.itinerary -> option value) (params : Params.t)
  (flight : Serp.itinerary) (fd : flightData) : Prop :=
  exists leg rest,
    Serp.flights flight = Some (leg :: rest) /\
    fd = Part001.record tag carbon (Params.origin params)
           (Params.destination params) flight leg.

(** The three required fields are present. *)
Definition complete (params : Params.t) : Prop :=
  truthy (Params.origin params) = true /\
  truthy (Params.destination params) = true /\
  truthy (Params.departure_date params) = true.

(** Proof steps for the guards and the [try] block of [searchFlights]. *)
Ltac pass_guard H c :=
  destruct c; simpl in H; [| injection H as <- <-; discriminate].

Ltac answered H e :=
  injection H as <- H; unfold bind in H;
  match type of H with
  | context [axios_get ?w ?c] =>
      destruct (axios_get w c) as [?|data]; [subst e; discriminate|];
      exists data; split; [reflexivity|]
  end;
  match type of H with
  | context [match ?t with inl _ => _ | inr _ => _ end] =>
      destruct t; [subst e; discriminate|]; now subst e
  end.


(** [fs] holds, in order, one record for each itinerary of [best_flights]
    that has legs, then one for each of the first five of [other_flights]
    that has legs; [R tag flight fd] relates an itinerary to its record. *)
Definition surfaced_as (R : string -> Serp.itinerary -> flightData -> Prop)
  (data : Serp.data) (fs : list flightData) : Prop :=
  exists bs os,
    fs = (bs ++ os)%list /\
    Forall2 (R "best") (filter has_legs (best_read data)) bs /\
    Forall2 (R "other") (filter has_legs (other_read data)) os.

(** ** Concrete inputs *)

Definition BOM_DEL : Params.t :=
  Params.mk (PStr "BOM") (PStr "DEL") (PStr "2026-01-15") PUndefined.

Definition BOM_DEL_return : Params.t :=
  Params.mk (PStr "BOM") (PStr "DEL") (PStr "2026-01-15") (PStr "2026-01-20").

Definition no_origin : Params.t :=
  Params.mk PUndefined (PStr "DEL") (PStr "2026-01-15") PUndefined.

(** A one-way request as a caller that fills every field writes it: the
    string ['null'] for [return_date]. *)
Definition BOM_DEL_null : Params.t :=
  Params.mk (PStr "BOM") (PStr "DEL") (PStr "2026-01-15") (PStr "null").

Definition airport_of (code city at_ : string) : option Serp.airport :=
  Some {| Serp.id := VStr code; Serp.name := VStr city; Serp.time := VStr at_ |}.

Definition leg_BOM_DEL : Serp.leg :=
  {| Serp.airline := VStr "IndiGo";
     Serp.flight_number := VStr "6E 2112";
     Serp.duration := VNum 130;
     Serp.departure_airport := airport_of "BOM" "Mumbai" "2026-01-15 06:00";
     Serp.arrival_airport := airport_of "DEL" "Delhi" "2026-01-15 08:10" |}.

Definition leg_DEL_BOM : Serp.leg :=
  {| Serp.airline := VStr "IndiGo";
     Serp.flight_number := VStr "6E 2113";
     Serp.duration := VNum 135;
     Serp.departure_airport := airport_of "DEL" "Delhi" "2026-01-20 18:00";
     Serp.arrival_airport := airport_of "BOM" "Mumbai" "2026-01-20 20:15" |}.

(** A leg of which the provider says nothing. *)
Definition bare_leg : Serp.leg :=
  {| Serp.airline := VUndefined;
     Serp.flight_number := VUndefined;
     Serp.duration := VUndefined;
     Serp.departure_airport := None;
     Serp.arrival_airport := None |}.

Definition direct : Serp.itinerary :=
  {| Serp.flights := Some [leg_BOM_DEL];
     Serp.price := VNum 5000;
     Serp.carbon_emissions := None |}.

Definition there_and_back : Serp.itinerary :=
  {| Serp.flights := Some [leg_BOM_DEL; leg_DEL_BOM];
     Serp.price := VNum 9800;
     Serp.carbon_emissions := None |}.

Definition legless : Serp.itinerary :=
  {| Serp.flights := Some [];
     Serp.price := VNum 4200;
     Serp.carbon_emissions := None |}.

Definition bare : Serp.itinerary :=
  {| Serp.flights := Some [bare_leg];
     Serp.price := VUndefined;
     Serp.carbon_emissions := None |}.

(** A process with a credential, whose provider answers [data]. *)
Definition answering (data : Serp.data) : world :=
  {| SERP_API_KEY := Some "secret";
     axios_get := fun _ => inr data |}.

(** A process started without a credential. *)
Definition unconfigured : world :=
  {| SERP_API_KEY := None;
     axios_get := fun _ => inl (TypeError "unreachable") |}.

Definition one_best : Serp.data :=
  {| Serp.best_flights := Some [direct];
     Serp.other_flights := None;
     Serp.price_insights := VUndefined |}.

(** ** Trip type *)

(** [return_date] is present, not [null], not the string ["null"], and not
    blank once trimmed. *)
Definition round_trip_requested (return_date : param) : Prop :=
  return_date <> PUndefined /\
  return_date <> PNull /\
  return_date <> PStr "null" /\
  (forall s, return_date = PStr s -> trim s <> "").

(** ** Stops *)

(** The stops of the record of an itinerary of [n] legs: [n - 1] for a
    one-way search; for a round-trip search [n - 2] when there are two legs
    or more, and [0] when there is one. *)
Definition stops_rule (round_trip : bool) (flight : Serp.itinerary)
  (fd : flightData) : Prop :=
  let n := Z.of_nat (length (legs flight)) in
  (round_trip = false -> stops fd = n - 1)%Z /\
  (round_trip = true -> 2 <= n -> stops fd = n - 2)%Z /\
  (round_trip = true -> n = 1 -> stops fd = 0)%Z.

(** ** The first five of [other_flights] *)

(** The provider's answer without what follows the fifth of [other_flights]. *)
Definition cut_other (data : Serp.data) : Serp.data :=
  {| Serp.best_flights := Serp.best_flights data;
     Serp.other_flights := option_map (firstn 5) (Serp.other_flights data);
     Serp.price_insights := Serp.price_insights data |}.

(** The same process, whose provider answers are cut that way. *)
Definition cut_world (w : world) : world :=
  {| SERP_API_KEY := SERP_API_KEY w;
     axios_get := fun c => data <- axios_get w c ;; ret (cut_other data) |}.

Definition is_other (fd : flightData) : bool := type fd =? "other".
Definition is_best (fd : flightData) : bool := type fd =? "best".

(** ** Order *)

(** The records of [best_flights] come first and those of [other_flights]
    after them, each group in the provider's order, and [total_results]
    counts them. *)
Definition ordered_answer (R : string -> Serp.itinerary -> flightData -> Prop)
  (data : Serp.data) (e : envelope) : Prop :=
  exists bs os,
    flights e = Some (bs ++ os)%list /\
    Forall (fun fd => type fd = "best") bs /\
    Forall (fun fd => type fd = "other") os /\
    Forall2 (R "best") (filter has_legs (best_read data)) bs /\
    Forall2 (R "other") (filter has_legs (other_read data)) os /\
    total_results e = Some (Z.of_nat (length (bs ++ os)%list)).

(** An answer with three itineraries, one of them without legs. *)
Definition with_legless : Serp.data :=
  {| Serp.best_flights := Some [direct; legless];
     Serp.other_flights := Some [there_and_back];
     Serp.price_insights := VUndefined |}.

(** An answer with seven itineraries in [other_flights]. *)
Definition seven_others : Serp.data :=
  {| Serp.best_flights := Some [direct];
     Serp.other_flights :=
       Some [direct; there_and_back; direct; bare; direct; there_and_back; bare];
     Serp.price_insights := VUndefined |}.

(** The number of itineraries the provider returned. *)
Definition returned (data : Serp.data) : nat :=
  length (items (Serp.best_flights data))
  + length (items (Serp.other_flights data)).

(** [flights] holds as many records as the itineraries read have legs, and
    [total_results] is that number. *)
Definition counts_those_with_legs (data : Serp.data) (e : envelope) : Prop :=
  exists fs,
    flights e = Some fs /\
    length fs = (length (filter has_legs (best_read data))
                 + length (filter has_legs (other_read data)))%nat /\
    total_results e = Some (Z.of_nat (length fs)).

(** ** Defaults *)








(** [leg.departure_airport?.name] is absent, or has an [includes] to call. *)
Definition callable_name (leg : Serp.leg) : Prop :=
  match chain (Serp.departure_airport leg) Serp.name with
  | VUndefined | VNull | VStr _ | VArr _ => True
  | _ => False
  end.

Definition callable_names (data : Serp.data) : Prop :=
  forall flight, In flight (best_read data ++ other_read data)%list ->
  forall leg, In leg (legs flight) -> callable_name leg.

(** An answer whose only itinerary has two legs of which nothing is said. *)
Definition two_bare_legs : Serp.data :=
  {| Serp.best_flights :=
       Some [ {| Serp.flights := Some [bare_leg; bare_leg];
                 Serp.price := VUndefined;
                 Serp.carbon_emissions := None |} ];
     Serp.other_flights := None;
     Serp.price_insights := VUndefined |}.

(** ** The legs of a round trip *)

(** The leg's departure airport code is [code]; its arrival airport code is
    [code]. *)
Definition departs_from (code : param) (leg : Serp.leg) : bool :=
  strict_eq (chain (Serp.departure_airport leg) Serp.id) code.

Definition arrives_at (code : param) (leg : Serp.leg) : bool :=
  strict_eq (chain (Serp.arrival_airport leg) Serp.id) code.

(** The name of the leg's departure airport contains [code]: as a substring
    when the name is a string, as an element when it is an array. *)
Definition name_has (code : param) (leg : Serp.leg) : bool :=
  match chain (Serp.departure_airport leg) Serp.name with
  | VStr s => includes s (ToString code)
  | VArr elems => existsb (fun e => strict_eq e code) elems
  | _ => false
  end.

(** The selection as the specification words it: by airport codes alone. *)
Definition spec_outboundLeg (origin : param) (first : Serp.leg)
  (legs : list Serp.leg) : Serp.leg :=
  match List.find (departs_from origin) legs with
  | Some leg => leg
  | None => first
  end.

Definition spec_returnLeg (origin destination : param) (first : Serp.leg)
  (legs : list Serp.leg) : Serp.leg :=
  match List.find (fun leg => departs_from destination leg || arrives_at origin leg)
          (tl legs) with
  | Some leg => leg
  | None => last legs first
  end.

(** What src/server.js tests on a leg. *)
Definition outbound_match (origin : param) (leg : Serp.leg) : bool :=
  departs_from origin leg || name_has origin leg.

Definition return_match (origin destination : param) (leg : Serp.leg) : bool :=
  departs_from destination leg || arrives_at origin leg
  || name_has destination leg.

(** [x] is the first item of [l] at an index not below [from] that satisfies
    [P], or [fallback] when there is none. *)
Definition first_from (from : nat) (P : Serp.leg -> bool)
  (l : list Serp.leg) (fallback x : Serp.leg) : Prop :=
  (exists i, (from <= i)%nat /\ nth_error l i = Some x /\ P x = true /\
             forall j y, (from <= j < i)%nat -> nth_error l j = Some y ->
                         P y = false)
  \/ ((forall j y, (from <= j)%nat -> nth_error l j = Some y -> P y = false)
      /\ x = fallback).

(** [find] with a callback that does not throw. *)
Fixpoint pure_find_from {A : Type} (P : nat -> A -> bool) (l : list A)
  (idx : nat) : option A :=
  match l with
  | [] => None
  | x :: rest => if P idx x then Some x else pure_find_from P rest (S idx)
  end.

(** Four legs: a feeder whose airport name mentions BOM, the flight out, a
    side trip whose airport name mentions DEL, the flight back. *)
Definition feeder : Serp.leg :=
  {| Serp.airline := VStr "Star Air";
     Serp.flight_number := VStr "S5 111";
     Serp.duration := VNum 45;
     Serp.departure_airport := airport_of "PNQ" "Pune (BOM connection)" "2026-01-15 04:00";
     Serp.arrival_airport := airport_of "BOM" "Mumbai" "2026-01-15 04:45" |}.

Definition side_trip : Serp.leg :=
  {| Serp.airline := VStr "Alliance Air";
     Serp.flight_number := VStr "9I 623";
     Serp.duration := VNum 50;
     Serp.departure_airport := airport_of "AGR" "Agra (DEL region)" "2026-01-18 09:00";
     Serp.arrival_airport := airport_of "JAI" "Jaipur" "2026-01-18 09:50" |}.

Definition four_legs : list Serp.leg :=
  [feeder; leg_BOM_DEL; side_trip; leg_DEL_BOM].

(** A process with a credential, whose provider cannot be reached. *)
Definition unreachable : world :=
  {| SERP_API_KEY := Some "secret";
     axios_get := fun _ =>
       inl {| message := "connect ECONNREFUSED"; response_data := None |} |}.

(** * Vocabulary of the further properties *)

(** What [searchFlights] reads of the parameters given to the handler: the
    fields of an object, and [nothing] of a value without fields. *)
Definition read {P : Type} (nothing : P) (b : bag P) : P :=
  match b with
  | Bag params => params
  | _ => nothing
  end.

(** The request names the flight search and its parameters are truthy: an
    object, or a boolean, number, string or array that is truthy. *)
Definition searched {P : Type} (body : Body.t P) : Prop :=
  Body.tool body = PStr "search_flights" /\
  given (Body.parameters body) = true.

(** The parameters are absent or [null]. *)
Definition no_parameters {P : Type} (body : Body.t P) : Prop :=
  Body.parameters body = NoBag \/ Body.parameters body = NullBag.

(** A [return_date] that line 136 of src/server.js gets through: a falsy
    value, on which the chain stops, or a string, which has a [trim]. *)
Definition trimmable (return_date : value) : Prop :=
  truthy return_date = false \/ exists s, return_date = VStr s.

(** A request with its three required fields and the number 20260120 for
    [return_date]. *)
Definition BOM_DEL_number : Request.t :=
  Request.mk (PStr "BOM") (PStr "DEL") (PStr "2026-01-15") (VNum 20260120).


(** The failure names the route and the date asked for. *)
Definition names_the_search (params : Params.t) (text : string) : Prop :=
  includes text (ToString (Params.origin params)) = true /\
  includes text (ToString (Params.destination params)) = true /\
  includes text (ToString (Params.departure_date params)) = true.

(** Some itinerary the version reads has legs. *)
Definition some_flight (data : Serp.data) : Prop :=
  exists flight,
    In flight (best_read data ++ other_read data)%list /\
    has_legs flight = true.

(** An answer whose itineraries have no legs. *)
Definition only_legless : Serp.data :=
  {| Serp.best_flights := Some [legless];
     Serp.other_flights := Some [legless; legless];
     Serp.price_insights := VUndefined |}.

(** The record [fd] of src/server.js and its [outbound] object: the airline
    and the flight number are those of [outbound]; a record with a [return]
    object has no departure time, arrival time or duration of its own, and a
    record without one repeats those of [outbound]. *)
Definition mirrors_outbound (fd : flightData) : Prop :=
  exists out,
    outbound fd = Some out /\
    airline fd = Details.airline out /\
    flight_number fd = Details.flight_number out /\
    departure_airport fd = None /\ arrival_airport fd = None /\
    match return_ fd with
    | Some _ =>
        departure_time fd = None /\ arrival_time fd = None /\
        duration fd = None
    | None =>
        departure_time fd = Some (Details.departure_time out) /\
        arrival_time fd = Some (Details.arrival_time out) /\
        duration fd = Some (Details.duration out)
    end.

(** The record of [flight] has a [return] object exactly for a round-trip
    search and two legs or more. *)
Definition return_when_two_legs (round_trip : bool) (flight : Serp.itinerary)
  (fd : flightData) : Prop :=
  (return_ fd <> None <-> round_trip = true /\ (2 <= length (legs flight))%nat).

(** The stops of a record are not negative and fewer than the legs. *)
Definition stops_in_range (flight : Serp.itinerary) (fd : flightData) : Prop :=
  (0 <= stops fd < Z.of_nat (length (legs flight)))%Z.

(** [flight.carbon_emissions?.this_flight]. *)
Definition carbon_of (flight : Serp.itinerary) : value :=
  match Serp.carbon_emissions flight with
  | None => VUndefined
  | Some c => Serp.this_flight c
  end.

(** A record tagged ['best'] holds the provider's figure, or [placeholder]
    when the figure is missing or falsy; a record tagged ['other'] has no
    [carbon_emissions]. *)
Definition carbon_rule (placeholder : value) (tag : string)
  (flight : Serp.itinerary) (fd : flightData) : Prop :=
  (tag = "best" ->
   carbon_emissions fd
   = Some (if truthy (carbon_of flight) then carbon_of flight else placeholder)) /\
  (tag = "other" -> carbon_emissions fd = None).

(** An answer whose legs carry a number as airport name. *)
Definition odd_names : Serp.data :=
  let odd_leg :=
    {| Serp.airline := VStr "IndiGo";
       Serp.flight_number := VStr "6E 1";
       Serp.duration := VNum 100;
       Serp.departure_airport :=
         Some {| Serp.id := VStr "PNQ"; Serp.name := VNum 7;
                 Serp.time := VUndefined |};
       Serp.arrival_airport := None |} in
  {| Serp.best_flights :=
       Some [ {| Serp.flights := Some [odd_leg; leg_DEL_BOM];
                 Serp.price := VNum 1; Serp.carbon_emissions := None |} ];
     Serp.other_flights := None;
     Serp.price_insights := VUndefined |}.

(** ** What passes through *)

(** [out] is the provider's [src] when [src] is truthy, and the text [d]
    when it is not: missing, [null], [0], [false] or the empty string. *)
Definition passes (d : string) (src out : value) : Prop :=
  out = if truthy src then src else VStr d.

(** The price of the record is that of the itinerary, and its airline and
    flight number are those of one of its legs. *)
Definition record_passes (flight : Serp.itinerary) (fd : flightData) : Prop :=
  passes "N/A" (Serp.price flight) (price fd) /\
  exists leg, In leg (legs flight) /\
    passes "Unknown" (Serp.airline leg) (airline fd) /\
    passes "N/A" (Serp.flight_number leg) (flight_number fd).

(** An itinerary that costs nothing, flown by a leg of no duration. *)
Definition free_flight : Serp.data :=
  {| Serp.best_flights :=
       Some [ {| Serp.flights :=
                   Some [ {| Serp.airline := VStr "";
                             Serp.flight_number := VStr "6E 1";
                             Serp.duration := VNum 0;
                             Serp.departure_airport := None;
                             Serp.arrival_airport := None |} ];
                 Serp.price := VNum 0;
                 Serp.carbon_emissions := None |} ];
     Serp.other_flights := None;
     Serp.price_insights := VUndefined |}.

(** ** The one-way record inside the record of src/server.js *)

(** The eight keys the first file of part_000 answers, read in a record. *)
Definition flat (fd : flightData) : flightData :=
  {| type := type fd;
     airline := airline fd;
     flight_number := flight_number fd;
     departure_time := departure_time fd;
     arrival_time := arrival_time fd;
     duration := duration fd;
     price := price fd;
     stops := stops fd;
     departure_airport := None;
     arrival_airport := None;
     carbon_emissions := None;
     is_round_trip := None;
     outbound := None;
     return_ := None |}.

(** ** callGemini *)

(** The answer holds a first candidate, with a content, with a first part. *)
Definition first_text (data : Gemini.answer) (v : value) : Prop :=
  exists first others c p ps,
    Gemini.candidates data = Some (first :: others) /\
    Gemini.content_of first = Some c /\
    Gemini.parts c = Some (p :: ps) /\
    v = Gemini.text p.

(** A completion service that answers [response] to every call. *)
Definition completing (key : option string) (response : Gemini.response)
  : Gemini.world :=
  {| Gemini.GEMINI_API_KEY := key;
     Gemini.fetch := fun _ => inr response |}.


Definition two_candidates : Gemini.response :=
  {| Gemini.ok := true;
     Gemini.json :=
       inr {| Gemini.candidates :=
                Some [ {| Gemini.content_of :=
                            Some {| Gemini.parts :=
                                      Some [ {| Gemini.text := VStr "BOM to DEL" |};
                                             {| Gemini.text := VStr "ignored" |} ] |} |};
                       {| Gemini.content_of := None |} ];
              Gemini.error := None |} |}.

(** The airport names src/server.js reads, those of the itineraries of two
    legs or more when the search is a round trip, are absent, strings or
    arrays. *)
Definition names_read_callable (params : Params.t) (data : Serp.data) : Prop :=
  forall flight, In flight (best_read data ++ other_read data)%list ->
  round_trip_requested (Params.return_date params) ->
  (2 <= length (legs flight))%nat ->
  forall leg, In leg (legs flight) -> callable_name leg.

(** * Lemmas *)

(** ** Values *)



Lemma or_else_missing (d : value) : VUndefined ||| d = d.
Proof. reflexivity. Qed.

Lemma or_else_present (a d : value) : truthy a = true -> a ||| d = a.
Proof. unfold or_else. intros ->. reflexivity. Qed.

Lemma missing_falsy (p : param) : missing p <-> truthy p = false.
Proof.
  unfold missing. destruct p as [| |s]; simpl.
  - split; auto.
  - split; auto.
  - destruct (String.eqb_spec s ""); simpl; split; intros H.
    + reflexivity.
    + subst. auto.
    + destruct H as [H|[H|H]]; try discriminate. injection H as ->. contradiction.
    + discriminate.
Qed.

(** ** Arrays *)

Lemma when_some_forEach {A S : Type} (o : option (list A))
  (slice : list A -> list A) (f : A -> S -> result S) (s : S) :
  slice [] = [] -> when_some o slice f s = forEach (slice (items o)) f s.
Proof.
  intros Hnil. destruct o as [[|x l]|]; simpl; rewrite ?Hnil; reflexivity.
Qed.

Section Pushing.

Context {A B : Type}.
Variable f : A -> list B -> result (list B).
Variable keep : A -> bool.
Variable R : A -> B -> Prop.

Hypothesis f_skip : forall x s, keep x = false -> f x s = ret s.
Hypothesis f_push : forall x s s', keep x = true -> f x s = inr s' ->
  exists y, s' = (s ++ [y])%list /\ R x y.

(** A loop whose callback pushes at most one element per item builds, in
    order, one element for each item it keeps. *)
Lemma forEach_pushes (l : list A) : forall s s',
  forEach l f s = inr s' ->
  exists ys, s' = (s ++ ys)%list /\ Forall2 R (filter keep l) ys.
Proof.
  induction l as [|x l IH]; intros s s' H; simpl in H.
  - injection H as <-. exists []. rewrite app_nil_r. split; [reflexivity | constructor].
  - unfold bind in H. destruct (f x s) as [e|s1] eqn:Hx; [discriminate|].
    destruct (IH _ _ H) as (ys & -> & Hys).
    simpl. destruct (keep x) eqn:Hk.
    + destruct (f_push _ _ _ Hk Hx) as (y & -> & Hy).
      exists (y :: ys). rewrite <- app_assoc. split; [reflexivity|].
      constructor; assumption.
    + rewrite (f_skip _ s Hk) in Hx. injection Hx as <-.
      exists ys. split; [reflexivity | assumption].
Qed.

End Pushing.

Lemma Forall2_length_le {A B : Type} (R : A -> B -> Prop) (keep : A -> bool)
  (l : list A) (ys : list B) :
  Forall2 R (filter keep l) ys -> (length ys <= length l)%nat.
Proof.
  intros H. apply Forall2_length in H. rewrite <- H. apply filter_length_le.
Qed.

(** ** The loops of the four versions *)

Lemma has_legs_flights (flight : Serp.itinerary) :
  has_legs flight = true ->
  exists first rest, Serp.flights flight = Some (first :: rest).
Proof.
  unfold has_legs, legs, items.
  destruct (Serp.flights flight) as [[|first rest]|]; try discriminate.
  intros _. exists first, rest. reflexivity.
Qed.

Lemma no_legs_flights (flight : Serp.itinerary) :
  has_legs flight = false ->
  Serp.flights flight = None \/ Serp.flights flight = Some [].
Proof.
  unfold has_legs, legs, items.
  destruct (Serp.flights flight) as [[|first rest]|]; try discriminate; auto.
Qed.

Lemma Server_eachFlight_skip tag rt o d flight s :
  has_legs flight = false -> Server.eachFlight tag rt o d flight s = ret s.
Proof.
  intros H. unfold Server.eachFlight.
  destruct (no_legs_flights _ H) as [-> | ->]; reflexivity.
Qed.

Lemma Server_eachFlight_push tag params flight s s' :
  has_legs flight = true ->
  Server.eachFlight tag (Server.isRoundTrip (Params.return_date params))
    (Params.origin params) (Params.destination params) flight s = inr s' ->
  exists fd, s' = (s ++ [fd])%list /\ Server_pushed tag params flight fd.
Proof.
  intros H Hrun. destruct (has_legs_flights _ H) as (first & rest & Hf).
  unfold Server.eachFlight in Hrun. rewrite Hf in Hrun.
  unfold Server_pushed. cbv zeta.
  destruct (truthy (Server.isRoundTrip (Params.return_date params))
            && (2 <=? length (first :: rest))%nat) eqn:Hrt.
  - unfold bind in Hrun.
    destruct (Server.outboundLeg _ first (first :: rest)) as [e|ob] eqn:Hob;
      [discriminate|].
    destruct (Server.returnLeg _ _ first (first :: rest)) as [e|rl] eqn:Hrl;
      [discriminate|].
    injection Hrun as <-. eexists. split; [reflexivity|].
    exists first, rest. split; [exact Hf|]. rewrite Hrt.
    exists ob, rl. auto.
  - injection Hrun as <-. eexists. split; [reflexivity|].
    exists first, rest. split; [exact Hf|]. rewrite Hrt. reflexivity.
Qed.

(** What a success of [Server.transform] is made of. *)
Lemma Server_transform_inv params data e :
  Server.transform params data = inr e ->
  exists bs os,
    Forall2 (Server_pushed "best" params) (filter has_legs (best_read data)) bs /\
    Forall2 (Server_pushed "other" params) (filter has_legs (other_read data)) os /\
    success e = true /\
    flights e = Some (bs ++ os)%list /\
    total_results e = Some (Z.of_nat (length (bs ++ os)%list)) /\
    trip_type e =
      Some (if truthy (Server.isRoundTrip (Params.return_date params))
            then "round-trip" else "one-way").
Proof.
  unfold Server.transform. cbv zeta. intros H.
  unfold bind in H.
  rewrite when_some_forEach in H by reflexivity.
  destruct (forEach (items (Serp.best_flights data)) _ []) as [x|bs] eqn:Hb;
    [discriminate|].
  rewrite when_some_forEach in H by reflexivity.
  destruct (forEach (firstn 5 (items (Serp.other_flights data))) _ bs)
    as [x|all] eqn:Ho; [discriminate|].
  apply (forEach_pushes _ has_legs (Server_pushed "best" params)) in Hb;
    [| intros; now apply Server_eachFlight_skip
     | intros; now apply Server_eachFlight_push ].
  apply (forEach_pushes _ has_legs (Server_pushed "other" params)) in Ho;
    [| intros; now apply Server_eachFlight_skip
     | intros; now apply Server_eachFlight_push ].
  destruct Hb as (bs' & -> & Hbs). destruct Ho as (os & -> & Hos).
  simpl in Hbs. exists bs', os.
  injection H as <-. simpl. auto 10.
Qed.

(** A successful answer of [Server.searchFlights] comes from one call that
    the provider answered. *)
Lemma Server_success_inv w params log e :
  Server.searchFlights w params = (log, e) -> success e = true ->
  complete params /\ configured w = true /\
  log = [Server.request w params] /\
  exists data,
    axios_get w (Server.request w params) = inr data /\
    Server.transform params data = inr e.
Proof.
  unfold Server.searchFlights, complete. intros H Hs.
  destruct (truthy (Params.origin params)); simpl in H;
    [| injection H as <- <-; discriminate].
  destruct (truthy (Params.destination params)); simpl in H;
    [| injection H as <- <-; discriminate].
  destruct (truthy (Params.departure_date params)); simpl in H;
    [| injection H as <- <-; discriminate].
  destruct (configured w); simpl in H; [| injection H as <- <-; discriminate].
  injection H as <- He. repeat split; try reflexivity.
  unfold bind in He.
  destruct (axios_get w (Server.request w params)) as [x|data];
    [subst e; discriminate|].
  exists data. split; [reflexivity|].
  destruct (Server.transform params data); [subst e; discriminate|].
  now subst e.
Qed.

Lemma Part000a_eachFlight_skip tag flight s :
  has_legs flight = false -> Part000a.eachFlight tag flight s = ret s.
Proof.
  intros H. unfold Part000a.eachFlight.
  destruct (no_legs_flights _ H) as [-> | ->]; reflexivity.
Qed.

Lemma Part000a_eachFlight_push tag flight s s' :
  has_legs flight = true ->
  Part000a.eachFlight tag flight s = inr s' ->
  exists fd, s' = (s ++ [fd])%list /\ Part000a_pushed tag flight fd.
Proof.
  intros H Hrun. destruct (has_legs_flights _ H) as (first & rest & Hf).
  unfold Part000a.eachFlight in Hrun. rewrite Hf in Hrun.
  injection Hrun as <-. eexists. split; [reflexivity|].
  exists first, rest. auto.
Qed.

Lemma Part000b_eachFlight_skip tag carbon flight s :
  has_legs flight = false -> Part000b.eachFlight tag carbon flight s = ret s.
Proof.
  intros H. unfold Part000b.eachFlight.
  destruct (no_legs_flights _ H) as [-> | ->]; reflexivity.
Qed.

Lemma Part000b_eachFlight_push tag carbon flight s s' :
  has_legs flight = true ->
  Part000b.eachFlight tag carbon flight s = inr s' ->
  exists fd, s' = (s ++ [fd])%list /\ Part000b_pushed tag carbon flight fd.
Proof.
  intros H Hrun. destruct (has_legs_flights _ H) as (first & rest & Hf).
  unfold Part000b.eachFlight in Hrun. rewrite Hf in Hrun.
  injection Hrun as <-. eexists. split; [reflexivity|].
  exists first, rest. auto.
Qed.

Lemma Part001_eachFlight_skip tag carbon o d flight s :
  has_legs flight = false -> Part001.eachFlight tag carbon o d flight s = ret s.
Proof.
  intros H. unfold Part001.eachFlight.
  destruct (no_legs_flights _ H) as [-> | ->]; reflexivity.
Qed.

Lemma Part001_eachFlight_push tag carbon params flight s s' :
  has_legs flight = true ->
  Part001.eachFlight tag carbon (Params.origin params)
    (Params.destination params) flight s = inr s' ->
  exists fd, s' = (s ++ [fd])%list /\ Part001_pushed tag carbon params flight fd.
Proof.
  intros H Hrun. destruct (has_legs_flights _ H) as (first & rest & Hf).
  unfold Part001.eachFlight in Hrun. rewrite Hf in Hrun.
  injection Hrun as <-. eexists. split; [reflexivity|].
  exists first, rest. auto.
Qed.

(** The two loops of a version, run one after the other. *)
Section TwoLoops.

Context {A B : Type}.
Variables best other : A -> list B -> result (list B).
Variable keep : A -> bool.
Variables Rbest Rother : A -> B -> Prop.

Hypothesis best_skip : forall x s, keep x = false -> best x s = ret s.
Hypothesis best_push : forall x s s', keep x = true -> best x s = inr s' ->
  exists y, s' = (s ++ [y])%list /\ Rbest x y.
Hypothesis other_skip : forall x s, keep x = false -> other x s = ret s.
Hypothesis other_push : forall x s s', keep x = true -> other x s = inr s' ->
  exists y, s' = (s ++ [y])%list /\ Rother x y.

Lemma two_loops (lb lo : option (list A)) (all : list B) :
  (s <- when_some lb (fun l => l) best [] ;;
   when_some lo (firstn 5) other s) = inr all ->
  exists bs os,
    all = (bs ++ os)%list /\
    Forall2 Rbest (filter keep (items lb)) bs /\
    Forall2 Rother (filter keep (firstn 5 (items lo))) os.
Proof.
  unfold bind. rewrite when_some_forEach by reflexivity.
  destruct (forEach (items lb) best []) as [x|bs] eqn:Hb; [discriminate|].
  rewrite when_some_forEach by reflexivity. intros Ho.
  apply (forEach_pushes _ keep Rbest best_skip best_push) in Hb.
  apply (forEach_pushes _ keep Rother other_skip other_push) in Ho.
  destruct Hb as (bs' & -> & Hbs). destruct Ho as (os & -> & Hos).
  exists bs', os. auto.
Qed.

End TwoLoops.

Lemma Part000a_transform_inv params data e :
  Part000a.transform params data = inr e ->
  exists bs os,
    Forall2 (Part000a_pushed "best") (filter has_legs (best_read data)) bs /\
    Forall2 (Part000a_pushed "other") (filter has_legs (other_read data)) os /\
    success e = true /\
    flights e = Some (bs ++ os)%list /\
    total_results e = Some (Z.of_nat (length (bs ++ os)%list)).
Proof.
  unfold Part000a.transform. intros H.
  destruct (s <- when_some (Serp.best_flights data) (fun l => l)
                   (Part000a.eachFlight "best") [] ;;
            when_some (Serp.other_flights data) (firstn 5)
              (Part000a.eachFlight "other") s) as [x|all] eqn:Hall.
  - unfold bind in *.
    destruct (when_some (Serp.best_flights data) _ _ []); [discriminate|].
    rewrite Hall in H. discriminate.
  - apply (two_loops _ _ has_legs (Part000a_pushed "best")
             (Part000a_pushed "other")) in Hall as Hinv;
      [ | intros; now apply Part000a_eachFlight_skip
        | intros; now apply Part000a_eachFlight_push
        | intros; now apply Part000a_eachFlight_skip
        | intros; now apply Part000a_eachFlight_push ].
    destruct Hinv as (bs & os & -> & Hbs & Hos). exists bs, os.
    unfold bind in *.
    destruct (when_some (Serp.best_flights data) _ _ []); [discriminate|].
    rewrite Hall in H. injection H as <-. simpl. auto 10.
Qed.

Lemma Part000b_transform_inv params data e :
  Part000b.transform params data = inr e ->
  exists bs os,
    Forall2 (Part000b_pushed "best" Part000b.carbon_best)
      (filter has_legs (best_read data)) bs /\
    Forall2 (Part000b_pushed "other" Part000b.carbon_other)
      (filter has_legs (other_read data)) os /\
    success e = true /\
    flights e = Some (bs ++ os)%list /\
    total_results e = Some (Z.of_nat (length (bs ++ os)%list)).
Proof.
  unfold Part000b.transform. intros H.
  destruct (s <- when_some (Serp.best_flights data) (fun l => l)
                   (Part000b.eachFlight "best" Part000b.carbon_best) [] ;;
            when_some (Serp.other_flights data) (firstn 5)
              (Part000b.eachFlight "other" Part000b.carbon_other) s)
    as [x|all] eqn:Hall.
  - unfold bind in *.
    destruct (when_some (Serp.best_flights data) _ _ []); [discriminate|].
    rewrite Hall in H. discriminate.
  - apply (two_loops _ _ has_legs
             (Part000b_pushed "best" Part000b.carbon_best)
             (Part000b_pushed "other" Part000b.carbon_other)) in Hall as Hinv;
      [ | intros; now apply Part000b_eachFlight_skip
        | intros; now apply Part000b_eachFlight_push
        | intros; now apply Part000b_eachFlight_skip
        | intros; now apply Part000b_eachFlight_push ].
    destruct Hinv as (bs & os & -> & Hbs & Hos). exists bs, os.
    unfold bind in *.
    destruct (when_some (Serp.best_flights data) _ _ []); [discriminate|].
    rewrite Hall in H. injection H as <-. simpl. auto 10.
Qed.

(** [Part001.transform] never throws; it succeeds when one record at least
    was pushed. *)
Lemma Part001_transform_inv params data e :
  Part001.transform params data = inr e ->
  exists bs os,
    Forall2 (Part001_pushed "best" Part001.carbon_best params)
      (filter has_legs (best_read data)) bs /\
    Forall2 (Part001_pushed "other" Part001.carbon_other params)
      (filter has_legs (other_read data)) os /\
    success e = negb (length (bs ++ os)%list =? 0)%nat /\
    (success e = true -> flights e = Some (bs ++ os)%list) /\
    total_results e = Some (Z.of_nat (length (bs ++ os)%list)).
Proof.
  unfold Part001.transform. cbv zeta. intros H.
  destruct (s <- when_some (Serp.best_flights data) (fun l => l)
                   (Part001.eachFlight "best" Part001.carbon_best
                      (Params.origin params) (Params.destination params)) [] ;;
            when_some (Serp.other_flights data) (firstn 5)
              (Part001.eachFlight "other" Part001.carbon_other
                 (Params.origin params) (Params.destination params)) s)
    as [x|all] eqn:Hall.
  - unfold bind in *.
    destruct (when_some (Serp.best_flights data) _ _ []); [discriminate|].
    rewrite Hall in H. discriminate.
  - apply (two_loops _ _ has_legs
             (Part001_pushed "best" Part001.carbon_best params)
             (Part001_pushed "other" Part001.carbon_other params)) in Hall as Hinv;
      [ | intros; now apply Part001_eachFlight_skip
        | intros; now apply Part001_eachFlight_push
        | intros; now apply Part001_eachFlight_skip
        | intros; now apply Part001_eachFlight_push ].
    destruct Hinv as (bs & os & -> & Hbs & Hos). exists bs, os.
    unfold bind in *.
    destruct (when_some (Serp.best_flights data) _ _ []); [discriminate|].
    rewrite Hall in H.
    destruct (length (bs ++ os)%list =? 0)%nat eqn:Hlen;
      injection H as <-; simpl.
    + apply Nat.eqb_eq in Hlen. rewrite Hlen. repeat split; auto. discriminate.
    + repeat split; auto.
Qed.

Lemma Part000a_success_inv w params log e :
  Part000a.searchFlights w params = (log, e) -> success e = true ->
  complete params /\ configured w = true /\
  log = [Part000a.request w params] /\
  exists data,
    axios_get w (Part000a.request w params) = inr data /\
    Part000a.transform params data = inr e.
Proof.
  unfold Part000a.searchFlights, complete. intros H Hs.
  pass_guard H (truthy (Params.origin params)).
  pass_guard H (truthy (Params.destination params)).
  pass_guard H (truthy (Params.departure_date params)).
  pass_guard H (configured w).
  repeat split; [now injection H | answered H e].
Qed.

Lemma Part000b_success_inv w params log e :
  Part000b.searchFlights w params = (log, e) -> success e = true ->
  configured w = true /\
  log = [Part000b.request w params] /\
  exists data,
    axios_get w (Part000b.request w params) = inr data /\
    Part000b.transform params data = inr e.
Proof.
  unfold Part000b.searchFlights. intros H Hs.
  pass_guard H (configured w).
  repeat split; [now injection H | answered H e].
Qed.

Lemma Part001_success_inv w params log e :
  Part001.searchFlights w params = (log, e) -> success e = true ->
  complete params /\ configured w = true /\
  log = [Part001.request w params] /\
  exists data,
    axios_get w (Part001.request w params) = inr data /\
    Part001.transform params data = inr e.
Proof.
  unfold Part001.searchFlights, complete. intros H Hs.
  pass_guard H (truthy (Params.origin params)).
  pass_guard H (truthy (Params.destination params)).
  pass_guard H (truthy (Params.departure_date params)).
  pass_guard H (configured w).
  repeat split; [now injection H | answered H e].
Qed.

(** ** Two runs *)

(** One itinerary of one leg priced 5000, asked one-way from BOM to DEL. *)
Example one_best_flight :
  let said := snd (Server.searchFlights (answering one_best) BOM_DEL) in
  success said = true /\
  route said = Some "BOM to DEL" /\
  trip_type said = Some "one-way" /\
  total_results said = Some 1%Z /\
  exists fd,
    flights said = Some [fd] /\
    type fd = "best" /\ price fd = VNum 5000 /\ stops fd = 0%Z /\
    airline fd = VStr "IndiGo" /\ flight_number fd = VStr "6E 2112".
Proof. cbv zeta. repeat split. eexists. repeat split. Qed.

(** A provider that cannot be reached: one call, and a failure that carries
    the message of the error. *)
Example provider_down :
  let run := Server.searchFlights unreachable BOM_DEL in
  fst run = [Server.request unreachable BOM_DEL] /\
  success (snd run) = false /\
  error (snd run) = Some "connect ECONNREFUSED" /\
  serp_error (snd run) = Some None /\
  fallback_message (snd run)
  = Some "Unable to fetch flights for BOM to DEL on 2026-01-15. connect ECONNREFUSED".
Proof. cbv zeta. repeat split. Qed.

(** ** The guards *)

(** The versions that check the request answer a request that lacks a
    required field without calling the provider. *)
Lemma validating_versions_reject (w : world) (params : Params.t) :
  missing (Params.origin params) \/ missing (Params.destination params)
  \/ missing (Params.departure_date params) ->
  let said := Some "Missing required parameters: origin, destination, or departure_date" in
  (exists e, Server.searchFlights w params = ([], e)
             /\ success e = false /\ error e = said) /\
  (exists e, Part000a.searchFlights w params = ([], e)
             /\ success e = false /\ error e = said) /\
  (exists e, Part001.searchFlights w params = ([], e)
             /\ success e = false /\ error e = said).
Proof.
  intros H said.
  assert (Hg : negb (truthy (Params.origin params))
               || negb (truthy (Params.destination params))
               || negb (truthy (Params.departure_date params)) = true).
  { rewrite !orb_true_iff, !negb_true_iff, <- !missing_falsy. tauto. }
  unfold Server.searchFlights, Part000a.searchFlights, Part001.searchFlights.
  rewrite Hg. repeat split; eexists; (split; [reflexivity|]); split; reflexivity.
Qed.

(** The second file of part_000 calls the provider whenever the credential
    is configured, whatever the request holds. *)
Lemma Part000b_always_calls (w : world) (params : Params.t) :
  configured w = true ->
  fst (Part000b.searchFlights w params) = [Part000b.request w params].
Proof.
  intros H. unfold Part000b.searchFlights. rewrite H. reflexivity.
Qed.

(** C1, at a request without [origin], in the second file of part_000: with a
    credential configured the provider is called, with [departure_id]
    undefined, and its answer is returned as a success. *)
Theorem C1_unchecked_request_reaches_provider :
  let w := answering one_best in
  fst (Part000b.searchFlights w no_origin) = [Part000b.request w no_origin]
  /\ lookup "departure_id" (query (Part000b.request w no_origin)) = VUndefined
  /\ success (snd (Part000b.searchFlights w no_origin)) = true
  /\ route (snd (Part000b.searchFlights w no_origin)) = Some "undefined to DEL".
Proof. repeat split. Qed.

(** C5: when the credential is not configured, a request with its three
    required fields gets, in each version, an answer with [success: false]
    and the configuration error, and the provider is not called. *)
Theorem C5_missing_credential (w : world) (params : Params.t) :
  configured w = false -> complete params ->
  (exists e, Server.searchFlights w params = ([], e)
     /\ success e = false
     /\ error e = Some "SERP_API_KEY not configured"
     /\ fallback_message e = Some "MCP server configuration error - API key missing") /\
  (exists e, Part000a.searchFlights w params = ([], e)
     /\ success e = false
     /\ error e = Some "SERP_API_KEY not configured"
     /\ fallback_message e = Some "MCP server configuration error - API key missing") /\
  (exists e, Part000b.searchFlights w params = ([], e)
     /\ success e = false
     /\ error e = Some "SERP_API_KEY not configured"
     /\ fallback_message e = Some "MCP server configuration error") /\
  (exists e, Part001.searchFlights w params = ([], e)
     /\ success e = false
     /\ error e = Some "SERP_API_KEY not configured"
     /\ fallback_message e = Some "MCP server configuration error - API key missing").
Proof.
  intros Hw (Ho & Hd & Hdd).
  unfold Server.searchFlights, Part000a.searchFlights, Part000b.searchFlights,
    Part001.searchFlights.
  rewrite Ho, Hd, Hdd, Hw. simpl.
  repeat split; eexists; repeat split.
Qed.

Lemma C5_missing_credential_witness :
  configured unconfigured = false /\ complete BOM_DEL /\
  exists e, Server.searchFlights unconfigured BOM_DEL = ([], e)
     /\ success e = false
     /\ error e = Some "SERP_API_KEY not configured".
Proof.
  split; [reflexivity|]. split; [repeat split|].
  destruct (C5_missing_credential unconfigured BOM_DEL) as [(e & He & Hs & Herr & _) _];
    [reflexivity | repeat split |].
  exists e. auto.
Defined.

(** ** Trip type *)

Lemma isRoundTrip_truthy (return_date : param) :
  truthy (Server.isRoundTrip return_date) = true <->
  round_trip_requested return_date.
Proof.
  unfold round_trip_requested.
  destruct return_date as [| |s]; simpl.
  - split; [discriminate | intros (H & _); now contradiction H].
  - split; [discriminate | intros (_ & H & _); now contradiction H].
  - unfold and_then. simpl.
    destruct (String.eqb_spec s "") as [->|Hne]; simpl.
    + split; [discriminate|]. intros (_ & _ & _ & H).
      now contradiction (H "" eq_refl).
    + destruct (String.eqb_spec s "null") as [->|Hnull]; simpl.
      * split; [discriminate|]. intros (_ & _ & H & _). now contradiction H.
      * destruct (String.eqb_spec (trim s) "") as [Hb|Hb]; simpl.
        -- split; [discriminate|]. intros (_ & _ & _ & H).
           now contradiction (H s eq_refl).
        -- split; [|reflexivity]. intros _. repeat split; try discriminate.
           ++ intros [=]. contradiction.
           ++ intros s' [= <-]. exact Hb.
Qed.

Lemma isRoundTrip_falsy (return_date : param) :
  truthy (Server.isRoundTrip return_date) = false <->
  ~ round_trip_requested return_date.
Proof.
  rewrite <- isRoundTrip_truthy.
  destruct (truthy (Server.isRoundTrip return_date)); split;
    congruence || discriminate || auto.
Qed.

Lemma Server_type_flag (w : world) (params : Params.t) :
  lookup "type" (Server.searchParams w params) =
  VStr (if truthy (Server.isRoundTrip (Params.return_date params))
        then "1" else "2").
Proof. reflexivity. Qed.

(** The answer names the same trip type as the query. *)
Lemma Server_trip_type w params log e :
  Server.searchFlights w params = (log, e) -> success e = true ->
  (trip_type e = Some "round-trip"
     <-> round_trip_requested (Params.return_date params)) /\
  (trip_type e = Some "one-way"
     <-> ~ round_trip_requested (Params.return_date params)).
Proof.
  intros H Hs.
  destruct (Server_success_inv _ _ _ _ H Hs) as (_ & _ & _ & data & _ & Ht).
  destruct (Server_transform_inv _ _ _ Ht) as (bs & os & _ & _ & _ & _ & _ & Htt).
  rewrite Htt, <- isRoundTrip_truthy.
  destruct (truthy (Server.isRoundTrip (Params.return_date params))) eqn:E;
    split; split; intros; congruence || discriminate || auto.
Qed.

(** C3: src/server.js sends [type: '1'] and answers [trip_type:
    'round-trip'] exactly when [return_date] is present, not [null], not
    ["null"] and not blank once trimmed; in every other case ([return_date]
    empty, [null], ["null"], absent, or made of white space only) it sends
    [type: '2'] and answers ['one-way']. *)
Theorem C3_round_trip_classification (w : world) (params : Params.t) :
  let return_date := Params.return_date params in
  let type_sent := lookup "type" (Server.searchParams w params) in
  (truthy (Server.isRoundTrip return_date) = true
     <-> round_trip_requested return_date) /\
  (type_sent = VStr "1" <-> round_trip_requested return_date) /\
  (type_sent = VStr "2" <-> ~ round_trip_requested return_date) /\
  (return_date = PStr "" \/ return_date = PNull \/ return_date = PStr "null"
   \/ return_date = PUndefined
   \/ (exists s, return_date = PStr s /\ trim s = "")
   -> type_sent = VStr "2") /\
  (forall log e,
     Server.searchFlights w params = (log, e) -> success e = true ->
     (trip_type e = Some "round-trip" <-> round_trip_requested return_date) /\
     (trip_type e = Some "one-way" <-> ~ round_trip_requested return_date)).
Proof.
  cbv zeta. rewrite Server_type_flag.
  pose proof (isRoundTrip_truthy (Params.return_date params)) as Ht.
  pose proof (isRoundTrip_falsy (Params.return_date params)) as Hf.
  assert (H2 : VStr (if truthy (Server.isRoundTrip (Params.return_date params))
                     then "1" else "2") = VStr "2"
               <-> ~ round_trip_requested (Params.return_date params)).
  { rewrite <- Hf.
    destruct (truthy (Server.isRoundTrip (Params.return_date params)));
      split; congruence || discriminate || auto. }
  split; [exact Ht|]. split; [|split; [exact H2|split]].
  - rewrite <- Ht.
    destruct (truthy (Server.isRoundTrip (Params.return_date params)));
      split; congruence || discriminate || auto.
  - intros H. apply H2. unfold round_trip_requested.
    intros (Hu & Hn & Hl & Hb).
    destruct H as [H|[H|[H|[H|(s & H & Hs)]]]]; try congruence.
    + now apply (Hb "" H).
    + now apply (Hb s H).
  - intros log e. apply Server_trip_type.
Qed.

Lemma C3_round_trip_classification_witness :
  round_trip_requested (Params.return_date BOM_DEL_return) /\
  lookup "type" (Server.searchParams (answering one_best) BOM_DEL_return)
  = VStr "1" /\
  lookup "type"
    (Server.searchParams (answering one_best)
       (Params.mk (PStr "BOM") (PStr "DEL") (PStr "2026-01-15") (PStr "  ")))
  = VStr "2".
Proof.
  assert (H : round_trip_requested (Params.return_date BOM_DEL_return)).
  { repeat split; try discriminate. intros s [= <-]. discriminate. }
  split; [exact H|]. split.
  - apply (proj1 (proj2 (C3_round_trip_classification (answering one_best)
                           BOM_DEL_return))). exact H.
  - apply (proj1 (proj2 (proj2 (proj2
             (C3_round_trip_classification (answering one_best)
                (Params.mk (PStr "BOM") (PStr "DEL") (PStr "2026-01-15")
                   (PStr "  "))))))).
    right. right. right. right. exists "  ". split; reflexivity.
Defined.

(** ** The query *)

Lemma has_key_rendered (k : string) (q : list (string * value)) :
  has_key k (rendered q) =
  existsb (fun kv => (fst kv =? k) && negb (nullish (snd kv))) q.
Proof.
  unfold has_key, rendered. induction q as [|[k' v] q IH]; [reflexivity|].
  simpl. destruct (nullish v); simpl.
  - rewrite andb_false_r. exact IH.
  - rewrite andb_true_r, IH. reflexivity.
Qed.

(** The call a version logs is its [request], made for a complete request by
    a configured process. *)
Lemma Server_log w params c :
  In c (fst (Server.searchFlights w params)) ->
  c = Server.request w params /\ complete params /\ configured w = true.
Proof.
  unfold Server.searchFlights, complete.
  destruct (truthy (Params.origin params)); simpl; [|contradiction].
  destruct (truthy (Params.destination params)); simpl; [|contradiction].
  destruct (truthy (Params.departure_date params)); simpl; [|contradiction].
  destruct (configured w); simpl; [|contradiction].
  intros [<-|[]]. auto.
Qed.

Lemma Part000a_log w params c :
  In c (fst (Part000a.searchFlights w params)) ->
  c = Part000a.request w params /\ complete params /\ configured w = true.
Proof.
  unfold Part000a.searchFlights, complete.
  destruct (truthy (Params.origin params)); simpl; [|contradiction].
  destruct (truthy (Params.destination params)); simpl; [|contradiction].
  destruct (truthy (Params.departure_date params)); simpl; [|contradiction].
  destruct (configured w); simpl; [|contradiction].
  intros [<-|[]]. auto.
Qed.

Lemma Part001_log w params c :
  In c (fst (Part001.searchFlights w params)) ->
  c = Part001.request w params /\ complete params /\ configured w = true.
Proof.
  unfold Part001.searchFlights, complete.
  destruct (truthy (Params.origin params)); simpl; [|contradiction].
  destruct (truthy (Params.destination params)); simpl; [|contradiction].
  destruct (truthy (Params.departure_date params)); simpl; [|contradiction].
  destruct (configured w); simpl; [|contradiction].
  intros [<-|[]]. auto.
Qed.

(** A complete request to a configured process makes exactly one call. *)
Lemma one_call (w : world) (params : Params.t) :
  complete params -> configured w = true ->
  fst (Server.searchFlights w params) = [Server.request w params] /\
  fst (Part000a.searchFlights w params) = [Part000a.request w params] /\
  fst (Part000b.searchFlights w params) = [Part000b.request w params] /\
  fst (Part001.searchFlights w params) = [Part001.request w params].
Proof.
  intros (Ho & Hd & Hdd) Hw.
  unfold Server.searchFlights, Part000a.searchFlights, Part000b.searchFlights,
    Part001.searchFlights.
  rewrite Ho, Hd, Hdd, Hw. simpl. auto.
Qed.

Lemma Server_return_date_key (w : world) (params : Params.t) :
  let q := Server.searchParams w params in
  let rt := truthy (Server.isRoundTrip (Params.return_date params)) in
  has_key "return_date" q = rt /\
  has_key "return_date" (rendered q) = rt /\
  (rt = true -> lookup "return_date" q = value_of (Params.return_date params)).
Proof.
  cbv zeta. rewrite has_key_rendered. unfold Server.searchParams.
  destruct (truthy (Server.isRoundTrip (Params.return_date params))) eqn:Hrt.
  - apply isRoundTrip_truthy in Hrt. destruct Hrt as (Hu & Hn & _).
    destruct (Params.return_date params) as [| |s]; try contradiction.
    repeat split.
  - repeat split. discriminate.
Qed.

(** The second file of part_000 sends no [type]; what axios writes holds
    [return_date] exactly when the request's [return_date] is truthy, be it
    ["null"] or blank. *)
Lemma Part000b_return_date_key (w : world) (params : Params.t) :
  let q := Part000b.searchParams w params in
  has_key "type" q = false /\
  has_key "return_date" (rendered q) = truthy (Params.return_date params) /\
  lookup "return_date" q = value_of (Params.return_date params) ||| VUndefined.
Proof.
  cbv zeta. rewrite has_key_rendered. unfold Part000b.searchParams.
  repeat split. simpl. rewrite orb_false_r. unfold or_else.
  destruct (Params.return_date params) as [| |s]; simpl; try reflexivity.
  destruct (negb (s =? "")) eqn:E; reflexivity.
Qed.

(** The versions that send a [type]: in every call src/server.js makes, the
    query holds the key [return_date] exactly when the request was
    classified round-trip ([type: '1']), and then with the request's value;
    a one-way query ([type: '2']) has no such key.  The versions that are
    one-way only send [type: '2'] and no [return_date].  A complete request
    to a configured process does make one call. *)
Lemma classifying_versions_send_return_date (w : world) (params : Params.t) :
  let return_date := Params.return_date params in
  (complete params -> configured w = true ->
   fst (Server.searchFlights w params) = [Server.request w params]) /\
  (forall c, In c (fst (Server.searchFlights w params)) ->
     (has_key "return_date" (query c) = true
        <-> lookup "type" (query c) = VStr "1") /\
     (has_key "return_date" (query c) = false
        <-> lookup "type" (query c) = VStr "2") /\
     (lookup "type" (query c) = VStr "1"
        <-> round_trip_requested return_date) /\
     has_key "return_date" (rendered (query c))
       = has_key "return_date" (query c) /\
     (has_key "return_date" (query c) = true ->
      lookup "return_date" (query c) = value_of return_date)) /\
  (forall c, In c (fst (Part000a.searchFlights w params)) ->
     lookup "type" (query c) = VStr "2"
     /\ has_key "return_date" (query c) = false) /\
  (forall c, In c (fst (Part001.searchFlights w params)) ->
     lookup "type" (query c) = VStr "2"
     /\ has_key "return_date" (query c) = false).
Proof.
  cbv zeta. split; [|split; [|split]].
  - intros Hc Hw. now apply one_call.
  - intros c Hin. apply Server_log in Hin. destruct Hin as (-> & _ & _).
    unfold Server.request, query.
    destruct (Server_return_date_key w params) as (Hk & Hr & Hv).
    rewrite Hr, Hk, Server_type_flag, <- isRoundTrip_truthy.
    destruct (truthy (Server.isRoundTrip (Params.return_date params)));
      repeat split; intros; congruence || discriminate || auto.
  - intros c Hin. apply Part000a_log in Hin. destruct Hin as (-> & _ & _).
    split; reflexivity.
  - intros c Hin. apply Part001_log in Hin. destruct Hin as (-> & _ & _).
    split; reflexivity.
Qed.

(** A round-trip request in src/server.js: the call is made, with
    [type: '1'] and the key [return_date]. *)
Example round_trip_query :
  In (Server.request (answering one_best) BOM_DEL_return)
     (fst (Server.searchFlights (answering one_best) BOM_DEL_return)) /\
  has_key "return_date"
    (query (Server.request (answering one_best) BOM_DEL_return)) = true /\
  lookup "type"
    (query (Server.request (answering one_best) BOM_DEL_return)) = VStr "1".
Proof.
  assert (Hin : In (Server.request (answering one_best) BOM_DEL_return)
     (fst (Server.searchFlights (answering one_best) BOM_DEL_return)))
    by (left; reflexivity).
  split; [exact Hin|].
  destruct (classifying_versions_send_return_date (answering one_best)
              BOM_DEL_return) as (_ & H & _).
  destruct (H _ Hin) as (H1 & _ & _ & _ & _).
  split; [reflexivity|]. apply H1. reflexivity.
Qed.

(** C8, at a one-way request whose [return_date] is the string ['null'], in
    the second file of part_000: the request is not a round trip, yet the
    one call made to the provider carries [return_date=null] in what axios
    writes, and no [type]; src/server.js, given the same request, sends
    [type: '2'] and no [return_date]. *)
Theorem C8_unclassified_return_date_sent :
  let w := answering one_best in
  let made := Part000b.request w BOM_DEL_null in
  ~ round_trip_requested (Params.return_date BOM_DEL_null)
  /\ fst (Part000b.searchFlights w BOM_DEL_null) = [made]
  /\ has_key "return_date" (rendered (query made)) = true
  /\ lookup "return_date" (rendered (query made)) = VStr "null"
  /\ has_key "type" (query made) = false
  /\ success (snd (Part000b.searchFlights w BOM_DEL_null)) = true
  /\ fst (Server.searchFlights w BOM_DEL_null) = [Server.request w BOM_DEL_null]
  /\ has_key "return_date" (query (Server.request w BOM_DEL_null)) = false
  /\ lookup "type" (query (Server.request w BOM_DEL_null)) = VStr "2".
Proof.
  cbv zeta. split; [|repeat split].
  intros (_ & _ & H & _). now apply H.
Qed.

(** ** What a successful answer holds *)

Lemma surfaced_as_impl (R R' : string -> Serp.itinerary -> flightData -> Prop)
  (data : Serp.data) (fs : list flightData) :
  (forall tag flight fd, R tag flight fd -> R' tag flight fd) ->
  surfaced_as R data fs -> surfaced_as R' data fs.
Proof.
  intros HR (bs & os & -> & Hb & Ho). exists bs, os.
  split; [reflexivity|].
  split; (eapply Forall2_impl; [apply HR | eassumption]).
Qed.

Lemma Server_surfaced w params log e :
  Server.searchFlights w params = (log, e) -> success e = true ->
  exists data fs,
    axios_get w (Server.request w params) = inr data /\
    flights e = Some fs /\
    total_results e = Some (Z.of_nat (length fs)) /\
    surfaced_as (fun tag => Server_pushed tag params) data fs.
Proof.
  intros H Hs.
  destruct (Server_success_inv _ _ _ _ H Hs) as (_ & _ & _ & data & Hd & Ht).
  destruct (Server_transform_inv _ _ _ Ht) as (bs & os & Hb & Ho & _ & Hf & Hn & _).
  exists data, (bs ++ os)%list. repeat split; auto. exists bs, os. auto.
Qed.

Lemma Part000a_surfaced w params log e :
  Part000a.searchFlights w params = (log, e) -> success e = true ->
  exists data fs,
    axios_get w (Part000a.request w params) = inr data /\
    flights e = Some fs /\
    total_results e = Some (Z.of_nat (length fs)) /\
    surfaced_as Part000a_pushed data fs.
Proof.
  intros H Hs.
  destruct (Part000a_success_inv _ _ _ _ H Hs) as (_ & _ & _ & data & Hd & Ht).
  destruct (Part000a_transform_inv _ _ _ Ht) as (bs & os & Hb & Ho & _ & Hf & Hn).
  exists data, (bs ++ os)%list. repeat split; auto. exists bs, os. auto.
Qed.

Lemma Part000b_surfaced w params log e :
  Part000b.searchFlights w params = (log, e) -> success e = true ->
  exists data fs,
    axios_get w (Part000b.request w params) = inr data /\
    flights e = Some fs /\
    total_results e = Some (Z.of_nat (length fs)) /\
    surfaced_as (fun tag =>
      Part000b_pushed tag
        (if tag =? "best" then Part000b.carbon_best else Part000b.carbon_other))
      data fs.
Proof.
  intros H Hs.
  destruct (Part000b_success_inv _ _ _ _ H Hs) as (_ & _ & data & Hd & Ht).
  destruct (Part000b_transform_inv _ _ _ Ht) as (bs & os & Hb & Ho & _ & Hf & Hn).
  exists data, (bs ++ os)%list. repeat split; auto. exists bs, os. auto.
Qed.

Lemma Part001_surfaced w params log e :
  Part001.searchFlights w params = (log, e) -> success e = true ->
  exists data fs,
    axios_get w (Part001.request w params) = inr data /\
    flights e = Some fs /\
    total_results e = Some (Z.of_nat (length fs)) /\
    surfaced_as (fun tag =>
      Part001_pushed tag
        (if tag =? "best" then Part001.carbon_best else Part001.carbon_other)
        params)
      data fs.
Proof.
  intros H Hs.
  destruct (Part001_success_inv _ _ _ _ H Hs) as (_ & _ & _ & data & Hd & Ht).
  destruct (Part001_transform_inv _ _ _ Ht) as (bs & os & Hb & Ho & _ & Hf & Hn).
  exists data, (bs ++ os)%list. repeat split; auto. exists bs, os. auto.
Qed.

(** ** Stops *)

Lemma Server_pushed_stops tag params flight fd :
  Server_pushed tag params flight fd ->
  stops_rule (truthy (Server.isRoundTrip (Params.return_date params))) flight fd.
Proof.
  unfold Server_pushed, stops_rule, legs. cbv zeta.
  intros (first & rest & Hf & H). rewrite Hf. simpl items.
  destruct (truthy (Server.isRoundTrip (Params.return_date params))); simpl in H.
  - destruct rest as [|second rest].
    + simpl in H. subst fd. simpl. rewrite Hf. simpl.
      repeat split; intros; congruence || lia.
    + simpl in H. destruct H as (ob & rl & _ & _ & ->). simpl. rewrite Hf.
      repeat split; intros; try discriminate; simpl length in *; lia.
  - subst fd. simpl. rewrite Hf.
    repeat split; intros; try discriminate; reflexivity.
Qed.

Lemma one_way_pushed_stops :
  (forall tag flight fd, Part000a_pushed tag flight fd ->
     stops_rule false flight fd) /\
  (forall tag carbon flight fd, Part000b_pushed tag carbon flight fd ->
     stops_rule false flight fd) /\
  (forall tag carbon params flight fd,
     Part001_pushed tag carbon params flight fd ->
     stops_rule false flight fd).
Proof.
  unfold stops_rule, legs.
  repeat split; try discriminate; intros _;
    destruct H as (first & rest & Hf & ->); simpl; rewrite Hf; reflexivity.
Qed.

(** C2, as stated, fails: a round-trip search whose itinerary has one leg
    reports 0 stops, not 1 - 2. *)
Lemma C2_round_trip_single_leg_counterexample :
  let e := snd (Server.searchFlights (answering one_best) BOM_DEL_return) in
  success e = true /\
  trip_type e = Some "round-trip" /\
  best_read one_best = [direct] /\
  length (legs direct) = 1%nat /\
  exists fd,
    flights e = Some [fd] /\
    stops fd = 0%Z /\
    stops fd <> (Z.of_nat (length (legs direct)) - 2)%Z.
Proof.
  cbv zeta. repeat split.
  eexists. split; [reflexivity|]. split; [reflexivity|]. discriminate.
Qed.

(** C2, amended: in a successful answer, the record of an itinerary of [n]
    legs reports [n - 1] stops when the search is one-way; when the search is
    round-trip it reports [n - 2] stops if [n >= 2] and [0] stops if
    [n = 1].  The versions that are one-way only always report [n - 1]. *)
Theorem C2_stops (w : world) (params : Params.t) :
  let round_trip := truthy (Server.isRoundTrip (Params.return_date params)) in
  (forall log e,
     Server.searchFlights w params = (log, e) -> success e = true ->
     exists data fs,
       axios_get w (Server.request w params) = inr data /\
       flights e = Some fs /\
       surfaced_as (fun _ => stops_rule round_trip) data fs) /\
  (forall log e,
     Part000a.searchFlights w params = (log, e) -> success e = true ->
     exists data fs,
       axios_get w (Part000a.request w params) = inr data /\
       flights e = Some fs /\
       surfaced_as (fun _ => stops_rule false) data fs) /\
  (forall log e,
     Part000b.searchFlights w params = (log, e) -> success e = true ->
     exists data fs,
       axios_get w (Part000b.request w params) = inr data /\
       flights e = Some fs /\
       surfaced_as (fun _ => stops_rule false) data fs) /\
  (forall log e,
     Part001.searchFlights w params = (log, e) -> success e = true ->
     exists data fs,
       axios_get w (Part001.request w params) = inr data /\
       flights e = Some fs /\
       surfaced_as (fun _ => stops_rule false) data fs).
Proof.
  cbv zeta. destruct one_way_pushed_stops as (Ha & Hb & Hc).
  repeat split; intros log e H Hs.
  - destruct (Server_surfaced _ _ _ _ H Hs) as (data & fs & Hd & Hf & _ & Hsurf).
    exists data, fs. repeat split; auto.
    revert Hsurf. apply surfaced_as_impl. intros tag. apply Server_pushed_stops.
  - destruct (Part000a_surfaced _ _ _ _ H Hs) as (data & fs & Hd & Hf & _ & Hsurf).
    exists data, fs. repeat split; auto.
    revert Hsurf. apply surfaced_as_impl. exact Ha.
  - destruct (Part000b_surfaced _ _ _ _ H Hs) as (data & fs & Hd & Hf & _ & Hsurf).
    exists data, fs. repeat split; auto.
    revert Hsurf. apply surfaced_as_impl. intros tag. apply Hb.
  - destruct (Part001_surfaced _ _ _ _ H Hs) as (data & fs & Hd & Hf & _ & Hsurf).
    exists data, fs. repeat split; auto.
    revert Hsurf. apply surfaced_as_impl. intros tag. apply Hc.
Qed.

Lemma C2_stops_witness :
  let w := answering
    {| Serp.best_flights := Some [there_and_back];
       Serp.other_flights := Some [direct];
       Serp.price_insights := VUndefined |} in
  success (snd (Server.searchFlights w BOM_DEL_return)) = true /\
  exists data fs,
    axios_get w (Server.request w BOM_DEL_return) = inr data /\
    flights (snd (Server.searchFlights w BOM_DEL_return)) = Some fs /\
    surfaced_as (fun _ => stops_rule true) data fs.
Proof.
  cbv zeta. split; [reflexivity|].
  eapply (proj1 (C2_stops _ BOM_DEL_return)); reflexivity.
Defined.

(** ** The records and their tags *)

Lemma pushed_type :
  (forall tag params flight fd,
     Server_pushed tag params flight fd -> type fd = tag) /\
  (forall tag flight fd, Part000a_pushed tag flight fd -> type fd = tag) /\
  (forall tag carbon flight fd,
     Part000b_pushed tag carbon flight fd -> type fd = tag) /\
  (forall tag carbon params flight fd,
     Part001_pushed tag carbon params flight fd -> type fd = tag).
Proof.
  repeat split.
  - intros tag params flight fd (first & rest & _ & H). cbv zeta in H.
    destruct (truthy _ && _).
    + destruct H as (ob & rl & _ & _ & ->). reflexivity.
    + subst fd. reflexivity.
  - intros tag flight fd (first & rest & _ & ->). reflexivity.
  - intros tag carbon flight fd (first & rest & _ & ->). reflexivity.
  - intros tag carbon params flight fd (first & rest & _ & ->). reflexivity.
Qed.

Lemma Forall2_right {A B : Type} (R : A -> B -> Prop) (P : B -> Prop)
  (l : list A) (ys : list B) :
  (forall x y, R x y -> P y) -> Forall2 R l ys -> Forall P ys.
Proof.
  intros HRP H. induction H; constructor; eauto.
Qed.

Lemma surfaced_ordered (R : string -> Serp.itinerary -> flightData -> Prop)
  (data : Serp.data) (e : envelope) (fs : list flightData) :
  (forall tag flight fd, R tag flight fd -> type fd = tag) ->
  flights e = Some fs ->
  total_results e = Some (Z.of_nat (length fs)) ->
  surfaced_as R data fs -> ordered_answer R data e.
Proof.
  intros Htag Hf Hn (bs & os & -> & Hb & Ho). exists bs, os.
  repeat split; auto; eapply Forall2_right; eauto; intros x y; apply Htag.
Qed.

Lemma filter_other_tagged (bs os : list flightData) :
  Forall (fun fd => type fd = "best") bs ->
  Forall (fun fd => type fd = "other") os ->
  filter is_other (bs ++ os) = os /\ filter is_best (bs ++ os) = bs.
Proof.
  intros Hb Ho. rewrite !filter_app. split.
  - replace (filter is_other bs) with (@nil flightData).
    + simpl. induction Ho as [|fd os Hfd _ IH]; [reflexivity|].
      simpl. unfold is_other at 1. rewrite Hfd. simpl. now rewrite IH.
    + induction Hb as [|fd bs Hfd _ IH]; [reflexivity|].
      simpl. unfold is_other at 1. rewrite Hfd. simpl. exact IH.
  - replace (filter is_best os) with (@nil flightData).
    + rewrite app_nil_r. induction Hb as [|fd bs Hfd _ IH]; [reflexivity|].
      simpl. unfold is_best at 1. rewrite Hfd. simpl. now rewrite IH.
    + induction Ho as [|fd os Hfd _ IH]; [reflexivity|].
      simpl. unfold is_best at 1. rewrite Hfd. simpl. exact IH.
Qed.

Lemma ordered_other_count (R : string -> Serp.itinerary -> flightData -> Prop)
  (data : Serp.data) (e : envelope) (fs : list flightData) :
  ordered_answer R data e -> flights e = Some fs ->
  (length (filter is_other fs) <= 5)%nat.
Proof.
  intros (bs & os & Hf & Hb & Ho & _ & Hos & _) Hfs.
  rewrite Hf in Hfs. injection Hfs as <-.
  destruct (filter_other_tagged bs os Hb Ho) as (-> & _).
  apply Forall2_length_le in Hos. unfold other_read in Hos.
  pose proof (firstn_le_length 5 (items (Serp.other_flights data))). lia.
Qed.

(** ** Order *)

(** The order of the records in a successful answer of each version. *)
Lemma order_of_records (w : world) (params : Params.t) :
  (forall log e,
     Server.searchFlights w params = (log, e) -> success e = true ->
     exists data,
       axios_get w (Server.request w params) = inr data /\
       ordered_answer (fun tag => Server_pushed tag params) data e) /\
  (forall log e,
     Part000a.searchFlights w params = (log, e) -> success e = true ->
     exists data,
       axios_get w (Part000a.request w params) = inr data /\
       ordered_answer Part000a_pushed data e) /\
  (forall log e,
     Part000b.searchFlights w params = (log, e) -> success e = true ->
     exists data,
       axios_get w (Part000b.request w params) = inr data /\
       ordered_answer
         (fun tag => Part000b_pushed tag
            (if tag =? "best" then Part000b.carbon_best
             else Part000b.carbon_other)) data e) /\
  (forall log e,
     Part001.searchFlights w params = (log, e) -> success e = true ->
     exists data,
       axios_get w (Part001.request w params) = inr data /\
       ordered_answer
         (fun tag => Part001_pushed tag
            (if tag =? "best" then Part001.carbon_best
             else Part001.carbon_other) params) data e).
Proof.
  destruct pushed_type as (Hs & Ha & Hb & Hc).
  repeat split; intros log e H Hok.
  - destruct (Server_surfaced _ _ _ _ H Hok) as (data & fs & Hd & Hf & Hn & Hsurf).
    exists data. split; [exact Hd|].
    eapply surfaced_ordered; eauto; intros tag; apply Hs.
  - destruct (Part000a_surfaced _ _ _ _ H Hok) as (data & fs & Hd & Hf & Hn & Hsurf).
    exists data. split; [exact Hd|].
    eapply surfaced_ordered; eauto.
  - destruct (Part000b_surfaced _ _ _ _ H Hok) as (data & fs & Hd & Hf & Hn & Hsurf).
    exists data. split; [exact Hd|].
    eapply surfaced_ordered; eauto; intros tag; apply Hb.
  - destruct (Part001_surfaced _ _ _ _ H Hok) as (data & fs & Hd & Hf & Hn & Hsurf).
    exists data. split; [exact Hd|].
    eapply surfaced_ordered; eauto; intros tag; apply Hc.
Qed.

(** C9: in a successful answer of each version, the records tagged ['best']
    come before those tagged ['other'], each group holds, in the provider's
    order, the records of the itineraries read that have legs, and
    [total_results] is the length of [flights]. *)
Theorem C9_best_before_other (w : world) (params : Params.t) :
  (forall log e,
     Server.searchFlights w params = (log, e) -> success e = true ->
     exists data,
       axios_get w (Server.request w params) = inr data /\
       ordered_answer (fun tag => Server_pushed tag params) data e) /\
  (forall log e,
     Part000a.searchFlights w params = (log, e) -> success e = true ->
     exists data,
       axios_get w (Part000a.request w params) = inr data /\
       ordered_answer Part000a_pushed data e) /\
  (forall log e,
     Part000b.searchFlights w params = (log, e) -> success e = true ->
     exists data,
       axios_get w (Part000b.request w params) = inr data /\
       ordered_answer
         (fun tag => Part000b_pushed tag
            (if tag =? "best" then Part000b.carbon_best
             else Part000b.carbon_other)) data e) /\
  (forall log e,
     Part001.searchFlights w params = (log, e) -> success e = true ->
     exists data,
       axios_get w (Part001.request w params) = inr data /\
       ordered_answer
         (fun tag => Part001_pushed tag
            (if tag =? "best" then Part001.carbon_best
             else Part001.carbon_other) params) data e).
Proof. exact (order_of_records w params). Qed.

Lemma C9_best_before_other_witness :
  let w := answering with_legless in
  success (snd (Server.searchFlights w BOM_DEL)) = true /\
  exists data,
    axios_get w (Server.request w BOM_DEL) = inr data /\
    ordered_answer (fun tag => Server_pushed tag BOM_DEL) data
      (snd (Server.searchFlights w BOM_DEL)).
Proof.
  cbv zeta. split; [reflexivity|].
  eapply (proj1 (C9_best_before_other _ BOM_DEL)); reflexivity.
Defined.

(** ** The first five of [other_flights] *)

Lemma when_some_cut {A S : Type} (o : option (list A))
  (f : A -> S -> result S) (s : S) :
  when_some (option_map (firstn 5) o) (firstn 5) f s
  = when_some o (firstn 5) f s.
Proof.
  destruct o as [[|x l]|]; try reflexivity.
  unfold when_some, option_map. rewrite firstn_firstn. reflexivity.
Qed.

Lemma transform_cut (params : Params.t) (data : Serp.data) :
  Server.transform params (cut_other data) = Server.transform params data /\
  Part000a.transform params (cut_other data) = Part000a.transform params data /\
  Part000b.transform params (cut_other data) = Part000b.transform params data /\
  Part001.transform params (cut_other data) = Part001.transform params data.
Proof.
  unfold Server.transform, Part000a.transform, Part000b.transform,
    Part001.transform, cut_other, bind;
    cbn [Serp.best_flights Serp.other_flights Serp.price_insights].
  repeat split;
    (destruct (when_some (Serp.best_flights data) _ _ _); [reflexivity|];
     rewrite when_some_cut; reflexivity).
Qed.

Lemma cut_world_same_call (w : world) (params : Params.t) :
  configured (cut_world w) = configured w /\
  Server.request (cut_world w) params = Server.request w params /\
  Part000a.request (cut_world w) params = Part000a.request w params /\
  Part000b.request (cut_world w) params = Part000b.request w params /\
  Part001.request (cut_world w) params = Part001.request w params.
Proof. repeat split. Qed.

(** Whatever the provider puts after the fifth of [other_flights] leaves the
    call and the answer of every version unchanged. *)
Lemma searchFlights_cut (w : world) (params : Params.t) :
  Server.searchFlights (cut_world w) params = Server.searchFlights w params /\
  Part000a.searchFlights (cut_world w) params = Part000a.searchFlights w params /\
  Part000b.searchFlights (cut_world w) params = Part000b.searchFlights w params /\
  Part001.searchFlights (cut_world w) params = Part001.searchFlights w params.
Proof.
  destruct (cut_world_same_call w params) as (Hc & Hs & Ha & Hb & H1).
  unfold Server.searchFlights, Part000a.searchFlights, Part000b.searchFlights,
    Part001.searchFlights.
  rewrite Hc, Hs, Ha, Hb, H1.
  repeat split;
    (repeat match goal with
            | |- context [if ?c then _ else _] => destruct c; try reflexivity
            end;
     f_equal; unfold bind;
     match goal with
     | |- context [axios_get w ?c] =>
         change (axios_get (cut_world w) c)
           with (data <- axios_get w c ;; ret (cut_other data));
         unfold bind; destruct (axios_get w c) as [x|data]; [reflexivity|]
     end;
     unfold ret;
     destruct (transform_cut params data) as (E1 & E2 & E3 & E4);
     rewrite ?E1, ?E2, ?E3, ?E4; reflexivity).
Qed.

(** An answer that holds [flights] is a success, or the empty failure of
    part_001. *)
Lemma flights_set (w : world) (params : Params.t) (fs : list flightData) :
  (flights (snd (Server.searchFlights w params)) = Some fs ->
   success (snd (Server.searchFlights w params)) = true) /\
  (flights (snd (Part000a.searchFlights w params)) = Some fs ->
   success (snd (Part000a.searchFlights w params)) = true) /\
  (flights (snd (Part000b.searchFlights w params)) = Some fs ->
   success (snd (Part000b.searchFlights w params)) = true) /\
  (flights (snd (Part001.searchFlights w params)) = Some fs ->
   success (snd (Part001.searchFlights w params)) = true \/ fs = []).
Proof.
  unfold Server.searchFlights, Part000a.searchFlights, Part000b.searchFlights,
    Part001.searchFlights.
  repeat split;
    (repeat match goal with
            | |- context [if ?c then _ else _] =>
                destruct c; simpl; try discriminate
            end;
     unfold bind;
     match goal with
     | |- context [axios_get w ?c] =>
         destruct (axios_get w c) as [x|data]; simpl; try discriminate
     end).
  - destruct (Server.transform params data) as [x|e] eqn:Ht; simpl;
      [discriminate|].
    destruct (Server_transform_inv _ _ _ Ht) as (bs & os & _ & _ & Hs & _).
    auto.
  - destruct (Part000a.transform params data) as [x|e] eqn:Ht; simpl;
      [discriminate|].
    destruct (Part000a_transform_inv _ _ _ Ht) as (bs & os & _ & _ & Hs & _).
    auto.
  - destruct (Part000b.transform params data) as [x|e] eqn:Ht; simpl;
      [discriminate|].
    destruct (Part000b_transform_inv _ _ _ Ht) as (bs & os & _ & _ & Hs & _).
    auto.
  - unfold Part001.transform, bind. cbv zeta.
    destruct (when_some (Serp.best_flights data) _ _ _) as [x|bs]; simpl;
      [discriminate|].
    destruct (when_some (Serp.other_flights data) _ _ _) as [x|all]; simpl;
      [discriminate|].
    destruct (length all =? 0)%nat; simpl; [|auto].
    intros [= <-]. auto.
Qed.

(** C4: what follows the fifth itinerary of [other_flights] never reaches
    the answer: the call and the answer of each version are the same when the
    provider's list is cut after its fifth item, and [flights] holds at most
    five records tagged ['other']. *)
Theorem C4_other_flights_capped (w : world) (params : Params.t) :
  (Server.searchFlights (cut_world w) params = Server.searchFlights w params /\
   forall fs, flights (snd (Server.searchFlights w params)) = Some fs ->
              (length (filter is_other fs) <= 5)%nat) /\
  (Part000a.searchFlights (cut_world w) params = Part000a.searchFlights w params /\
   forall fs, flights (snd (Part000a.searchFlights w params)) = Some fs ->
              (length (filter is_other fs) <= 5)%nat) /\
  (Part000b.searchFlights (cut_world w) params = Part000b.searchFlights w params /\
   forall fs, flights (snd (Part000b.searchFlights w params)) = Some fs ->
              (length (filter is_other fs) <= 5)%nat) /\
  (Part001.searchFlights (cut_world w) params = Part001.searchFlights w params /\
   forall fs, flights (snd (Part001.searchFlights w params)) = Some fs ->
              (length (filter is_other fs) <= 5)%nat).
Proof.
  destruct (searchFlights_cut w params) as (Es & Ea & Eb & E1).
  destruct (order_of_records w params) as (Os & Oa & Ob & O1).
  repeat split; auto; intros fs Hfs;
    destruct (flights_set w params fs) as (Fs & Fa & Fb & F1).
  - destruct (Os _ _ (surjective_pairing _) (Fs Hfs)) as (data & _ & Hord).
    eapply ordered_other_count; eauto.
  - destruct (Oa _ _ (surjective_pairing _) (Fa Hfs)) as (data & _ & Hord).
    eapply ordered_other_count; eauto.
  - destruct (Ob _ _ (surjective_pairing _) (Fb Hfs)) as (data & _ & Hord).
    eapply ordered_other_count; eauto.
  - destruct (F1 Hfs) as [Hok| ->]; [|simpl; lia].
    destruct (O1 _ _ (surjective_pairing _) Hok) as (data & _ & Hord).
    eapply ordered_other_count; eauto.
Qed.

Lemma C4_other_flights_capped_witness :
  let w := answering seven_others in
  exists fs,
    flights (snd (Server.searchFlights w BOM_DEL)) = Some fs /\
    length (filter is_other fs) = 5%nat /\
    (length (filter is_other fs) <= 5)%nat.
Proof.
  cbv zeta. eexists. split; [reflexivity|]. split; [reflexivity|].
  eapply (proj2 (proj1 (C4_other_flights_capped (answering seven_others) BOM_DEL))).
  reflexivity.
Defined.

(** ** Itineraries without legs *)

Lemma ordered_counts (R : string -> Serp.itinerary -> flightData -> Prop)
  (data : Serp.data) (e : envelope) :
  ordered_answer R data e -> counts_those_with_legs data e.
Proof.
  intros (bs & os & Hf & _ & _ & Hb & Ho & Hn).
  apply Forall2_length in Hb, Ho.
  exists (bs ++ os)%list. rewrite length_app, Hb, Ho.
  split; [exact Hf|]. split; [reflexivity|].
  rewrite Hn, length_app. reflexivity.
Qed.

(** C10: an itinerary whose [flights] is absent or empty makes the callback
    of each version return the array unchanged, without throwing; a
    successful answer holds one record for each itinerary read that has
    legs, and none for the others; so [total_results] can be smaller than
    the number of itineraries the provider returned. *)
Theorem C10_legless_itineraries_skipped :
  (forall flight : Serp.itinerary,
     Serp.flights flight = None \/ Serp.flights flight = Some [] ->
     forall tag carbon (params : Params.t) (s : list flightData),
       Server.eachFlight tag (Server.isRoundTrip (Params.return_date params))
         (Params.origin params) (Params.destination params) flight s = ret s /\
       Part000a.eachFlight tag flight s = ret s /\
       Part000b.eachFlight tag carbon flight s = ret s /\
       Part001.eachFlight tag carbon (Params.origin params)
         (Params.destination params) flight s = ret s) /\
  (forall w params,
     (forall log e,
        Server.searchFlights w params = (log, e) -> success e = true ->
        exists data, axios_get w (Server.request w params) = inr data /\
                     counts_those_with_legs data e) /\
     (forall log e,
        Part000a.searchFlights w params = (log, e) -> success e = true ->
        exists data, axios_get w (Part000a.request w params) = inr data /\
                     counts_those_with_legs data e) /\
     (forall log e,
        Part000b.searchFlights w params = (log, e) -> success e = true ->
        exists data, axios_get w (Part000b.request w params) = inr data /\
                     counts_those_with_legs data e) /\
     (forall log e,
        Part001.searchFlights w params = (log, e) -> success e = true ->
        exists data, axios_get w (Part001.request w params) = inr data /\
                     counts_those_with_legs data e)) /\
  (let w := answering with_legless in
   let e := snd (Server.searchFlights w BOM_DEL) in
   success e = true /\
   axios_get w (Server.request w BOM_DEL) = inr with_legless /\
   total_results e = Some 2%Z /\
   (2 < Z.of_nat (returned with_legless))%Z).
Proof.
  split; [|split].
  - intros flight H tag carbon params s.
    assert (Hl : has_legs flight = false).
    { unfold has_legs, legs. destruct H as [-> | ->]; reflexivity. }
    repeat split.
    + now apply Server_eachFlight_skip.
    + now apply Part000a_eachFlight_skip.
    + now apply Part000b_eachFlight_skip.
    + now apply Part001_eachFlight_skip.
  - intros w params.
    destruct (order_of_records w params) as (Os & Oa & Ob & O1).
    repeat split; intros log e H Hok.
    + destruct (Os _ _ H Hok) as (data & Hd & Hord).
      exists data. split; [exact Hd|]. eapply ordered_counts; eauto.
    + destruct (Oa _ _ H Hok) as (data & Hd & Hord).
      exists data. split; [exact Hd|]. eapply ordered_counts; eauto.
    + destruct (Ob _ _ H Hok) as (data & Hd & Hord).
      exists data. split; [exact Hd|]. eapply ordered_counts; eauto.
    + destruct (O1 _ _ H Hok) as (data & Hd & Hord).
      exists data. split; [exact Hd|]. eapply ordered_counts; eauto.
  - cbv zeta. repeat split.
Qed.

Lemma C10_legless_itineraries_skipped_witness :
  Serp.flights legless = Some [] /\
  Server.eachFlight "best" (Server.isRoundTrip (Params.return_date BOM_DEL))
    (Params.origin BOM_DEL) (Params.destination BOM_DEL) legless [] = ret [].
Proof.
  split; [reflexivity|].
  apply (proj1 C10_legless_itineraries_skipped legless (or_intror eq_refl)
           "best" (fun _ => None) BOM_DEL []).
Defined.

(** ** Defaults *)





Lemma find_from_In {A : Type} (p : A -> nat -> result bool) (l : list A) :
  forall idx x, find_from p l idx = inr (Some x) -> In x l.
Proof.
  induction l as [|y l IH]; intros idx x H; simpl in H.
  - discriminate.
  - unfold bind in H. destruct (p y idx) as [e|[|]]; try discriminate.
    + injection H as ->. now left.
    + right. eapply IH. exact H.
Qed.

Lemma last_In {A : Type} (l : list A) (x d : A) : In (last (x :: l) d) (x :: l).
Proof.
  revert x. induction l as [|y l IH]; intros x.
  - now left.
  - right. apply IH.
Qed.

(** The two legs src/server.js selects are legs of the itinerary. *)
Lemma selected_legs_In origin destination first rest :
  (forall leg, Server.outboundLeg origin first (first :: rest) = inr leg ->
               In leg (first :: rest)) /\
  (forall leg, Server.returnLeg origin destination first (first :: rest) = inr leg ->
               In leg (first :: rest)).
Proof.
  unfold Server.outboundLeg, Server.returnLeg, find, bind. split; intros leg H.
  - destruct (find_from _ (first :: rest) 0) as [e|[x|]] eqn:Hfind;
      try discriminate; injection H as <-.
    + eapply find_from_In. exact Hfind.
    + now left.
  - destruct (find_from _ (first :: rest) 0) as [e|[x|]] eqn:Hfind;
      try discriminate; injection H as <-.
    + eapply find_from_In. exact Hfind.
    + apply last_In.
Qed.



(** ** No exception *)

Lemma forEach_total {A S : Type} (f : A -> S -> result S) (l : list A) :
  (forall x, In x l -> forall s, exists s', f x s = inr s') ->
  forall s, exists s', forEach l f s = inr s'.
Proof.
  induction l as [|x l IH]; intros Hf s; simpl.
  - now exists s.
  - destruct (Hf x (or_introl eq_refl) s) as (s1 & ->). unfold bind.
    apply IH. intros y Hy. apply Hf. now right.
Qed.

Lemma find_from_total {A : Type} (p : A -> nat -> result bool) (l : list A) :
  (forall x, In x l -> forall idx, exists b, p x idx = inr b) ->
  forall idx, exists found, find_from p l idx = inr found.
Proof.
  induction l as [|x l IH]; intros Hp idx; simpl.
  - now exists None.
  - destruct (Hp x (or_introl eq_refl) idx) as (b & ->). unfold bind.
    destruct b; [now exists (Some x)|].
    apply IH. intros y Hy. apply Hp. now right.
Qed.

Lemma includes_call_total (leg : Serp.leg) (x : param) :
  callable_name leg ->
  exists v,
    Server.includes_call (chain (Serp.departure_airport leg) Serp.name) x = inr v.
Proof.
  unfold callable_name, Server.includes_call.
  destruct (chain (Serp.departure_airport leg) Serp.name);
    intros H; try contradiction; eexists; reflexivity.
Qed.

Lemma callbacks_total (origin destination : param) (leg : Serp.leg) (idx : nat) :
  callable_name leg ->
  (exists b, Server.is_outbound origin leg idx = inr b) /\
  (exists b, Server.is_return origin destination leg idx = inr b).
Proof.
  intros H. unfold Server.is_outbound, Server.is_return, bind. split.
  - destruct (strict_eq _ _); [now eexists|].
    destruct (includes_call_total leg origin H) as (v & ->). now eexists.
  - destruct (idx =? 0)%nat; [now eexists|].
    destruct (strict_eq _ _); [now eexists|].
    destruct (strict_eq _ _); [now eexists|].
    destruct (includes_call_total leg destination H) as (v & ->). now eexists.
Qed.

Lemma Server_eachFlight_total tag rt origin destination flight s :
  (forall leg, In leg (legs flight) -> callable_name leg) ->
  exists s', Server.eachFlight tag rt origin destination flight s = inr s'.
Proof.
  intros H. unfold Server.eachFlight, legs in *.
  destruct (Serp.flights flight) as [[|first rest]|]; try (now eexists).
  simpl items in H.
  destruct (truthy rt && _); [|now eexists].
  unfold Server.outboundLeg, Server.returnLeg, find, bind.
  destruct (find_from_total (Server.is_outbound origin) (first :: rest))
    with (idx := 0%nat) as (ob & ->).
  { intros x Hx idx. now apply callbacks_total, H. }
  destruct (find_from_total (Server.is_return origin destination) (first :: rest))
    with (idx := 0%nat) as (rl & ->).
  { intros x Hx idx. now apply (callbacks_total origin destination), H. }
  now eexists.
Qed.

Lemma when_some_total {A S : Type} (o : option (list A))
  (slice : list A -> list A) (f : A -> S -> result S) :
  slice [] = [] ->
  (forall x, In x (slice (items o)) -> forall s, exists s', f x s = inr s') ->
  forall s, exists s', when_some o slice f s = inr s'.
Proof.
  intros Hnil Hf s. rewrite when_some_forEach by exact Hnil.
  now apply forEach_total.
Qed.

(** The one-way versions throw nothing while they read an answer; neither
    does src/server.js when every airport name it meets can be searched. *)
Lemma transform_total (params : Params.t) (data : Serp.data) :
  (callable_names data -> exists e, Server.transform params data = inr e) /\
  (exists e, Part000a.transform params data = inr e) /\
  (exists e, Part000b.transform params data = inr e) /\
  (exists e, Part001.transform params data = inr e).
Proof.
  unfold Server.transform, Part000a.transform, Part000b.transform,
    Part001.transform, bind. cbv zeta.
  split; [|split; [|split]].
  - intros Hn.
    destruct (when_some_total (Serp.best_flights data) (fun l => l)
      (Server.eachFlight "best" (Server.isRoundTrip (Params.return_date params))
         (Params.origin params) (Params.destination params)) eq_refl)
      with (s := @nil flightData) as (bs & ->).
    { intros x Hx s. apply Server_eachFlight_total. intros leg.
      apply Hn, in_or_app. now left. }
    destruct (when_some_total (Serp.other_flights data) (firstn 5)
      (Server.eachFlight "other" (Server.isRoundTrip (Params.return_date params))
         (Params.origin params) (Params.destination params)) eq_refl)
      with (s := bs) as (all & ->).
    { intros x Hx s. apply Server_eachFlight_total. intros leg.
      apply Hn, in_or_app. now right. }
    now eexists.
  - destruct (when_some_total (Serp.best_flights data) (fun l => l)
      (Part000a.eachFlight "best") eq_refl) with (s := @nil flightData)
      as (bs & ->).
    { intros x _ s. unfold Part000a.eachFlight.
      destruct (Serp.flights x) as [[|? ?]|]; now eexists. }
    destruct (when_some_total (Serp.other_flights data) (firstn 5)
      (Part000a.eachFlight "other") eq_refl) with (s := bs) as (all & ->).
    { intros x _ s. unfold Part000a.eachFlight.
      destruct (Serp.flights x) as [[|? ?]|]; now eexists. }
    now eexists.
  - destruct (when_some_total (Serp.best_flights data) (fun l => l)
      (Part000b.eachFlight "best" Part000b.carbon_best) eq_refl)
      with (s := @nil flightData) as (bs & ->).
    { intros x _ s. unfold Part000b.eachFlight.
      destruct (Serp.flights x) as [[|? ?]|]; now eexists. }
    destruct (when_some_total (Serp.other_flights data) (firstn 5)
      (Part000b.eachFlight "other" Part000b.carbon_other) eq_refl)
      with (s := bs) as (all & ->).
    { intros x _ s. unfold Part000b.eachFlight.
      destruct (Serp.flights x) as [[|? ?]|]; now eexists. }
    now eexists.
  - destruct (when_some_total (Serp.best_flights data) (fun l => l)
      (Part001.eachFlight "best" Part001.carbon_best (Params.origin params)
         (Params.destination params)) eq_refl)
      with (s := @nil flightData) as (bs & ->).
    { intros x _ s. unfold Part001.eachFlight.
      destruct (Serp.flights x) as [[|? ?]|]; now eexists. }
    destruct (when_some_total (Serp.other_flights data) (firstn 5)
      (Part001.eachFlight "other" Part001.carbon_other (Params.origin params)
         (Params.destination params)) eq_refl) with (s := bs) as (all & ->).
    { intros x _ s. unfold Part001.eachFlight.
      destruct (Serp.flights x) as [[|? ?]|]; now eexists. }
    destruct (length all =? 0)%nat; now eexists.
Qed.



(** What src/server.js answers for legs of which the provider says nothing,
    in a round-trip search. *)
Example bare_legs_answer :
  let said_nothing :=
    {| Details.departure_time := VStr "N/A";
       Details.arrival_time := VStr "N/A";
       Details.departure_airport := VStr "BOM";
       Details.arrival_airport := VStr "DEL";
       Details.duration := VStr "N/A";
       Details.airline := VStr "Unknown";
       Details.flight_number := VStr "N/A" |} in
  exists fd,
    flights (snd (Server.searchFlights (answering two_bare_legs) BOM_DEL_return))
    = Some [fd] /\
    airline fd = VStr "Unknown" /\ flight_number fd = VStr "N/A" /\
    price fd = VStr "N/A" /\ stops fd = 0%Z /\
    outbound fd = Some said_nothing /\
    return_ fd =
      Some {| Details.departure_time := VStr "N/A";
              Details.arrival_time := VStr "N/A";
              Details.departure_airport := VStr "DEL";
              Details.arrival_airport := VStr "BOM";
              Details.duration := VStr "N/A";
              Details.airline := VStr "Unknown";
              Details.flight_number := VStr "N/A" |}.
Proof. cbv zeta. eexists. repeat split. Qed.

(** A name that is neither a string nor an array, in a leg that does not
    leave from the origin, makes the round-trip search of src/server.js
    fail with the message of the exception. *)
Example number_as_name_fails :
  let odd_leg :=
    {| Serp.airline := VStr "IndiGo";
       Serp.flight_number := VStr "6E 1";
       Serp.duration := VNum 100;
       Serp.departure_airport :=
         Some {| Serp.id := VStr "PNQ"; Serp.name := VNum 7; Serp.time := VUndefined |};
       Serp.arrival_airport := None |} in
  let data :=
    {| Serp.best_flights :=
         Some [ {| Serp.flights := Some [odd_leg; leg_DEL_BOM];
                   Serp.price := VNum 1; Serp.carbon_emissions := None |} ];
       Serp.other_flights := None;
       Serp.price_insights := VUndefined |} in
  let e := snd (Server.searchFlights (answering data) BOM_DEL_return) in
  success e = false /\
  error e = Some "leg.departure_airport?.name?.includes is not a function".
Proof. cbv zeta. split; reflexivity. Qed.

(** ** The legs of a round trip *)

(** C7, as stated, fails: a leg whose departure airport name contains the
    origin is taken as the outbound leg before the leg that leaves from the
    origin, and a leg whose departure airport name contains the destination
    is taken as the return leg before the leg that leaves from the
    destination. *)
Lemma C7_selection_by_name_counterexample :
  Server.outboundLeg (PStr "BOM") feeder four_legs = inr feeder /\
  spec_outboundLeg (PStr "BOM") feeder four_legs = leg_BOM_DEL /\
  feeder <> leg_BOM_DEL /\
  Server.returnLeg (PStr "BOM") (PStr "DEL") feeder four_legs = inr side_trip /\
  spec_returnLeg (PStr "BOM") (PStr "DEL") feeder four_legs = leg_DEL_BOM /\
  side_trip <> leg_DEL_BOM.
Proof. repeat split; discriminate. Qed.

Lemma find_from_pure {A : Type} (p : A -> nat -> result bool)
  (P : nat -> A -> bool) (l : list A) :
  (forall x idx, In x l -> p x idx = inr (P idx x)) ->
  forall idx, find_from p l idx = inr (pure_find_from P l idx).
Proof.
  induction l as [|x l IH]; intros Hp idx; simpl; [reflexivity|].
  rewrite (Hp x idx (or_introl eq_refl)). unfold bind.
  destruct (P idx x); [reflexivity|].
  apply IH. intros y i Hy. apply Hp. now right.
Qed.

Lemma pure_find_from_some {A : Type} (P : nat -> A -> bool) (l : list A) :
  forall idx x, pure_find_from P l idx = Some x ->
  exists k, nth_error l k = Some x /\ P (idx + k)%nat x = true /\
            forall j y, (j < k)%nat -> nth_error l j = Some y ->
                        P (idx + j)%nat y = false.
Proof.
  induction l as [|a l IH]; intros idx x H; simpl in H; [discriminate|].
  destruct (P idx a) eqn:Ha.
  - injection H as <-. exists 0%nat. rewrite Nat.add_0_r.
    repeat split; auto. intros j y Hj. lia.
  - destruct (IH _ _ H) as (k & Hk & HP & Hbefore).
    exists (S k). rewrite Nat.add_succ_r. repeat split; auto.
    intros [|j] y Hj Hy; simpl in Hy.
    + injection Hy as <-. now rewrite Nat.add_0_r.
    + rewrite Nat.add_succ_r. apply (Hbefore j y); [lia | exact Hy].
Qed.

Lemma pure_find_from_none {A : Type} (P : nat -> A -> bool) (l : list A) :
  forall idx, pure_find_from P l idx = None ->
  forall j y, nth_error l j = Some y -> P (idx + j)%nat y = false.
Proof.
  induction l as [|a l IH]; intros idx H j y Hy.
  - destruct j; discriminate.
  - simpl in H. destruct (P idx a) eqn:Ha; [discriminate|].
    destruct j as [|j]; simpl in Hy.
    + injection Hy as <-. now rewrite Nat.add_0_r.
    + rewrite Nat.add_succ_r. now apply (IH (S idx)).
Qed.

Lemma callbacks_pure (origin destination : param) (leg : Serp.leg) (idx : nat) :
  callable_name leg ->
  Server.is_outbound origin leg idx = inr (outbound_match origin leg) /\
  Server.is_return origin destination leg idx
  = inr (negb (idx =? 0)%nat && return_match origin destination leg).
Proof.
  unfold callable_name, Server.is_outbound, Server.is_return, outbound_match,
    return_match, departs_from, arrives_at, name_has, Server.includes_call, bind.
  intros H. split.
  - destruct (strict_eq (chain (Serp.departure_airport leg) Serp.id) origin);
      [reflexivity|].
    destruct (chain (Serp.departure_airport leg) Serp.name);
      try contradiction; reflexivity.
  - destruct (idx =? 0)%nat; [reflexivity|].
    destruct (strict_eq (chain (Serp.departure_airport leg) Serp.id) destination);
      [reflexivity|].
    destruct (strict_eq (chain (Serp.arrival_airport leg) Serp.id) origin);
      [reflexivity|].
    destruct (chain (Serp.departure_airport leg) Serp.name);
      try contradiction; reflexivity.
Qed.

Lemma outboundLeg_first origin first legs :
  (forall leg, In leg legs -> callable_name leg) ->
  exists leg,
    Server.outboundLeg origin first legs = inr leg /\
    first_from 0 (outbound_match origin) legs first leg.
Proof.
  intros Hn. unfold Server.outboundLeg, find, bind.
  rewrite (find_from_pure _ (fun _ => outbound_match origin)).
  2:{ intros x idx Hx. apply (callbacks_pure origin origin), Hn, Hx. }
  destruct (pure_find_from _ legs 0) as [x|] eqn:Hfind.
  - exists x. split; [reflexivity|]. left.
    apply pure_find_from_some in Hfind. destruct Hfind as (k & Hk & HP & Hb).
    exists k. repeat split; auto; try lia.
    intros j y Hj. apply (Hb j y). lia.
  - exists first. split; [reflexivity|]. right. split; [|reflexivity].
    intros j y _. apply (pure_find_from_none _ _ _ Hfind j y).
Qed.

Lemma returnLeg_first origin destination first legs :
  (forall leg, In leg legs -> callable_name leg) ->
  exists leg,
    Server.returnLeg origin destination first legs = inr leg /\
    first_from 1 (return_match origin destination) legs (last legs first) leg.
Proof.
  intros Hn. unfold Server.returnLeg, find, bind.
  rewrite (find_from_pure _
             (fun idx leg => negb (idx =? 0)%nat
                             && return_match origin destination leg)).
  2:{ intros x idx Hx. apply (callbacks_pure origin destination), Hn, Hx. }
  destruct (pure_find_from _ legs 0) as [x|] eqn:Hfind.
  - exists x. split; [reflexivity|]. left.
    apply pure_find_from_some in Hfind. destruct Hfind as (k & Hk & HP & Hb).
    simpl in HP. apply andb_true_iff in HP. destruct HP as (Hk0 & HP).
    exists k. repeat split; auto.
    + destruct k; [discriminate | lia].
    + intros j y Hj Hy. specialize (Hb j y (proj2 Hj) Hy). simpl in Hb.
      destruct j; [lia|]. exact Hb.
  - exists (last legs first). split; [reflexivity|]. right.
    split; [|reflexivity]. intros j y Hj Hy.
    pose proof (pure_find_from_none _ _ _ Hfind j y Hy) as Hb. simpl in Hb.
    destruct j; [lia|]. exact Hb.
Qed.

(** C7, amended: for a round-trip search and an itinerary of two legs or
    more whose departure airport names are absent, strings or arrays, the
    outbound leg is the first leg whose departure airport code is the origin
    or whose departure airport name contains the origin, and the first leg
    of the list when there is none; the return leg is the first leg after
    index zero whose departure airport code is the destination, or whose
    arrival airport code is the origin, or whose departure airport name
    contains the destination, and the last leg of the list when there is
    none; the record pushed is made of these two legs. *)
Theorem C7_round_trip_legs (tag : string) (params : Params.t)
  (flight : Serp.itinerary) (first second : Serp.leg) (rest : list Serp.leg)
  (s : list flightData) :
  let origin := Params.origin params in
  let destination := Params.destination params in
  let isRoundTrip := Server.isRoundTrip (Params.return_date params) in
  let legs := first :: second :: rest in
  truthy isRoundTrip = true ->
  Serp.flights flight = Some legs ->
  (forall leg, In leg legs -> callable_name leg) ->
  exists outboundLeg returnLeg,
    Server.outboundLeg origin first legs = inr outboundLeg /\
    Server.returnLeg origin destination first legs = inr returnLeg /\
    first_from 0 (outbound_match origin) legs first outboundLeg /\
    first_from 1 (return_match origin destination) legs (last legs first)
      returnLeg /\
    Server.eachFlight tag isRoundTrip origin destination flight s
    = inr (s ++ [Server.round_trip_record tag isRoundTrip origin destination
                   flight outboundLeg returnLeg])%list.
Proof.
  cbv zeta. intros Hrt Hf Hn.
  destruct (outboundLeg_first (Params.origin params) first _ Hn)
    as (ob & Hob & Hfirst).
  destruct (returnLeg_first (Params.origin params) (Params.destination params)
              first _ Hn) as (rl & Hrl & Hlast).
  exists ob, rl. repeat split; auto.
  unfold Server.eachFlight. rewrite Hf, Hrt. simpl andb. cbv iota.
  rewrite Hob, Hrl. reflexivity.
Qed.

Lemma C7_round_trip_legs_witness :
  let flight :=
    {| Serp.flights := Some four_legs;
       Serp.price := VNum 12000;
       Serp.carbon_emissions := None |} in
  let isRoundTrip := Server.isRoundTrip (Params.return_date BOM_DEL_return) in
  truthy isRoundTrip = true /\
  Serp.flights flight = Some four_legs /\
  (forall leg, In leg four_legs -> callable_name leg) /\
  exists outboundLeg returnLeg,
    Server.outboundLeg (PStr "BOM") feeder four_legs = inr outboundLeg /\
    Server.returnLeg (PStr "BOM") (PStr "DEL") feeder four_legs = inr returnLeg /\
    first_from 0 (outbound_match (PStr "BOM")) four_legs feeder outboundLeg /\
    first_from 1 (return_match (PStr "BOM") (PStr "DEL")) four_legs
      (last four_legs feeder) returnLeg /\
    Server.eachFlight "best" isRoundTrip (PStr "BOM") (PStr "DEL") flight []
    = inr ([] ++ [Server.round_trip_record "best" isRoundTrip (PStr "BOM")
                    (PStr "DEL") flight outboundLeg returnLeg])%list.
Proof.
  cbv zeta.
  assert (Hn : forall leg, In leg four_legs -> callable_name leg).
  { intros leg [<-|[<-|[<-|[<-|[]]]]]; exact I. }
  split; [reflexivity|]. split; [reflexivity|]. split; [exact Hn|].
  exact (C7_round_trip_legs "best" BOM_DEL_return
           {| Serp.flights := Some four_legs;
              Serp.price := VNum 12000;
              Serp.carbon_emissions := None |}
           feeder leg_BOM_DEL [side_trip; leg_DEL_BOM] []
           eq_refl eq_refl Hn).
Defined.
(** * Further properties *)

(** ** When the provider fails *)

Lemma prefix_app (s t : string) : String.prefix s (s ++ t) = true.
Proof.
  induction s as [|c s IH]; simpl.
  - destruct t; reflexivity.
  - destruct (ascii_dec c c); [exact IH | contradiction].
Qed.

Lemma includes_here (s t : string) : includes (s ++ t) s = true.
Proof.
  destruct s as [|c s]; simpl.
  - destruct t; reflexivity.
  - destruct (ascii_dec c c); [|contradiction]. now rewrite prefix_app.
Qed.

Lemma includes_after (a t s : string) :
  includes t s = true -> includes (a ++ t) s = true.
Proof.
  intros H. induction a as [|c a IH]; [exact H|].
  change (String c a ++ t) with (String c (a ++ t)).
  assert (E : forall x r, includes (String x r) s
                          = if String.prefix s (String x r) then true
                            else includes r s) by reflexivity.
  rewrite E. destruct (String.prefix s (String c (a ++ t)));
    [reflexivity | exact IH].
Qed.

Lemma includes_middle (a s b : string) : includes (a ++ s ++ b) s = true.
Proof. apply includes_after, includes_here. Qed.


(** ** POST /execute-tool *)

Lemma truthy_search_flights (tool : param) :
  strict_eq tool (VStr "search_flights") = true <-> tool = PStr "search_flights".
Proof.
  destruct tool as [| |s]; simpl; try (split; discriminate).
  destruct (String.eqb_spec s "search_flights"); split; congruence.
Qed.

Lemma search_flights_truthy (tool : param) :
  tool = PStr "search_flights" -> truthy tool = true.
Proof. intros ->. reflexivity. Qed.

Lemma complete_dec (params : Params.t) : complete params \/ ~ complete params.
Proof.
  unfold complete.
  destruct (truthy (Params.origin params));
    destruct (truthy (Params.destination params));
    destruct (truthy (Params.departure_date params)); intuition congruence.
Qed.

(** The log of a version that checks the request. *)
Lemma checking_versions_log (w : world) (params : Params.t) :
  (complete params /\ configured w = true ->
   fst (Server.searchFlights w params) = [Server.request w params] /\
   fst (Part000a.searchFlights w params) = [Part000a.request w params] /\
   fst (Part001.searchFlights w params) = [Part001.request w params]) /\
  (~ (complete params /\ configured w = true) ->
   fst (Server.searchFlights w params) = [] /\
   fst (Part000a.searchFlights w params) = [] /\
   fst (Part001.searchFlights w params) = []).
Proof.
  split.
  - intros (Hc & Hw). destruct (one_call w params Hc Hw) as (? & ? & _ & ?). auto.
  - intros H.
    unfold Server.searchFlights, Part000a.searchFlights, Part001.searchFlights.
    unfold complete in H.
    destruct (truthy (Params.origin params)); simpl; auto.
    destruct (truthy (Params.destination params)); simpl; auto.
    destruct (truthy (Params.departure_date params)); simpl; auto.
    destruct (configured w); simpl; auto.
    exfalso. apply H. auto.
Qed.

Lemma given_read {P : Type} (nothing : P) (b : bag P) :
  given b = true -> destructure nothing b = ret (read nothing b).
Proof. destruct b; simpl; intros H; try discriminate; reflexivity. Qed.

Lemma searched_dec {P : Type} (body : Body.t P) : searched body \/ ~ searched body.
Proof.
  unfold searched.
  destruct (strict_eq (Body.tool body) (VStr "search_flights")) eqn:Hs.
  - apply truthy_search_flights in Hs.
    destruct (given (Body.parameters body)); [left; auto|].
    right. intros (_ & H). discriminate.
  - right. intros (H & _). apply truthy_search_flights in H. congruence.
Qed.

(** What the handler made of any [searchFlights] answers. *)
Lemma execute_tool_cases {P : Type} (nothing : P)
  (searchFlights : world -> P -> list call * envelope)
  (w : world) (body : Body.t P) :
  let run := execute_tool nothing searchFlights w body in
  let params := read nothing (Body.parameters body) in
  (truthy (Body.tool body) = false /\ fst run = [] /\
   snd run = {| status := 400;
                sent_body := Missing ("Missing " ++ dquote ++ "tool" ++ dquote
                                      ++ " parameter") body |}) \/
  (truthy (Body.tool body) = true /\ given (Body.parameters body) = false /\
   fst run = [] /\
   snd run = {| status := 400;
                sent_body := Missing ("Missing " ++ dquote ++ "parameters"
                                      ++ dquote ++ " parameter") body |}) \/
  (searched body /\
   fst run = fst (searchFlights w params) /\
   snd run = {| status := 200;
                sent_body := Answer (snd (searchFlights w params)) |}) \/
  (truthy (Body.tool body) = true /\
   Body.tool body <> PStr "search_flights" /\
   given (Body.parameters body) = true /\
   fst run = [] /\
   snd run = {| status := 400;
                sent_body := UnknownTool
                  ("Unknown tool: " ++ ToString (Body.tool body))
                  (Some ["search_flights"]) |}).
Proof.
  cbv zeta. unfold execute_tool, searched.
  destruct (truthy (Body.tool body)) eqn:Ht; simpl; [|left; auto].
  right.
  destruct (given (Body.parameters body)) eqn:Hg; simpl; [|left; auto].
  right.
  destruct (strict_eq (Body.tool body) (VStr "search_flights")) eqn:Hs.
  - left. apply truthy_search_flights in Hs.
    unfold search. rewrite (given_read nothing _ Hg). simpl.
    destruct (searchFlights w (read nothing (Body.parameters body)))
      as [log e]. simpl. auto.
  - right. simpl. repeat split; auto.
    intros H. apply truthy_search_flights in H. congruence.
Qed.

(** The calls of the handler are those of [searchFlights] on what it reads
    of the parameters, for a request that names the search with truthy
    parameters, and none for any other. *)
Lemma handler_log {P : Type} (nothing : P)
  (searchFlights : world -> P -> list call * envelope)
  (w : world) (body : Body.t P) :
  let log := fst (execute_tool nothing searchFlights w body) in
  (searched body ->
   log = fst (searchFlights w (read nothing (Body.parameters body)))) /\
  (~ searched body -> log = []).
Proof.
  cbv zeta. unfold searched.
  destruct (execute_tool_cases nothing searchFlights w body)
    as [(Ht & -> & _)|[(Ht & Hg & -> & _)|[(Hs & -> & _)|(Ht & Hn & Hg & -> & _)]]].
  - split; [|reflexivity]. intros (H & _). rewrite H in Ht. discriminate.
  - split; [|reflexivity]. intros (_ & H). congruence.
  - split; [reflexivity|]. intros H. contradiction.
  - split; [|reflexivity]. intros (H & _). contradiction.
Qed.

(** Line 136 returns for a falsy value and for a string, and throws for
    every other value. *)
Lemma isRoundTrip_returns (return_date : value) :
  (trimmable return_date ->
   exists v, ServerAny.isRoundTrip return_date = inr v) /\
  (~ trimmable return_date ->
   ServerAny.isRoundTrip return_date
   = inl (TypeError "return_date.trim is not a function")).
Proof.
  unfold trimmable, ServerAny.isRoundTrip.
  destruct return_date as [| |b|n|s|l|o]; simpl.
  - split; [eauto | intros H; exfalso; apply H; auto].
  - split; [eauto | intros H; exfalso; apply H; auto].
  - destruct b; simpl.
    + split; [|reflexivity]. intros [H|(s & H)]; discriminate.
    + split; [eauto | intros H; exfalso; apply H; auto].
  - destruct (n =? 0)%Z eqn:E; simpl.
    + split; [eauto | intros H; exfalso; apply H; auto].
    + split; [|reflexivity]. intros [H|(s & H)]; discriminate.
  - split; [|intros H; exfalso; apply H; eauto].
    intros _. destruct (negb (s =? "")); simpl; [|eauto].
    destruct (s =? "null"); eauto.
  - split; [|reflexivity]. intros [H|(s & H)]; discriminate.
  - split; [|reflexivity]. intros [H|(s & H)]; discriminate.
Qed.

Lemma trimmable_dec (return_date : value) :
  trimmable return_date \/ ~ trimmable return_date.
Proof.
  unfold trimmable. destruct (truthy return_date) eqn:Ht; [|auto].
  destruct return_date as [| |b|n|s|l|o]; eauto;
    right; intros [H|(s & H)]; discriminate.
Qed.

(** On a [return_date] that is absent, [null] or a string, line 136 is the
    [isRoundTrip] of [Server]. *)
Lemma isRoundTrip_agrees (return_date : param) :
  ServerAny.isRoundTrip (value_of return_date)
  = ret (Server.isRoundTrip return_date).
Proof.
  destruct return_date as [| |s]; try reflexivity.
  unfold ServerAny.isRoundTrip, Server.isRoundTrip, and_then, value_of. simpl.
  destruct (s =? "") eqn:E; do 3 (simpl; rewrite ?E); [reflexivity|].
  destruct (s =? "null") eqn:E'; do 3 (simpl; rewrite ?E, ?E'); [reflexivity|].
  destruct (trim s =? ""); reflexivity.
Qed.

(** On such a request the whole of [ServerAny] is [Server]. *)
Lemma ServerAny_agrees (w : world) (params : Params.t) :
  ServerAny.searchFlights w (ServerAny.of_params params)
  = Server.searchFlights w params.
Proof.
  unfold ServerAny.searchFlights, Server.searchFlights. simpl.
  destruct (negb (truthy (Params.origin params))
            || negb (truthy (Params.destination params))
            || negb (truthy (Params.departure_date params))); [reflexivity|].
  destruct (negb (configured w)); [reflexivity|].
  rewrite isRoundTrip_agrees. simpl.
  reflexivity.
Qed.

(** The log of src/server.js, whatever the kind of [return_date]. *)
Lemma ServerAny_log (w : world) (r : Request.t) :
  let go :=
    complete (ServerAny.required r) /\ configured w = true /\
    trimmable (Request.return_date r) in
  (go ->
   exists isRoundTrip,
     ServerAny.isRoundTrip (Request.return_date r) = inr isRoundTrip /\
     fst (ServerAny.searchFlights w r) = [ServerAny.request w r isRoundTrip]) /\
  (~ go -> fst (ServerAny.searchFlights w r) = []).
Proof.
  cbv zeta. unfold complete, ServerAny.searchFlights. simpl.
  destruct (truthy (Request.origin r)); simpl;
    [|split; [intros ((H & _) & _); discriminate | reflexivity]].
  destruct (truthy (Request.destination r)); simpl;
    [|split; [intros ((_ & H & _) & _); discriminate | reflexivity]].
  destruct (truthy (Request.departure_date r)); simpl;
    [|split; [intros ((_ & _ & H) & _); discriminate | reflexivity]].
  destruct (configured w); simpl;
    [|split; [intros (_ & H & _); discriminate | reflexivity]].
  destruct (isRoundTrip_returns (Request.return_date r)) as (Hy & Hn).
  destruct (trimmable_dec (Request.return_date r)) as [Ht|Ht].
  - destruct (Hy Ht) as (v & ->). split; [eauto|].
    intros H. exfalso. apply H. auto.
  - rewrite (Hn Ht). split; [|reflexivity]. intros (_ & _ & H). contradiction.
Qed.

(** X1: the handler of POST /execute-tool calls the provider at most once,
    for what [searchFlights] reads of the parameters.  In the first file of
    part_000 and in part_001 it calls exactly when the tool is
    [search_flights], the parameters are truthy, the three required fields
    read from them are truthy and the credential is configured; parameters
    that are a boolean, a number, a string or an array have no field and are
    never forwarded.  In src/server.js it calls exactly when, moreover,
    [return_date] is falsy or a string: for any other [return_date] line 136
    throws before the call. *)
Theorem X1_handler_calls_provider (w : world) :
  (forall body : Body.t Request.t,
     let r := read Request.nothing (Body.parameters body) in
     let log :=
       fst (execute_tool Request.nothing ServerAny.searchFlights w body) in
     (log <> [] <->
      searched body /\ complete (ServerAny.required r) /\
      configured w = true /\ trimmable (Request.return_date r)) /\
     (log = [] \/
      exists isRoundTrip,
        ServerAny.isRoundTrip (Request.return_date r) = inr isRoundTrip /\
        log = [ServerAny.request w r isRoundTrip]) /\
     (forall v, Body.parameters body = Plain v -> log = [])) /\
  (forall body : Body.t Params.t,
     let params := read no_fields (Body.parameters body) in
     let log := fst (execute_tool no_fields Part000a.searchFlights w body) in
     (log <> [] <->
      searched body /\ complete params /\ configured w = true) /\
     (log = [] \/ log = [Part000a.request w params]) /\
     (forall v, Body.parameters body = Plain v -> log = [])) /\
  (forall body : Body.t Params.t,
     let params := read no_fields (Body.parameters body) in
     let log := fst (execute_tool no_fields Part001.searchFlights w body) in
     (log <> [] <->
      searched body /\ complete params /\ configured w = true) /\
     (log = [] \/ log = [Part001.request w params]) /\
     (forall v, Body.parameters body = Plain v -> log = [])).
Proof.
  split; [|split]; intros body; cbv zeta.
  - destruct (handler_log Request.nothing ServerAny.searchFlights w body)
      as (Hy & Hn).
    destruct (ServerAny_log w (read Request.nothing (Body.parameters body)))
      as (Hgo & Hstay).
    assert (Hplain : forall v, Body.parameters body = Plain v ->
              ~ complete (ServerAny.required
                            (read Request.nothing (Body.parameters body)))).
    { intros v -> (H & _). discriminate. }
    destruct (searched_dec body) as [Hs|Hs].
    + rewrite (Hy Hs).
      destruct (complete_dec (ServerAny.required
                  (read Request.nothing (Body.parameters body)))) as [Hc|Hc];
        [destruct (configured w) eqn:Hw;
           [destruct (trimmable_dec (Request.return_date
                        (read Request.nothing (Body.parameters body))))
              as [Ht|Ht]|]|].
      * destruct (Hgo (conj Hc (conj eq_refl Ht))) as (v & Hv & ->).
        split; [split; [auto | discriminate]|].
        split; [right; eauto|].
        intros p Hp. exfalso. now apply (Hplain p).
      * rewrite Hstay by tauto.
        split; [split; [congruence | tauto]|]. auto.
      * rewrite Hstay by (intros (_ & H & _); discriminate).
        split; [split; [congruence | intros (_ & _ & H & _); discriminate]|].
        auto.
      * rewrite Hstay by tauto.
        split; [split; [congruence | tauto]|]. auto.
    + rewrite (Hn Hs). split; [split; [congruence | tauto]|]. auto.
  - destruct (handler_log no_fields Part000a.searchFlights w body) as (Hy & Hn).
    destruct (checking_versions_log w (read no_fields (Body.parameters body)))
      as (Hgo & Hstay).
    assert (Hplain : forall v, Body.parameters body = Plain v ->
              ~ complete (read no_fields (Body.parameters body))).
    { intros v -> (H & _). discriminate. }
    destruct (searched_dec body) as [Hs|Hs].
    + rewrite (Hy Hs).
      destruct (complete_dec (read no_fields (Body.parameters body))) as [Hc|Hc];
        [destruct (configured w) eqn:Hw|].
      * destruct (Hgo (conj Hc eq_refl)) as (_ & -> & _).
        split; [split; [auto | discriminate]|]. split; [auto|].
        intros p Hp. exfalso. now apply (Hplain p).
      * destruct Hstay as (_ & -> & _); [intros (_ & H); discriminate|].
        split; [split; [congruence | intros (_ & _ & H); discriminate]|]. auto.
      * destruct Hstay as (_ & -> & _); [tauto|].
        split; [split; [congruence | tauto]|]. auto.
    + rewrite (Hn Hs). split; [split; [congruence | tauto]|]. auto.
  - destruct (handler_log no_fields Part001.searchFlights w body) as (Hy & Hn).
    destruct (checking_versions_log w (read no_fields (Body.parameters body)))
      as (Hgo & Hstay).
    assert (Hplain : forall v, Body.parameters body = Plain v ->
              ~ complete (read no_fields (Body.parameters body))).
    { intros v -> (H & _). discriminate. }
    destruct (searched_dec body) as [Hs|Hs].
    + rewrite (Hy Hs).
      destruct (complete_dec (read no_fields (Body.parameters body))) as [Hc|Hc];
        [destruct (configured w) eqn:Hw|].
      * destruct (Hgo (conj Hc eq_refl)) as (_ & _ & ->).
        split; [split; [auto | discriminate]|]. split; [auto|].
        intros p Hp. exfalso. now apply (Hplain p).
      * destruct Hstay as (_ & _ & ->); [intros (_ & H); discriminate|].
        split; [split; [congruence | intros (_ & _ & H); discriminate]|]. auto.
      * destruct Hstay as (_ & _ & ->); [tauto|].
        split; [split; [congruence | tauto]|]. auto.
    + rewrite (Hn Hs). split; [split; [congruence | tauto]|]. auto.
Qed.

(** A search whose [return_date] is the number 20260120 does not reach the
    provider from src/server.js; a one-way search reaches it from the first
    file of part_000. *)
Lemma X1_handler_calls_provider_witness :
  let body := Body.mk (PStr "search_flights") (Bag BOM_DEL_number) in
  let body' := Body.mk (PStr "search_flights") (Bag BOM_DEL) in
  fst (execute_tool Request.nothing ServerAny.searchFlights
         (answering one_best) body) = [] /\
  fst (execute_tool no_fields Part000a.searchFlights
         (answering one_best) body') <> [].
Proof.
  cbv zeta.
  destruct (X1_handler_calls_provider (answering one_best)) as (Hs & Ha & _).
  split.
  - destruct (Hs (Body.mk (PStr "search_flights") (Bag BOM_DEL_number)))
      as (H & _).
    destruct (fst (execute_tool Request.nothing ServerAny.searchFlights
                (answering one_best)
                (Body.mk (PStr "search_flights") (Bag BOM_DEL_number))));
      [reflexivity|].
    exfalso. destruct (proj1 H) as (_ & _ & _ & [Ht|(s & Ht)]);
      [discriminate | discriminate | discriminate].
  - apply (Ha (Body.mk (PStr "search_flights") (Bag BOM_DEL))).
    repeat split.
Defined.

(** The status and the body the handler answers with. *)
Lemma handler_status {P : Type} (nothing : P)
  (searchFlights : world -> P -> list call * envelope)
  (w : world) (body : Body.t P) :
  let r := snd (execute_tool nothing searchFlights w body) in
  (status r = 200%Z <-> searched body) /\
  (status r = 400%Z <-> ~ searched body) /\
  (searched body ->
   sent_body r
   = Answer (snd (searchFlights w (read nothing (Body.parameters body))))) /\
  (given (Body.parameters body) = false ->
   exists said, sent_body r = Missing said body).
Proof.
  cbv zeta.
  destruct (execute_tool_cases nothing searchFlights w body)
    as [(Ht & _ & ->)|[(Ht & Hg & _ & ->)|[(Hs & _ & ->)|(Ht & Hn & Hg & _ & ->)]]];
    simpl.
  - assert (Hs : ~ searched body).
    { intros (H & _). rewrite H in Ht. discriminate. }
    split; [split; [discriminate | contradiction]|].
    split; [tauto|]. split; [contradiction|]. eauto.
  - assert (Hs : ~ searched body).
    { intros (_ & H). congruence. }
    split; [split; [discriminate | contradiction]|].
    split; [tauto|]. split; [contradiction|]. eauto.
  - split; [tauto|]. split; [split; [discriminate | contradiction]|].
    split; [reflexivity|]. intros Hf. destruct Hs as (_ & Hg). congruence.
  - assert (Hs : ~ searched body).
    { intros (H & _). contradiction. }
    split; [split; [discriminate | contradiction]|].
    split; [tauto|]. split; [contradiction|]. congruence.
Qed.

(** A search that lacks a required field or a credential fails, and in
    src/server.js so does one whose [return_date] line 136 cannot take. *)
Lemma search_fails (w : world) :
  (forall r,
     ~ complete (ServerAny.required r) \/ configured w = false
     \/ ~ trimmable (Request.return_date r) ->
     success (snd (ServerAny.searchFlights w r)) = false) /\
  (forall params,
     ~ complete params \/ configured w = false ->
     success (snd (Part000a.searchFlights w params)) = false /\
     success (snd (Part001.searchFlights w params)) = false).
Proof.
  split.
  - intros r H. unfold complete, ServerAny.searchFlights in *. simpl in H.
    destruct (truthy (Request.origin r)); simpl; [|reflexivity].
    destruct (truthy (Request.destination r)); simpl; [|reflexivity].
    destruct (truthy (Request.departure_date r)); simpl; [|reflexivity].
    destruct (configured w); simpl; [|reflexivity].
    destruct H as [H|[H|H]]; [exfalso; apply H; auto | discriminate |].
    destruct (isRoundTrip_returns (Request.return_date r)) as (_ & Hn).
    rewrite (Hn H). reflexivity.
  - intros params H.
    unfold complete, Part000a.searchFlights, Part001.searchFlights in *.
    destruct (truthy (Params.origin params)); simpl; [|auto].
    destruct (truthy (Params.destination params)); simpl; [|auto].
    destruct (truthy (Params.departure_date params)); simpl; [|auto].
    destruct (configured w); simpl; [|auto].
    destruct H as [H|H]; [exfalso; apply H; auto | discriminate].
Qed.

(** X2: the handler of POST /execute-tool (src/server.js, first file of
    part_000, part_001) answers status 200 exactly when the tool is
    [search_flights] and the parameters are truthy, and status 400
    otherwise.  With status 200 the body is what [searchFlights] returned
    for what it read of the parameters (stated for part_001 of parameters
    that are an object, its answer being able to show the parameters
    themselves), so a search that lacks a required
    field or a credential (and in src/server.js one whose [return_date] is
    neither falsy nor a string) is answered with status 200 and
    [success: false]; so are parameters that are a truthy boolean, number,
    string or array, which have no field: they are answered the
    missing-field error of [searchFlights], not the handler's own.  Falsy
    parameters are answered a missing-parameter error whatever the tool
    is. *)
Theorem X2_handler_status (w : world) :
  let lacking :=
    Some "Missing required parameters: origin, destination, or departure_date" in
  (forall body : Body.t Request.t,
     let r := snd (execute_tool Request.nothing ServerAny.searchFlights w body) in
     let params := read Request.nothing (Body.parameters body) in
     (status r = 200%Z <-> searched body) /\
     (status r = 400%Z <-> ~ searched body) /\
     (searched body ->
      sent_body r = Answer (snd (ServerAny.searchFlights w params))) /\
     (searched body ->
      ~ complete (ServerAny.required params) \/ configured w = false
      \/ ~ trimmable (Request.return_date params) ->
      exists said, sent_body r = Answer said /\ success said = false) /\
     (searched body -> forall v, Body.parameters body = Plain v ->
      exists said,
        sent_body r = Answer said /\ success said = false /\
        error said = lacking) /\
     (given (Body.parameters body) = false ->
      exists said, sent_body r = Missing said body)) /\
  (forall body : Body.t Params.t,
     let r := snd (execute_tool no_fields Part000a.searchFlights w body) in
     let params := read no_fields (Body.parameters body) in
     (status r = 200%Z <-> searched body) /\
     (status r = 400%Z <-> ~ searched body) /\
     (searched body ->
      sent_body r = Answer (snd (Part000a.searchFlights w params))) /\
     (searched body -> ~ complete params \/ configured w = false ->
      exists said, sent_body r = Answer said /\ success said = false) /\
     (searched body -> forall v, Body.parameters body = Plain v ->
      exists said,
        sent_body r = Answer said /\ success said = false /\
        error said = lacking) /\
     (given (Body.parameters body) = false ->
      exists said, sent_body r = Missing said body)) /\
  (forall body : Body.t Params.t,
     let r := snd (execute_tool no_fields Part001.searchFlights w body) in
     let params := read no_fields (Body.parameters body) in
     (status r = 200%Z <-> searched body) /\
     (status r = 400%Z <-> ~ searched body) /\
     (searched body -> forall asked, Body.parameters body = Bag asked ->
      sent_body r = Answer (snd (Part001.searchFlights w asked))) /\
     (searched body -> ~ complete params \/ configured w = false ->
      exists said, sent_body r = Answer said /\ success said = false) /\
     (searched body -> forall v, Body.parameters body = Plain v ->
      exists said,
        sent_body r = Answer said /\ success said = false /\
        error said = lacking) /\
     (given (Body.parameters body) = false ->
      exists said, sent_body r = Missing said body)).
Proof.
  cbv zeta. destruct (search_fails w) as (Hany & Htyped).
  split; [|split]; intros body.
  - destruct (handler_status Request.nothing ServerAny.searchFlights w body)
      as (H2 & H4 & Ha & Hm).
    split; [exact H2|]. split; [exact H4|]. split; [exact Ha|].
    split; [|split; [|exact Hm]].
    + intros Hs Hf. rewrite (Ha Hs). eexists. split; [reflexivity|].
      now apply Hany.
    + intros Hs v Hv. rewrite (Ha Hs), Hv. eexists.
      split; [reflexivity|]. split; reflexivity.
  - destruct (handler_status no_fields Part000a.searchFlights w body)
      as (H2 & H4 & Ha & Hm).
    split; [exact H2|]. split; [exact H4|]. split; [exact Ha|].
    split; [|split; [|exact Hm]].
    + intros Hs Hf. rewrite (Ha Hs). eexists. split; [reflexivity|].
      now apply Htyped.
    + intros Hs v Hv. rewrite (Ha Hs), Hv. eexists.
      split; [reflexivity|]. split; reflexivity.
  - destruct (handler_status no_fields Part001.searchFlights w body)
      as (H2 & H4 & Ha & Hm).
    split; [exact H2|]. split; [exact H4|].
    split; [intros Hs p Hp; rewrite (Ha Hs), Hp; reflexivity|].
    split; [|split; [|exact Hm]].
    + intros Hs Hf. rewrite (Ha Hs). eexists. split; [reflexivity|].
      now apply Htyped.
    + intros Hs v Hv. rewrite (Ha Hs), Hv. eexists.
      split; [reflexivity|]. split; reflexivity.
Qed.

(** Parameters that are the string ['x']: status 200, and the missing-field
    error of [searchFlights]. *)
Lemma X2_handler_status_witness :
  let body : Body.t Request.t :=
    Body.mk (PStr "search_flights") (Plain (PlainStr "x")) in
  let r := snd (execute_tool Request.nothing ServerAny.searchFlights
                  unreachable body) in
  searched body /\ status r = 200%Z /\
  exists said,
    sent_body r = Answer said /\ success said = false /\
    error said
    = Some "Missing required parameters: origin, destination, or departure_date".
Proof.
  cbv zeta.
  assert (Hs : searched (Body.mk (P := Request.t) (PStr "search_flights")
                           (Plain (PlainStr "x")))) by (split; reflexivity).
  destruct (proj1 (X2_handler_status unreachable)
              (Body.mk (PStr "search_flights") (Plain (PlainStr "x"))))
    as (H2 & _ & _ & _ & Hp & _).
  split; [exact Hs|]. split; [now apply H2|].
  exact (Hp Hs (PlainStr "x") eq_refl).
Defined.

(** What the handler of the second file of part_000 made of its
    [searchFlights]. *)
Lemma unchecked_cases (w : world) (body : Body.t Params.t) :
  let run := Part000b_execute_tool w body in
  let params := read no_fields (Body.parameters body) in
  (Body.tool body <> PStr "search_flights" /\ fst run = [] /\
   snd run = {| status := 400;
                sent_body := UnknownTool
                  ("Unknown tool: " ++ ToString (Body.tool body)) None |}) \/
  (Body.tool body = PStr "search_flights" /\ no_parameters body /\
   fst run = [] /\ status (snd run) = 500%Z /\
   exists said, sent_body (snd run) = Failed said) \/
  (Body.tool body = PStr "search_flights" /\ ~ no_parameters body /\
   fst run = fst (Part000b.searchFlights w params) /\
   snd run = {| status := 200;
                sent_body := Answer (snd (Part000b.searchFlights w params)) |}).
Proof.
  cbv zeta. unfold Part000b_execute_tool, execute_tool_unchecked, no_parameters.
  destruct (strict_eq (Body.tool body) (VStr "search_flights")) eqn:Hs.
  - right. apply truthy_search_flights in Hs. unfold search.
    destruct (Body.parameters body) as [| |v|params]; simpl.
    + left. repeat split; auto. eauto.
    + left. repeat split; auto. eauto.
    + right. destruct (Part000b.searchFlights w no_fields) as [log e]. simpl.
      repeat split; auto. intros [H|H]; discriminate.
    + right. destruct (Part000b.searchFlights w params) as [log e]. simpl.
      repeat split; auto. intros [H|H]; discriminate.
  - left. simpl. repeat split.
    intros H. apply truthy_search_flights in H. congruence.
Qed.

Lemma Part000b_log (w : world) (params : Params.t) :
  (configured w = true ->
   fst (Part000b.searchFlights w params) = [Part000b.request w params]) /\
  (configured w = false -> fst (Part000b.searchFlights w params) = []).
Proof.
  unfold Part000b.searchFlights.
  destruct (configured w); simpl; split; intros; reflexivity || discriminate.
Qed.

(** X3: the handler of the second file of part_000 checks neither the tool
    nor the parameters before it calls [searchFlights].  It answers status
    400 exactly when the tool is not [search_flights], with the tool's name;
    status 500 exactly when the tool is [search_flights] and the parameters
    are absent or [null], which makes the first line of [searchFlights]
    throw; and status 200 in every other case.  Once the credential is
    configured it calls the provider for every request to [search_flights]
    whose parameters are neither absent nor [null], be they falsy, without
    fields, or an object that lacks a required field; it never answers a
    missing-parameter error. *)
Theorem X3_unchecked_handler (w : world) (body : Body.t Params.t) :
  let run := Part000b_execute_tool w body in
  let tool := Body.tool body in
  let params := read no_fields (Body.parameters body) in
  (status (snd run) = 400%Z <-> tool <> PStr "search_flights") /\
  (status (snd run) = 500%Z <->
   tool = PStr "search_flights" /\ no_parameters body) /\
  (status (snd run) = 200%Z <->
   tool = PStr "search_flights" /\ ~ no_parameters body) /\
  (fst run <> [] <->
   tool = PStr "search_flights" /\ ~ no_parameters body /\
   configured w = true) /\
  (fst run = [] \/ fst run = [Part000b.request w params]) /\
  (tool <> PStr "search_flights" ->
   sent_body (snd run) = UnknownTool ("Unknown tool: " ++ ToString tool) None) /\
  (tool = PStr "search_flights" -> ~ no_parameters body ->
   sent_body (snd run) = Answer (snd (Part000b.searchFlights w params))) /\
  (forall said received, sent_body (snd run) <> Missing said received).
Proof.
  cbv zeta.
  destruct (Part000b_log w (read no_fields (Body.parameters body)))
    as (Hon & Hoff).
  destruct (unchecked_cases w body)
    as [(Ht & -> & ->)|[(Ht & Hb & -> & Hst & said & Hsaid)|(Ht & Hb & -> & ->)]].
  - simpl. split; [tauto|].
    split; [split; [discriminate | tauto]|].
    split; [split; [discriminate | tauto]|].
    split; [split; [congruence | tauto]|].
    split; [auto|]. split; [reflexivity|]. split; [contradiction|].
    discriminate.
  - rewrite Hst, Hsaid.
    split; [split; [discriminate | contradiction]|].
    split; [tauto|].
    split; [split; [discriminate | tauto]|].
    split; [split; [congruence | tauto]|].
    split; [auto|]. split; [contradiction|]. split; [contradiction|].
    discriminate.
  - simpl. split; [split; [discriminate | contradiction]|].
    split; [split; [discriminate | tauto]|].
    split; [tauto|].
    split; [|split; [|split; [contradiction|split; [reflexivity | discriminate]]]].
    + destruct (configured w) eqn:Hw.
      * rewrite (Hon eq_refl). split; [auto | discriminate].
      * rewrite (Hoff eq_refl).
        split; [congruence | intros (_ & _ & H); discriminate].
    + destruct (configured w) eqn:Hw.
      * rewrite (Hon eq_refl). auto.
      * rewrite (Hoff eq_refl). auto.
Qed.

(** Parameters that are the number 0: the provider is called, with no
    field to send. *)
Lemma X3_unchecked_handler_witness :
  let body : Body.t Params.t :=
    Body.mk (PStr "search_flights") (Plain (PlainNum 0)) in
  let run := Part000b_execute_tool (answering one_best) body in
  fst run = [Part000b.request (answering one_best) no_fields] /\
  status (snd run) = 200%Z.
Proof.
  cbv zeta.
  destruct (X3_unchecked_handler (answering one_best)
              (Body.mk (PStr "search_flights") (Plain (PlainNum 0))))
    as (_ & _ & H2 & Hlog & [Hone|Hone] & _).
  - exfalso. apply (proj2 Hlog); [|exact Hone].
    split; [reflexivity|]. split; [|reflexivity]. intros [H|H]; discriminate.
  - split; [exact Hone|]. apply H2. split; [reflexivity|].
    intros [H|H]; discriminate.
Defined.

(** ** GET /health *)

(** X4: GET /health (src/server.js, first file of part_000, part_001)
    answers status 200 whether or not the credential is set.  Its
    [serp_configured] is true exactly when the searches that hold their
    three required fields are sent to the provider: all of them in the
    first file of part_000 and in part_001, and in src/server.js those whose
    [return_date] is falsy or a string; when it is false every such search
    is answered [SERP_API_KEY not configured] without a call.  Whatever it
    says, src/server.js sends no search whose [return_date] is neither falsy
    nor a string. *)
Theorem X4_health_tells_the_truth (w : world) (env_PORT : option string)
  (now : string) :
  let report := snd (health w env_PORT now) in
  fst (health w env_PORT now) = 200%Z /\
  (serp_configured report = true <->
   (forall r, complete (ServerAny.required r) ->
      trimmable (Request.return_date r) ->
      exists isRoundTrip,
        fst (ServerAny.searchFlights w r)
        = [ServerAny.request w r isRoundTrip]) /\
   (forall params, complete params ->
      fst (Part000a.searchFlights w params) = [Part000a.request w params] /\
      fst (Part001.searchFlights w params) = [Part001.request w params])) /\
  (serp_configured report = false <->
   forall r, complete (ServerAny.required r) ->
     fst (ServerAny.searchFlights w r) = [] /\
     error (snd (ServerAny.searchFlights w r))
     = Some "SERP_API_KEY not configured") /\
  (forall r, ~ trimmable (Request.return_date r) ->
     fst (ServerAny.searchFlights w r) = []).
Proof.
  cbv zeta. simpl. split; [reflexivity|]. split; [|split].
  - split.
    + intros Hw. split.
      * intros r Hc Ht.
        destruct (proj1 (ServerAny_log w r) (conj Hc (conj Hw Ht)))
          as (v & _ & H). eauto.
      * intros params Hc.
        destruct (one_call w params Hc Hw) as (_ & ? & _ & ?). auto.
    + intros (_ & H). destruct (H BOM_DEL) as (Hs & _); [repeat split|].
      unfold Part000a.searchFlights in Hs. simpl in Hs.
      destruct (configured w); [reflexivity | discriminate].
  - split.
    + intros Hw r (Ho & Hd & Hdd). unfold ServerAny.searchFlights.
      simpl in Ho, Hd, Hdd. rewrite Ho, Hd, Hdd, Hw. simpl. auto.
    + intros H.
      destruct (H (ServerAny.of_params BOM_DEL)) as (Hs & _); [repeat split|].
      unfold ServerAny.searchFlights in Hs. simpl in Hs.
      destruct (configured w); [discriminate | reflexivity].
  - intros r Ht. apply (proj2 (ServerAny_log w r)). tauto.
Qed.

(** ** When the provider fails, continued *)

Lemma append_empty (s : string) : s ++ "" = s.
Proof. induction s as [|c s IH]; simpl; congruence. Qed.

Lemma includes_refl (s : string) : includes s s = true.
Proof.
  pose proof (includes_here s "") as H. now rewrite append_empty in H.
Qed.

Lemma includes_skip (c : ascii) (t s : string) :
  includes t s = true -> includes (String c t) s = true.
Proof. apply (includes_after (String c "")). Qed.

Ltac found_in_text :=
  repeat first [ apply includes_refl | apply includes_here
               | apply includes_after | apply includes_skip ].

Lemma diagnostic_cases (e : exn) :
  (forall body s, response_data e = Some body -> Serp.error body = Some s ->
                  s <> "" -> diagnostic e = s) /\
  (response_data e = None -> diagnostic e = message e).
Proof.
  unfold diagnostic. split.
  - intros body s -> -> Hs. destruct (String.eqb_spec s ""); congruence.
  - intros ->. reflexivity.
Qed.



(** ** When nothing can be shown *)

Lemma filter_nil_iff {A : Type} (keep : A -> bool) (l : list A) :
  filter keep l = [] <-> forall x, In x l -> keep x = false.
Proof.
  induction l as [|a l IH]; simpl.
  - split; [intros _ x [] | reflexivity].
  - destruct (keep a) eqn:Ha; split.
    + discriminate.
    + intros H. specialize (H a (or_introl eq_refl)). congruence.
    + intros H x [<-|Hx]; [exact Ha | now apply IH].
    + intros H. apply IH. intros x Hx. apply H. now right.
Qed.

Lemma no_flight_filters (data : Serp.data) :
  ~ some_flight data <->
  filter has_legs (best_read data) = [] /\
  filter has_legs (other_read data) = [].
Proof.
  unfold some_flight. rewrite !filter_nil_iff. split.
  - intros H. split; intros x Hx;
      (destruct (has_legs x) eqn:E; [|reflexivity]);
      exfalso; apply H; exists x; split; auto; apply in_or_app; auto.
  - intros (Hb & Ho) (x & Hx & Hl). apply in_app_or in Hx.
    destruct Hx as [Hx|Hx]; [rewrite (Hb x Hx) in Hl | rewrite (Ho x Hx) in Hl];
      discriminate.
Qed.

Lemma some_flight_dec (data : Serp.data) : some_flight data \/ ~ some_flight data.
Proof.
  destruct (filter has_legs (best_read data)) as [|x l] eqn:Hb;
    [destruct (filter has_legs (other_read data)) as [|y l] eqn:Ho|].
  - right. apply no_flight_filters. auto.
  - left. exists y. assert (H : In y (filter has_legs (other_read data)))
      by (rewrite Ho; now left).
    apply filter_In in H. split; [apply in_or_app; tauto | tauto].
  - left. exists x. assert (H : In x (filter has_legs (best_read data)))
      by (rewrite Hb; now left).
    apply filter_In in H. split; [apply in_or_app; tauto | tauto].
Qed.

(** With a complete request and a credential, a version answers what its
    transformation makes of the provider's answer, or what its [catch]
    makes of the exception the transformation threw. *)
Lemma provider_answer_read (w : world) (params : Params.t) :
  complete params -> configured w = true ->
  (forall data, axios_get w (Server.request w params) = inr data ->
     snd (Server.searchFlights w params)
     = match Server.transform params data with
       | inr e => e
       | inl x => Server.on_error params x
       end) /\
  (forall data, axios_get w (Part000a.request w params) = inr data ->
     snd (Part000a.searchFlights w params)
     = match Part000a.transform params data with
       | inr e => e
       | inl x => Part000a.on_error params x
       end) /\
  (forall data, axios_get w (Part000b.request w params) = inr data ->
     snd (Part000b.searchFlights w params)
     = match Part000b.transform params data with
       | inr e => e
       | inl x => Part000b.on_error params x
       end) /\
  (forall data, axios_get w (Part001.request w params) = inr data ->
     snd (Part001.searchFlights w params)
     = match Part001.transform params data with
       | inr e => e
       | inl x => Part001.on_error params x
       end).
Proof.
  intros (Ho & Hd & Hdd) Hw.
  unfold Server.searchFlights, Part000a.searchFlights, Part000b.searchFlights,
    Part001.searchFlights.
  rewrite Ho, Hd, Hdd, Hw. simpl.
  repeat split; intros data He; rewrite He; reflexivity.
Qed.

(** A version whose itineraries read have no legs builds an empty array,
    whatever the names of the airports are. *)
Lemma nothing_to_push (params : Params.t) (data : Serp.data) :
  ~ some_flight data ->
  (exists e, Server.transform params data = inr e /\ success e = true
             /\ flights e = Some [] /\ total_results e = Some 0%Z) /\
  (exists e, Part000a.transform params data = inr e /\ success e = true
             /\ flights e = Some [] /\ total_results e = Some 0%Z) /\
  (exists e, Part000b.transform params data = inr e /\ success e = true
             /\ flights e = Some [] /\ total_results e = Some 0%Z).
Proof.
  intros H. apply no_flight_filters in H. destruct H as (Hb & Ho).
  rewrite filter_nil_iff in Hb, Ho. unfold best_read in Hb. unfold other_read in Ho.
  assert (Hskip : forall {S : Type} (f : Serp.itinerary -> S -> result S) l s,
             (forall x, In x l -> forall s', f x s' = ret s') ->
             forEach l f s = ret s).
  { intros S f l. induction l as [|x l IH]; intros s Hf; [reflexivity|].
    simpl. rewrite (Hf x (or_introl eq_refl)). unfold bind, ret.
    apply IH. intros y Hy. apply Hf. now right. }
  unfold Server.transform, Part000a.transform, Part000b.transform, bind.
  cbv zeta. rewrite !when_some_forEach by reflexivity.
  split; [|split].
  - rewrite Hskip by (intros x Hx s'; now apply Server_eachFlight_skip, Hb).
    unfold ret at 1. rewrite when_some_forEach by reflexivity.
    rewrite Hskip by (intros x Hx s'; now apply Server_eachFlight_skip, Ho).
    eexists. split; [reflexivity|]. auto.
  - rewrite Hskip by (intros x Hx s'; now apply Part000a_eachFlight_skip, Hb).
    unfold ret at 1. rewrite when_some_forEach by reflexivity.
    rewrite Hskip by (intros x Hx s'; now apply Part000a_eachFlight_skip, Ho).
    eexists. split; [reflexivity|]. auto.
  - rewrite Hskip by (intros x Hx s'; now apply Part000b_eachFlight_skip, Hb).
    unfold ret at 1. rewrite when_some_forEach by reflexivity.
    rewrite Hskip by (intros x Hx s'; now apply Part000b_eachFlight_skip, Ho).
    eexists. split; [reflexivity|]. auto.
Qed.

Lemma Part001_success_iff (params : Params.t) (data : Serp.data) :
  exists e, Part001.transform params data = inr e /\
    (success e = true <-> some_flight data) /\
    (success e = false ->
     error e = Some "No flights found" /\ flights e = Some [] /\
     total_results e = Some 0%Z /\
     exists text, fallback_message e = Some text /\
                  names_the_search params text).
Proof.
  destruct (proj2 (proj2 (proj2 (transform_total params data)))) as (e & He).
  exists e. split; [exact He|].
  destruct (Part001_transform_inv _ _ _ He) as (bs & os & Hb & Ho & Hs & _ & _).
  apply Forall2_length in Hb, Ho.
  split.
  - rewrite Hs, negb_true_iff, Nat.eqb_neq, length_app, <- Hb, <- Ho. split.
    + intros Hz. destruct (some_flight_dec data) as [Hy|Hn]; [exact Hy|].
      exfalso. apply Hz. apply no_flight_filters in Hn.
      destruct Hn as (-> & ->). reflexivity.
    + intros Hy Hz.
      assert (Hf : filter has_legs (best_read data) = []
                   /\ filter has_legs (other_read data) = []).
      { split; apply length_zero_iff_nil; lia. }
      apply no_flight_filters in Hf. contradiction.
  - intros Hfalse. unfold Part001.transform, bind in He. cbv zeta in He.
    destruct (when_some (Serp.best_flights data) _ _ _) as [x|b1]; [discriminate|].
    destruct (when_some (Serp.other_flights data) _ _ _) as [x|all]; [discriminate|].
    destruct (length all =? 0)%nat; injection He as <-; [|discriminate].
    cbn [error flights total_results fallback_message].
    repeat split. eexists. split; [reflexivity|].
    unfold names_the_search. repeat split; found_in_text.
Qed.

(** X6: when the provider answers, part_001 succeeds exactly when some
    itinerary among [best_flights] and the first five of [other_flights] has
    legs; otherwise it answers [success: false] with [No flights found], an
    empty [flights] and [total_results] 0.  For such an answer the three
    other versions succeed, with an empty [flights] and [total_results] 0. *)
Theorem X6_empty_result (w : world) (params : Params.t) (data : Serp.data) :
  complete params -> configured w = true ->
  (axios_get w (Part001.request w params) = inr data ->
   let e := snd (Part001.searchFlights w params) in
   (success e = true <-> some_flight data) /\
   (~ some_flight data ->
    success e = false /\ error e = Some "No flights found" /\
    flights e = Some [] /\ total_results e = Some 0%Z)) /\
  (axios_get w (Server.request w params) = inr data -> ~ some_flight data ->
   let e := snd (Server.searchFlights w params) in
   success e = true /\ flights e = Some [] /\ total_results e = Some 0%Z) /\
  (axios_get w (Part000a.request w params) = inr data -> ~ some_flight data ->
   let e := snd (Part000a.searchFlights w params) in
   success e = true /\ flights e = Some [] /\ total_results e = Some 0%Z) /\
  (axios_get w (Part000b.request w params) = inr data -> ~ some_flight data ->
   let e := snd (Part000b.searchFlights w params) in
   success e = true /\ flights e = Some [] /\ total_results e = Some 0%Z).
Proof.
  intros Hc Hw.
  destruct (provider_answer_read w params Hc Hw) as (Rs & Ra & Rb & R1).
  split; [|split; [|split]].
  - intros Hd. cbv zeta. rewrite (R1 data Hd).
    destruct (Part001_success_iff params data) as (e & -> & Hiff & Hfail).
    split; [exact Hiff|]. intros Hn.
    assert (Hf : success e = false).
    { destruct (success e) eqn:E; [|reflexivity]. exfalso. now apply Hn, Hiff. }
    destruct (Hfail Hf) as (? & ? & ? & _). auto.
  - intros Hd Hn. cbv zeta. rewrite (Rs data Hd).
    destruct (nothing_to_push params data Hn) as ((e & -> & H) & _). exact H.
  - intros Hd Hn. cbv zeta. rewrite (Ra data Hd).
    destruct (nothing_to_push params data Hn) as (_ & (e & -> & H) & _). exact H.
  - intros Hd Hn. cbv zeta. rewrite (Rb data Hd).
    destruct (nothing_to_push params data Hn) as (_ & _ & (e & -> & H)). exact H.
Qed.

Lemma X6_empty_result_witness :
  let w := answering only_legless in
  complete BOM_DEL /\ configured w = true /\ ~ some_flight only_legless /\
  success (snd (Part001.searchFlights w BOM_DEL)) = false /\
  success (snd (Server.searchFlights w BOM_DEL)) = true.
Proof.
  cbv zeta.
  assert (Hc : complete BOM_DEL) by (repeat split).
  assert (Hn : ~ some_flight only_legless).
  { intros (flight & Hin & Hl).
    destruct Hin as [<-|[<-|[<-|[]]]]; discriminate. }
  split; [exact Hc|]. split; [reflexivity|]. split; [exact Hn|].
  pose proof (X6_empty_result (answering only_legless) BOM_DEL only_legless
                Hc eq_refl) as (H1 & Hs & _).
  split.
  - apply (proj2 (H1 eq_refl) Hn).
  - apply (Hs eq_refl Hn).
Defined.

(** ** What is sent *)

Lemma truthy_defined (v : value) : truthy v = true -> nullish v = false.
Proof. destruct v; simpl; congruence. Qed.

Lemma api_key_defined (w : world) : configured w = true -> nullish (api_key w) = false.
Proof.
  unfold configured, api_key. destruct (SERP_API_KEY w); [reflexivity | discriminate].
Qed.

(** X7: in every call the versions that check the request make, each
    parameter of the query has a value that is neither [undefined] nor
    [null], so axios writes them all: the eight keys engine, departure_id,
    arrival_id, outbound_date, type, currency, hl, api_key, and in
    src/server.js return_date after them for a round trip.  The second file
    of part_000 checks nothing: axios leaves out departure_id, arrival_id,
    outbound_date and return_date when the request's field is absent or
    [null]. *)
Theorem X7_query_written_whole (w : world) (params : Params.t) :
  let eight := ["engine"; "departure_id"; "arrival_id"; "outbound_date";
                "type"; "currency"; "hl"; "api_key"] in
  (forall c, In c (fst (Server.searchFlights w params)) ->
     rendered (query c) = query c /\
     map fst (query c)
     = (eight ++ if truthy (Server.isRoundTrip (Params.return_date params))
                 then ["return_date"] else [])%list) /\
  (forall c, In c (fst (Part000a.searchFlights w params)) ->
     rendered (query c) = query c /\ map fst (query c) = eight) /\
  (forall c, In c (fst (Part001.searchFlights w params)) ->
     rendered (query c) = query c /\ map fst (query c) = eight) /\
  (forall c, In c (fst (Part000b.searchFlights w params)) ->
     has_key "departure_id" (rendered (query c))
     = negb (nullish (Params.origin params)) /\
     has_key "arrival_id" (rendered (query c))
     = negb (nullish (Params.destination params)) /\
     has_key "outbound_date" (rendered (query c))
     = negb (nullish (Params.departure_date params)) /\
     has_key "return_date" (rendered (query c))
     = truthy (Params.return_date params) /\
     has_key "api_key" (rendered (query c)) = true).
Proof.
  cbv zeta. split; [|split; [|split]]; intros c Hin.
  - apply Server_log in Hin. destruct Hin as (-> & (Ho & Hd & Hdd) & Hw).
    unfold Server.request, query, Server.searchParams, rendered.
    apply truthy_defined in Ho, Hd, Hdd. apply api_key_defined in Hw.
    destruct (truthy (Server.isRoundTrip (Params.return_date params))) eqn:Hrt;
      simpl; rewrite Ho, Hd, Hdd, Hw; simpl; [|split; reflexivity].
    apply isRoundTrip_truthy in Hrt. destruct Hrt as (Hu & Hn & _).
    destruct (Params.return_date params); try contradiction. split; reflexivity.
  - apply Part000a_log in Hin. destruct Hin as (-> & (Ho & Hd & Hdd) & Hw).
    unfold Part000a.request, query, Part000a.searchParams, rendered.
    apply truthy_defined in Ho, Hd, Hdd. apply api_key_defined in Hw.
    simpl. rewrite Ho, Hd, Hdd, Hw. split; reflexivity.
  - apply Part001_log in Hin. destruct Hin as (-> & (Ho & Hd & Hdd) & Hw).
    unfold Part001.request, query, Part001.searchParams, rendered.
    apply truthy_defined in Ho, Hd, Hdd. apply api_key_defined in Hw.
    simpl. rewrite Ho, Hd, Hdd, Hw. split; reflexivity.
  - assert (Hw : configured w = true /\ c = Part000b.request w params).
    { unfold Part000b.searchFlights in Hin.
      destruct (configured w); simpl in Hin; [|contradiction].
      destruct Hin as [<-|[]]. auto. }
    destruct Hw as (Hw & ->). apply api_key_defined in Hw.
    rewrite !has_key_rendered.
    unfold Part000b.request, query, Part000b.searchParams. simpl.
    rewrite Hw, !orb_false_r. repeat split.
    unfold or_else. destruct (Params.return_date params) as [| |s]; simpl;
      try reflexivity.
    destruct (negb (s =? "")); reflexivity.
Qed.

Lemma X7_query_written_whole_witness :
  In (Server.request (answering one_best) BOM_DEL_return)
     (fst (Server.searchFlights (answering one_best) BOM_DEL_return)) /\
  rendered (query (Server.request (answering one_best) BOM_DEL_return))
  = query (Server.request (answering one_best) BOM_DEL_return).
Proof.
  assert (H : In (Server.request (answering one_best) BOM_DEL_return)
     (fst (Server.searchFlights (answering one_best) BOM_DEL_return)))
    by (left; reflexivity).
  split; [exact H|].
  apply (proj1 (proj1 (X7_query_written_whole (answering one_best) BOM_DEL_return)
                  _ H)).
Defined.

(** ** The records one by one *)

Lemma Forall2_In_right {A B : Type} (R : A -> B -> Prop) (l : list A)
  (ys : list B) (y : B) :
  Forall2 R l ys -> In y ys -> exists x, In x l /\ R x y.
Proof.
  intros H. induction H as [|a b l ys Hab _ IH]; intros Hy; [contradiction|].
  destruct Hy as [<-|Hy].
  - exists a. split; [now left | exact Hab].
  - destruct (IH Hy) as (x & Hx & Hxy). exists x. split; [now right | exact Hxy].
Qed.

(** Every record of [flights] is the record of an itinerary read that has
    legs. *)
Lemma surfaced_In (R : string -> Serp.itinerary -> flightData -> Prop)
  (data : Serp.data) (fs : list flightData) (fd : flightData) :
  surfaced_as R data fs -> In fd fs ->
  exists tag flight,
    In flight (best_read data ++ other_read data)%list /\
    has_legs flight = true /\ R tag flight fd.
Proof.
  intros (bs & os & -> & Hb & Ho) Hin. apply in_app_or in Hin.
  destruct Hin as [Hin|Hin].
  - destruct (Forall2_In_right _ _ _ _ Hb Hin) as (x & Hx & HR).
    apply filter_In in Hx. exists "best", x.
    split; [apply in_or_app; tauto | tauto].
  - destruct (Forall2_In_right _ _ _ _ Ho Hin) as (x & Hx & HR).
    apply filter_In in Hx. exists "other", x.
    split; [apply in_or_app; tauto | tauto].
Qed.

Lemma isRoundTrip_string (s : string) :
  Server.isRoundTrip (PStr s)
  = if s =? "" then VStr ""
    else VBool (negb (s =? "null") && negb (trim s =? "")).
Proof.
  unfold Server.isRoundTrip, and_then.
  destruct (String.eqb_spec s "") as [->|Hs]; [reflexivity|].
  simpl. destruct (s =? "") eqn:E.
  - apply String.eqb_eq in E. contradiction.
  - simpl. destruct (s =? "null"); simpl; [reflexivity|].
    destruct (trim s =? ""); reflexivity.
Qed.

Lemma isRoundTrip_values (return_date : param) :
  (round_trip_requested return_date ->
   Server.isRoundTrip return_date = VBool true) /\
  (truthy return_date = false ->
   Server.isRoundTrip return_date = value_of return_date) /\
  (truthy return_date = true -> ~ round_trip_requested return_date ->
   Server.isRoundTrip return_date = VBool false).
Proof.
  split; [|split].
  - intros H. apply isRoundTrip_truthy in H.
    destruct return_date as [| |s]; try discriminate.
    rewrite isRoundTrip_string in *.
    destruct (s =? ""); [discriminate|]. simpl in H. now rewrite H.
  - destruct return_date as [| |s]; try reflexivity.
    intros H. rewrite isRoundTrip_string. simpl in H.
    destruct (s =? "") eqn:E; [|discriminate].
    apply String.eqb_eq in E. now subst s.
  - intros Ht Hn. apply isRoundTrip_falsy in Hn.
    destruct return_date as [| |s]; try discriminate.
    rewrite isRoundTrip_string in *. simpl in Ht.
    destruct (s =? ""); [discriminate|]. simpl in Hn. now rewrite Hn.
Qed.

Lemma Server_pushed_flag tag params flight fd :
  Server_pushed tag params flight fd ->
  is_round_trip fd = Some (Server.isRoundTrip (Params.return_date params)).
Proof.
  intros (first & rest & _ & H). cbv zeta in H.
  destruct (truthy _ && _).
  - destruct H as (ob & rl & _ & _ & ->). reflexivity.
  - subst fd. reflexivity.
Qed.

(** X8: every record of a successful answer of src/server.js carries as
    [is_round_trip] the value of [isRoundTrip], which is a boolean only for
    a non-empty [return_date]: [true] for a round trip, [false] for ["null"]
    or a blank string; for an absent, [null] or empty [return_date] it is
    that [return_date] itself ([undefined], [null] or the empty string). *)
Theorem X8_is_round_trip_value (w : world) (params : Params.t)
  (log : list call) (e : envelope) (fs : list flightData) :
  let return_date := Params.return_date params in
  Server.searchFlights w params = (log, e) -> success e = true ->
  flights e = Some fs ->
  (forall fd, In fd fs ->
     is_round_trip fd = Some (Server.isRoundTrip return_date)) /\
  (round_trip_requested return_date ->
   Server.isRoundTrip return_date = VBool true) /\
  (truthy return_date = false ->
   Server.isRoundTrip return_date = value_of return_date) /\
  (truthy return_date = true -> ~ round_trip_requested return_date ->
   Server.isRoundTrip return_date = VBool false).
Proof.
  cbv zeta. intros H Hok Hf. split; [|apply isRoundTrip_values].
  destruct (Server_surfaced _ _ _ _ H Hok) as (data & fs' & _ & Hf' & _ & Hsurf).
  rewrite Hf in Hf'. injection Hf' as <-. intros fd Hin.
  destruct (surfaced_In _ _ _ _ Hsurf Hin) as (tag & flight & _ & _ & Hp).
  now apply (Server_pushed_flag tag params flight).
Qed.

Lemma X8_is_round_trip_value_witness :
  let w := answering one_best in
  success (snd (Server.searchFlights w BOM_DEL)) = true /\
  exists fd,
    flights (snd (Server.searchFlights w BOM_DEL)) = Some [fd] /\
    is_round_trip fd = Some VUndefined.
Proof.
  cbv zeta. split; [reflexivity|]. eexists. split; [reflexivity|].
  apply (proj1 (X8_is_round_trip_value (answering one_best) BOM_DEL _ _ _
                  (surjective_pairing _) eq_refl eq_refl)).
  now left.
Defined.

Lemma Server_pushed_mirrors tag params flight fd :
  Server_pushed tag params flight fd ->
  mirrors_outbound fd /\
  return_when_two_legs (truthy (Server.isRoundTrip (Params.return_date params)))
    flight fd.
Proof.
  intros (first & rest & Hf & H). cbv zeta in H.
  unfold mirrors_outbound, return_when_two_legs, legs. rewrite Hf. simpl items.
  destruct (truthy (Server.isRoundTrip (Params.return_date params))) eqn:Hrt.
  - destruct rest as [|second rest]; simpl in H.
    + subst fd. split.
      * eexists. split; [reflexivity|]. simpl. auto 10.
      * simpl. split; [congruence | intros (_ & H); lia].
    + destruct H as (ob & rl & _ & _ & ->). split.
      * eexists. split; [reflexivity|]. simpl. auto 10.
      * simpl. split; [intros _; split; [reflexivity | lia] | discriminate].
  - simpl in H. subst fd. split.
    + eexists. split; [reflexivity|]. simpl. auto 10.
    + simpl. split; [congruence | intros (H & _); discriminate].
Qed.

(** X9: in a successful answer of src/server.js every record has an
    [outbound] object, and its airline and flight number are those of that
    object; a record with a [return] object (a round-trip search and an
    itinerary of two legs or more, and only then) has no [departure_time],
    [arrival_time] or [duration] of its own, and a record without one
    repeats those of [outbound]. *)
Theorem X9_outbound_mirrored (w : world) (params : Params.t)
  (log : list call) (e : envelope) :
  Server.searchFlights w params = (log, e) -> success e = true ->
  exists data fs,
    axios_get w (Server.request w params) = inr data /\
    flights e = Some fs /\
    Forall mirrors_outbound fs /\
    surfaced_as
      (fun _ => return_when_two_legs
                  (truthy (Server.isRoundTrip (Params.return_date params))))
      data fs.
Proof.
  intros H Hok.
  destruct (Server_surfaced _ _ _ _ H Hok) as (data & fs & Hd & Hf & _ & Hsurf).
  exists data, fs. repeat split; auto.
  - apply Forall_forall. intros fd Hin.
    destruct (surfaced_In _ _ _ _ Hsurf Hin) as (tag & flight & _ & _ & Hp).
    now apply (Server_pushed_mirrors tag params flight).
  - revert Hsurf. apply surfaced_as_impl. intros tag flight fd Hp.
    now apply (Server_pushed_mirrors tag params flight).
Qed.

Lemma X9_outbound_mirrored_witness :
  let w := answering
    {| Serp.best_flights := Some [there_and_back];
       Serp.other_flights := Some [direct];
       Serp.price_insights := VUndefined |} in
  success (snd (Server.searchFlights w BOM_DEL_return)) = true /\
  exists data fs,
    axios_get w (Server.request w BOM_DEL_return) = inr data /\
    flights (snd (Server.searchFlights w BOM_DEL_return)) = Some fs /\
    Forall mirrors_outbound fs /\
    surfaced_as (fun _ => return_when_two_legs true) data fs.
Proof.
  cbv zeta. split; [reflexivity|].
  eapply (X9_outbound_mirrored _ BOM_DEL_return); reflexivity.
Defined.

(** ** The two legs of a round trip, continued *)

Lemma find_from_index {A : Type} (p : A -> nat -> result bool) (l : list A) :
  forall idx x, find_from p l idx = inr (Some x) ->
  exists k, nth_error l k = Some x /\ p x (idx + k)%nat = inr true.
Proof.
  induction l as [|a l IH]; intros idx x H; simpl in H; [discriminate|].
  unfold bind in H. destruct (p a idx) as [e|[|]] eqn:Ha; try discriminate.
  - injection H as <-. exists 0%nat. now rewrite Nat.add_0_r.
  - destruct (IH _ _ H) as (k & Hk & Hp). exists (S k).
    now rewrite Nat.add_succ_r.
Qed.

Lemma nth_error_last {A : Type} (l : list A) (x d : A) :
  nth_error (x :: l) (length l) = Some (last (x :: l) d).
Proof.
  revert x. induction l as [|y l IH]; intros x; [reflexivity|].
  simpl length. change (nth_error (x :: y :: l) (S (length l)))
    with (nth_error (y :: l) (length l)).
  rewrite IH. reflexivity.
Qed.

(** X10: the two legs src/server.js selects in an itinerary of two legs or
    more are legs of that itinerary, and the return leg is never the one at
    index zero: it is found at an index of one or more, also when it is the
    fallback. *)
Theorem X10_return_leg_after_first (origin destination : param)
  (first second : Serp.leg) (rest : list Serp.leg) :
  let legs := first :: second :: rest in
  (forall leg, Server.outboundLeg origin first legs = inr leg ->
     exists i, nth_error legs i = Some leg) /\
  (forall leg, Server.returnLeg origin destination first legs = inr leg ->
     exists i, (1 <= i)%nat /\ nth_error legs i = Some leg).
Proof.
  cbv zeta. unfold Server.outboundLeg, Server.returnLeg, find, bind.
  split; intros leg H.
  - destruct (find_from _ (first :: second :: rest) 0) as [e|[x|]] eqn:Hfind;
      try discriminate; injection H as <-.
    + apply find_from_index in Hfind. destruct Hfind as (k & Hk & _). eauto.
    + now exists 0%nat.
  - destruct (find_from _ (first :: second :: rest) 0) as [e|[x|]] eqn:Hfind;
      try discriminate; injection H as <-.
    + apply find_from_index in Hfind. destruct Hfind as (k & Hk & Hp).
      exists k. split; [|exact Hk].
      destruct k; [discriminate Hp | lia].
    + exists (length (second :: rest)). split; [simpl; lia|].
      exact (nth_error_last (second :: rest) first first).
Qed.

Lemma X10_return_leg_after_first_witness :
  Server.returnLeg (PStr "BOM") (PStr "DEL") feeder four_legs = inr side_trip /\
  exists i, (1 <= i)%nat /\ nth_error four_legs i = Some side_trip.
Proof.
  split; [reflexivity|].
  apply (proj2 (X10_return_leg_after_first (PStr "BOM") (PStr "DEL") feeder
                  leg_BOM_DEL [side_trip; leg_DEL_BOM])).
  reflexivity.
Defined.

(** ** Bounds *)

Lemma pushed_stops_in_range :
  (forall tag params flight fd,
     Server_pushed tag params flight fd -> stops_in_range flight fd) /\
  (forall tag flight fd,
     Part000a_pushed tag flight fd -> stops_in_range flight fd) /\
  (forall tag carbon flight fd,
     Part000b_pushed tag carbon flight fd -> stops_in_range flight fd) /\
  (forall tag carbon params flight fd,
     Part001_pushed tag carbon params flight fd -> stops_in_range flight fd).
Proof.
  unfold stops_in_range, legs. split; [|split; [|split]].
  - intros tag params flight fd (first & rest & Hf & H). cbv zeta in H.
    rewrite Hf. simpl items.
    destruct (truthy (Server.isRoundTrip (Params.return_date params))).
    + destruct rest as [|second rest]; simpl in H.
      * subst fd. simpl. rewrite Hf. simpl. lia.
      * destruct H as (ob & rl & _ & _ & ->). simpl stops. rewrite Hf.
        simpl items. simpl length. lia.
    + simpl in H. subst fd. simpl stops. rewrite Hf. simpl items.
      simpl length. lia.
  - intros tag flight fd (first & rest & Hf & ->). simpl stops. rewrite Hf.
    simpl items. simpl length. lia.
  - intros tag carbon flight fd (first & rest & Hf & ->). simpl stops.
    rewrite Hf. simpl items. simpl length. lia.
  - intros tag carbon params flight fd (first & rest & Hf & ->). simpl stops.
    rewrite Hf. simpl items. simpl length. lia.
Qed.

(** X11: in a successful answer of each version, the [stops] of a record are
    never negative and always fewer than the legs of its itinerary. *)
Theorem X11_stops_in_range (w : world) (params : Params.t) :
  (forall log e,
     Server.searchFlights w params = (log, e) -> success e = true ->
     exists data fs,
       axios_get w (Server.request w params) = inr data /\
       flights e = Some fs /\ surfaced_as (fun _ => stops_in_range) data fs) /\
  (forall log e,
     Part000a.searchFlights w params = (log, e) -> success e = true ->
     exists data fs,
       axios_get w (Part000a.request w params) = inr data /\
       flights e = Some fs /\ surfaced_as (fun _ => stops_in_range) data fs) /\
  (forall log e,
     Part000b.searchFlights w params = (log, e) -> success e = true ->
     exists data fs,
       axios_get w (Part000b.request w params) = inr data /\
       flights e = Some fs /\ surfaced_as (fun _ => stops_in_range) data fs) /\
  (forall log e,
     Part001.searchFlights w params = (log, e) -> success e = true ->
     exists data fs,
       axios_get w (Part001.request w params) = inr data /\
       flights e = Some fs /\ surfaced_as (fun _ => stops_in_range) data fs).
Proof.
  destruct pushed_stops_in_range as (Hs & Ha & Hb & H1).
  split; [|split; [|split]]; intros log e H Hok.
  - destruct (Server_surfaced _ _ _ _ H Hok) as (data & fs & Hd & Hf & _ & Hsurf).
    exists data, fs. repeat split; auto.
    revert Hsurf. apply surfaced_as_impl. intros tag. apply Hs.
  - destruct (Part000a_surfaced _ _ _ _ H Hok) as (data & fs & Hd & Hf & _ & Hsurf).
    exists data, fs. repeat split; auto.
    revert Hsurf. apply surfaced_as_impl. exact Ha.
  - destruct (Part000b_surfaced _ _ _ _ H Hok) as (data & fs & Hd & Hf & _ & Hsurf).
    exists data, fs. repeat split; auto.
    revert Hsurf. apply surfaced_as_impl. intros tag. apply Hb.
  - destruct (Part001_surfaced _ _ _ _ H Hok) as (data & fs & Hd & Hf & _ & Hsurf).
    exists data, fs. repeat split; auto.
    revert Hsurf. apply surfaced_as_impl. intros tag. apply H1.
Qed.

Lemma X11_stops_in_range_witness :
  let w := answering with_legless in
  success (snd (Server.searchFlights w BOM_DEL_return)) = true /\
  exists data fs,
    axios_get w (Server.request w BOM_DEL_return) = inr data /\
    flights (snd (Server.searchFlights w BOM_DEL_return)) = Some fs /\
    surfaced_as (fun _ => stops_in_range) data fs.
Proof.
  cbv zeta. split; [reflexivity|].
  eapply (proj1 (X11_stops_in_range _ BOM_DEL_return)); reflexivity.
Defined.

(** X12: in a successful answer of each version, [total_results] is at most
    the number of itineraries of [best_flights] plus five, and at most the
    number of itineraries the provider returned. *)
Theorem X12_total_results_bounded (w : world) (params : Params.t) :
  let bounded data e :=
    exists n, total_results e = Some (Z.of_nat n) /\
      (n <= length (items (Serp.best_flights data)) + 5)%nat /\
      (n <= returned data)%nat in
  (forall log e,
     Server.searchFlights w params = (log, e) -> success e = true ->
     exists data, axios_get w (Server.request w params) = inr data /\
                  bounded data e) /\
  (forall log e,
     Part000a.searchFlights w params = (log, e) -> success e = true ->
     exists data, axios_get w (Part000a.request w params) = inr data /\
                  bounded data e) /\
  (forall log e,
     Part000b.searchFlights w params = (log, e) -> success e = true ->
     exists data, axios_get w (Part000b.request w params) = inr data /\
                  bounded data e) /\
  (forall log e,
     Part001.searchFlights w params = (log, e) -> success e = true ->
     exists data, axios_get w (Part001.request w params) = inr data /\
                  bounded data e).
Proof.
  cbv zeta.
  assert (Hbound : forall R data e, ordered_answer R data e ->
    exists n, total_results e = Some (Z.of_nat n) /\
      (n <= length (items (Serp.best_flights data)) + 5)%nat /\
      (n <= returned data)%nat).
  { intros R data e Hord. apply ordered_counts in Hord.
    destruct Hord as (fs & _ & Hlen & Hn). exists (length fs).
    split; [exact Hn|]. rewrite Hlen. unfold returned, best_read, other_read.
    pose proof (filter_length_le has_legs (items (Serp.best_flights data))).
    pose proof (filter_length_le has_legs
                  (firstn 5 (items (Serp.other_flights data)))).
    pose proof (length_firstn 5 (items (Serp.other_flights data))).
    lia. }
  destruct (order_of_records w params) as (Os & Oa & Ob & O1).
  split; [|split; [|split]]; intros log e H Hok.
  - destruct (Os _ _ H Hok) as (data & Hd & Hord). exists data. eauto.
  - destruct (Oa _ _ H Hok) as (data & Hd & Hord). exists data. eauto.
  - destruct (Ob _ _ H Hok) as (data & Hd & Hord). exists data. eauto.
  - destruct (O1 _ _ H Hok) as (data & Hd & Hord). exists data. eauto.
Qed.

Lemma X12_total_results_bounded_witness :
  let w := answering seven_others in
  success (snd (Server.searchFlights w BOM_DEL)) = true /\
  total_results (snd (Server.searchFlights w BOM_DEL)) = Some 6%Z /\
  exists data,
    axios_get w (Server.request w BOM_DEL) = inr data /\
    exists n, total_results (snd (Server.searchFlights w BOM_DEL))
              = Some (Z.of_nat n) /\
      (n <= length (items (Serp.best_flights data)) + 5)%nat /\
      (n <= returned data)%nat.
Proof.
  cbv zeta. split; [reflexivity|]. split; [reflexivity|].
  eapply (proj1 (X12_total_results_bounded _ BOM_DEL)); reflexivity.
Defined.

(** ** Carbon emissions *)

(** X13: in a successful answer, src/server.js and the first file of
    part_000 never set [carbon_emissions]; the second file of part_000 and
    part_001 set it on the records tagged ['best'] only, to the provider's
    [carbon_emissions.this_flight] when that is truthy and otherwise to
    ['N/A'] in the second file of part_000 and to [null] in part_001. *)
Theorem X13_carbon_emissions (w : world) (params : Params.t) :
  (forall log e fs,
     Server.searchFlights w params = (log, e) -> success e = true ->
     flights e = Some fs ->
     Forall (fun fd => carbon_emissions fd = None) fs) /\
  (forall log e fs,
     Part000a.searchFlights w params = (log, e) -> success e = true ->
     flights e = Some fs ->
     Forall (fun fd => carbon_emissions fd = None) fs) /\
  (forall log e,
     Part000b.searchFlights w params = (log, e) -> success e = true ->
     exists data fs,
       axios_get w (Part000b.request w params) = inr data /\
       flights e = Some fs /\
       surfaced_as (carbon_rule (VStr "N/A")) data fs) /\
  (forall log e,
     Part001.searchFlights w params = (log, e) -> success e = true ->
     exists data fs,
       axios_get w (Part001.request w params) = inr data /\
       flights e = Some fs /\
       surfaced_as (carbon_rule VNull) data fs).
Proof.
  split; [|split; [|split]].
  - intros log e fs H Hok Hf.
    destruct (Server_surfaced _ _ _ _ H Hok) as (data & fs' & _ & Hf' & _ & Hsurf).
    rewrite Hf in Hf'. injection Hf' as <-. apply Forall_forall. intros fd Hin.
    destruct (surfaced_In _ _ _ _ Hsurf Hin)
      as (tag & flight & _ & _ & first & rest & _ & Hp).
    cbv zeta in Hp. destruct (truthy _ && _).
    + destruct Hp as (ob & rl & _ & _ & ->). reflexivity.
    + subst fd. reflexivity.
  - intros log e fs H Hok Hf.
    destruct (Part000a_surfaced _ _ _ _ H Hok) as (data & fs' & _ & Hf' & _ & Hsurf).
    rewrite Hf in Hf'. injection Hf' as <-. apply Forall_forall. intros fd Hin.
    destruct (surfaced_In _ _ _ _ Hsurf Hin)
      as (tag & flight & _ & _ & first & rest & _ & ->).
    reflexivity.
  - intros log e H Hok.
    destruct (Part000b_surfaced _ _ _ _ H Hok) as (data & fs & Hd & Hf & _ & Hsurf).
    exists data, fs. repeat split; auto.
    destruct Hsurf as (bs & os & -> & Hb & Ho). exists bs, os.
    split; [reflexivity|]. split.
    + eapply Forall2_impl; [|exact Hb]. simpl.
      intros flight fd (first & rest & _ & ->). split; [|discriminate].
      intros _. reflexivity.
    + eapply Forall2_impl; [|exact Ho]. simpl.
      intros flight fd (first & rest & _ & ->). split; [discriminate|].
      intros _. reflexivity.
  - intros log e H Hok.
    destruct (Part001_surfaced _ _ _ _ H Hok) as (data & fs & Hd & Hf & _ & Hsurf).
    exists data, fs. repeat split; auto.
    destruct Hsurf as (bs & os & -> & Hb & Ho). exists bs, os.
    split; [reflexivity|]. split.
    + eapply Forall2_impl; [|exact Hb]. simpl.
      intros flight fd (first & rest & _ & ->). split; [|discriminate].
      intros _. reflexivity.
    + eapply Forall2_impl; [|exact Ho]. simpl.
      intros flight fd (first & rest & _ & ->). split; [discriminate|].
      intros _. reflexivity.
Qed.

Lemma X13_carbon_emissions_witness :
  let w := answering one_best in
  success (snd (Part001.searchFlights w BOM_DEL)) = true /\
  (exists fd, flights (snd (Part001.searchFlights w BOM_DEL)) = Some [fd]
              /\ carbon_emissions fd = Some VNull) /\
  exists data fs,
    axios_get w (Part001.request w BOM_DEL) = inr data /\
    flights (snd (Part001.searchFlights w BOM_DEL)) = Some fs /\
    surfaced_as (carbon_rule VNull) data fs.
Proof.
  cbv zeta. split; [reflexivity|]. split.
  - eexists. split; reflexivity.
  - eapply (proj2 (proj2 (proj2 (X13_carbon_emissions _ BOM_DEL))));
      reflexivity.
Defined.

(** ** One-way searches *)

Lemma Server_eachFlight_reads tag rt origin destination flight s :
  (truthy rt = true -> (2 <= length (legs flight))%nat ->
   forall leg, In leg (legs flight) -> callable_name leg) ->
  exists s', Server.eachFlight tag rt origin destination flight s = inr s'.
Proof.
  intros H.
  destruct (truthy rt && (2 <=? length (legs flight))%nat) eqn:Hc.
  - apply andb_true_iff in Hc. destruct Hc as (Hrt & H2).
    apply Nat.leb_le in H2. apply Server_eachFlight_total. now apply H.
  - unfold Server.eachFlight, legs in *.
    destruct (Serp.flights flight) as [[|first rest]|]; try (now eexists).
    simpl items in Hc. rewrite Hc. now eexists.
Qed.

Lemma Server_reads_total (params : Params.t) (data : Serp.data) :
  names_read_callable params data ->
  exists e, Server.transform params data = inr e /\ success e = true.
Proof.
  intros Hn. unfold Server.transform, bind. cbv zeta.
  destruct (when_some_total (Serp.best_flights data) (fun l => l)
    (Server.eachFlight "best" (Server.isRoundTrip (Params.return_date params))
       (Params.origin params) (Params.destination params)) eq_refl)
    with (s := @nil flightData) as (bs & ->).
  { intros x Hx s. apply Server_eachFlight_reads. intros Hrt H2.
    apply (Hn x); [apply in_or_app; now left | now apply isRoundTrip_truthy | exact H2]. }
  destruct (when_some_total (Serp.other_flights data) (firstn 5)
    (Server.eachFlight "other" (Server.isRoundTrip (Params.return_date params))
       (Params.origin params) (Params.destination params)) eq_refl)
    with (s := bs) as (all & ->).
  { intros x Hx s. apply Server_eachFlight_reads. intros Hrt H2.
    apply (Hn x); [apply in_or_app; now right | now apply isRoundTrip_truthy | exact H2]. }
  eexists. split; reflexivity.
Qed.

(** X14: src/server.js reads an airport name only in an itinerary of two
    legs or more of a round-trip search.  When the provider answers and the
    names read that way are absent, strings or arrays, the search succeeds;
    so a one-way search succeeds whatever the answer holds, and so does a
    round-trip search whose itineraries have one leg each. *)
Theorem X14_names_read_for_round_trips_only (w : world) (params : Params.t)
  (data : Serp.data) :
  complete params -> configured w = true ->
  axios_get w (Server.request w params) = inr data ->
  names_read_callable params data ->
  success (snd (Server.searchFlights w params)) = true.
Proof.
  intros Hc Hw Hd Hn.
  destruct (provider_answer_read w params Hc Hw) as (Rs & _).
  rewrite (Rs data Hd).
  destruct (Server_reads_total params data Hn) as (e & -> & Hok). exact Hok.
Qed.

Lemma X14_names_read_for_round_trips_only_witness :
  complete BOM_DEL /\ configured (answering odd_names) = true /\
  names_read_callable BOM_DEL odd_names /\
  success (snd (Server.searchFlights (answering odd_names) BOM_DEL)) = true /\
  success (snd (Server.searchFlights (answering odd_names) BOM_DEL_return))
  = false.
Proof.
  assert (Hc : complete BOM_DEL) by (repeat split).
  assert (Hn : names_read_callable BOM_DEL odd_names).
  { intros flight _ (H & _). now contradiction H. }
  split; [exact Hc|]. split; [reflexivity|]. split; [exact Hn|].
  split; [|reflexivity].
  apply (X14_names_read_for_round_trips_only (answering odd_names) BOM_DEL
           odd_names Hc eq_refl eq_refl Hn).
Defined.

(** The calls of the versions that check the request, compared. *)
Lemma calls_compared (w : world) (params : Params.t) :
  Part000a.request w params = Part001.request w params /\
  (Server.request w params = Part000a.request w params
   <-> ~ round_trip_requested (Params.return_date params)) /\
  (round_trip_requested (Params.return_date params) ->
   forall k, k <> "type" -> k <> "return_date" ->
     lookup k (query (Server.request w params))
     = lookup k (query (Part000a.request w params))).
Proof.
  split; [reflexivity|]. split; [split|].
  - intros H Hrt. apply isRoundTrip_truthy in Hrt.
    apply (f_equal (fun c => lookup "type" (query c))) in H.
    unfold Server.request, Part000a.request, query in H.
    rewrite Server_type_flag, Hrt in H. discriminate.
  - intros Hn. apply isRoundTrip_falsy in Hn.
    unfold Server.request, Part000a.request, Server.searchParams,
      Part000a.searchParams. now rewrite Hn.
  - intros Hrt k Ht Hr. apply isRoundTrip_truthy in Hrt.
    unfold Server.request, Part000a.request, query, Server.searchParams,
      Part000a.searchParams. rewrite Hrt.
    apply String.eqb_neq in Ht, Hr. cbn [lookup app].
    rewrite (String.eqb_sym "type" k), (String.eqb_sym "return_date" k), Ht, Hr.
    reflexivity.
Qed.

(** X15: the first file of part_000 and part_001 always make the same call;
    src/server.js makes that same call exactly when the search is one-way,
    and for a round trip its query differs by [type: '1'] and by the
    [return_date] added at its end. *)
Theorem X15_same_call_when_one_way (w : world) (params : Params.t) :
  Part000a.request w params = Part001.request w params /\
  (Server.request w params = Part000a.request w params
   <-> ~ round_trip_requested (Params.return_date params)) /\
  (round_trip_requested (Params.return_date params) ->
   forall k, k <> "type" -> k <> "return_date" ->
     lookup k (query (Server.request w params))
     = lookup k (query (Part000a.request w params))).
Proof. exact (calls_compared w params). Qed.

(** ** What passes through *)

Lemma pushed_passes :
  (forall tag params flight fd,
     Server_pushed tag params flight fd -> record_passes flight fd) /\
  (forall tag flight fd,
     Part000a_pushed tag flight fd -> record_passes flight fd) /\
  (forall tag carbon flight fd,
     Part000b_pushed tag carbon flight fd -> record_passes flight fd) /\
  (forall tag carbon params flight fd,
     Part001_pushed tag carbon params flight fd -> record_passes flight fd).
Proof.
  unfold record_passes, passes, legs. split; [|split; [|split]].
  - intros tag params flight fd (first & rest & Hf & H). cbv zeta in H.
    rewrite Hf. simpl items. destruct (truthy _ && _).
    + destruct H as (ob & rl & Hob & _ & ->).
      split; [reflexivity|]. exists ob. split; [|split; reflexivity].
      now apply (proj1 (selected_legs_In (Params.origin params)
                          (Params.destination params) first rest)).
    + subst fd. split; [reflexivity|]. exists first.
      split; [now left | split; reflexivity].
  - intros tag flight fd (first & rest & Hf & ->). rewrite Hf.
    split; [reflexivity|]. exists first. split; [now left | split; reflexivity].
  - intros tag carbon flight fd (first & rest & Hf & ->). rewrite Hf.
    split; [reflexivity|]. exists first. split; [now left | split; reflexivity].
  - intros tag carbon params flight fd (first & rest & Hf & ->). rewrite Hf.
    split; [reflexivity|]. exists first. split; [now left | split; reflexivity].
Qed.

(** X16: in a successful answer of each version, the price of a record is
    the provider's price when that is truthy and ['N/A'] otherwise, and its
    airline and flight number are those of a leg of the itinerary when they
    are truthy, ['Unknown'] and ['N/A'] otherwise: a value that is present
    but falsy, such as a price of 0 or an empty airline, is answered like a
    missing one. *)
Theorem X16_falsy_is_missing (w : world) (params : Params.t) :
  (forall log e,
     Server.searchFlights w params = (log, e) -> success e = true ->
     exists data fs,
       axios_get w (Server.request w params) = inr data /\
       flights e = Some fs /\ surfaced_as (fun _ => record_passes) data fs) /\
  (forall log e,
     Part000a.searchFlights w params = (log, e) -> success e = true ->
     exists data fs,
       axios_get w (Part000a.request w params) = inr data /\
       flights e = Some fs /\ surfaced_as (fun _ => record_passes) data fs) /\
  (forall log e,
     Part000b.searchFlights w params = (log, e) -> success e = true ->
     exists data fs,
       axios_get w (Part000b.request w params) = inr data /\
       flights e = Some fs /\ surfaced_as (fun _ => record_passes) data fs) /\
  (forall log e,
     Part001.searchFlights w params = (log, e) -> success e = true ->
     exists data fs,
       axios_get w (Part001.request w params) = inr data /\
       flights e = Some fs /\ surfaced_as (fun _ => record_passes) data fs).
Proof.
  destruct pushed_passes as (Hs & Ha & Hb & H1).
  split; [|split; [|split]]; intros log e H Hok.
  - destruct (Server_surfaced _ _ _ _ H Hok) as (data & fs & Hd & Hf & _ & Hsurf).
    exists data, fs. repeat split; auto.
    revert Hsurf. apply surfaced_as_impl. intros tag. apply Hs.
  - destruct (Part000a_surfaced _ _ _ _ H Hok) as (data & fs & Hd & Hf & _ & Hsurf).
    exists data, fs. repeat split; auto.
    revert Hsurf. apply surfaced_as_impl. exact Ha.
  - destruct (Part000b_surfaced _ _ _ _ H Hok) as (data & fs & Hd & Hf & _ & Hsurf).
    exists data, fs. repeat split; auto.
    revert Hsurf. apply surfaced_as_impl. intros tag. apply Hb.
  - destruct (Part001_surfaced _ _ _ _ H Hok) as (data & fs & Hd & Hf & _ & Hsurf).
    exists data, fs. repeat split; auto.
    revert Hsurf. apply surfaced_as_impl. intros tag. apply H1.
Qed.

Lemma X16_falsy_is_missing_witness :
  let w := answering free_flight in
  success (snd (Server.searchFlights w BOM_DEL)) = true /\
  (exists fd, flights (snd (Server.searchFlights w BOM_DEL)) = Some [fd] /\
              price fd = VStr "N/A" /\ airline fd = VStr "Unknown" /\
              duration fd = Some (VStr "N/A")) /\
  exists data fs,
    axios_get w (Server.request w BOM_DEL) = inr data /\
    flights (snd (Server.searchFlights w BOM_DEL)) = Some fs /\
    surfaced_as (fun _ => record_passes) data fs.
Proof.
  cbv zeta. split; [reflexivity|]. split.
  - eexists. repeat split.
  - eapply (proj1 (X16_falsy_is_missing _ BOM_DEL)); reflexivity.
Defined.

(** ** The one-way record inside the record of src/server.js *)

Lemma eachFlight_flat tag (isRoundTrip : value) (origin destination : param)
  (x : Serp.itinerary) (s : list flightData) :
  truthy isRoundTrip = false ->
  exists s',
    Server.eachFlight tag isRoundTrip origin destination x s = inr s' /\
    Part000a.eachFlight tag x (map flat s) = inr (map flat s').
Proof.
  intros Hrt. unfold Server.eachFlight, Part000a.eachFlight. rewrite Hrt.
  destruct (Serp.flights x) as [[|first rest]|] eqn:Hf; simpl andb; cbv iota.
  - exists s. split; reflexivity.
  - eexists. split; [reflexivity|]. rewrite map_app. reflexivity.
  - exists s. split; reflexivity.
Qed.

Lemma forEach_flat tag (isRoundTrip : value) (origin destination : param)
  (l : list Serp.itinerary) :
  truthy isRoundTrip = false ->
  forall s, exists s',
    forEach l (Server.eachFlight tag isRoundTrip origin destination) s = inr s' /\
    forEach l (Part000a.eachFlight tag) (map flat s) = inr (map flat s').
Proof.
  intros Hrt. induction l as [|x l IH]; intros s; simpl.
  - exists s. split; reflexivity.
  - destruct (eachFlight_flat tag isRoundTrip origin destination x s Hrt)
      as (s1 & -> & ->).
    unfold bind. apply IH.
Qed.

Lemma one_way_transforms (params : Params.t) (data : Serp.data) :
  ~ round_trip_requested (Params.return_date params) ->
  exists es ea fs,
    Server.transform params data = inr es /\
    Part000a.transform params data = inr ea /\
    success es = true /\ success ea = true /\
    flights es = Some fs /\ flights ea = Some (map flat fs) /\
    total_results ea = total_results es /\
    route ea = route es /\ date ea = date es /\
    price_insights ea = price_insights es /\ error ea = error es.
Proof.
  intros Hn. apply isRoundTrip_falsy in Hn.
  unfold Server.transform, Part000a.transform, bind. cbv zeta.
  rewrite !when_some_forEach by reflexivity.
  destruct (forEach_flat "best" _ (Params.origin params)
              (Params.destination params) (items (Serp.best_flights data))
              Hn []) as (bs & -> & Hb).
  simpl map in Hb. rewrite Hb.
  rewrite !when_some_forEach by reflexivity.
  destruct (forEach_flat "other" _ (Params.origin params)
              (Params.destination params)
              (firstn 5 (items (Serp.other_flights data))) Hn bs)
    as (all & -> & Ho).
  rewrite Ho. do 3 eexists.
  split; [reflexivity|]. split; [reflexivity|].
  cbn [success flights total_results route date price_insights error].
  rewrite length_map. auto 12.
Qed.

(** X17: for a one-way search, src/server.js and the first file of part_000
    make the same call and agree on success, on the error, on the route, the
    date, [total_results] and [price_insights]; the records of the first
    file of part_000 are those of src/server.js read on the eight keys
    type, airline, flight_number, departure_time, arrival_time, duration,
    price and stops, in the same order. *)
Theorem X17_one_way_records_agree (w : world) (params : Params.t) :
  ~ round_trip_requested (Params.return_date params) ->
  let new := Server.searchFlights w params in
  let old := Part000a.searchFlights w params in
  fst old = fst new /\
  success (snd old) = success (snd new) /\
  error (snd old) = error (snd new) /\
  flights (snd old) = option_map (map flat) (flights (snd new)) /\
  total_results (snd old) = total_results (snd new) /\
  route (snd old) = route (snd new) /\
  date (snd old) = date (snd new) /\
  price_insights (snd old) = price_insights (snd new).
Proof.
  intros Hn. cbv zeta.
  pose proof (proj2 (proj1 (proj2 (calls_compared w params))) Hn) as Hreq.
  unfold Server.searchFlights, Part000a.searchFlights. rewrite Hreq.
  destruct (negb (truthy (Params.origin params))
            || negb (truthy (Params.destination params))
            || negb (truthy (Params.departure_date params)));
    [repeat split|].
  destruct (negb (configured w)); [repeat split|].
  cbn [fst snd]. split; [reflexivity|]. unfold bind.
  destruct (axios_get w (Part000a.request w params)) as [x|data];
    [repeat split|].
  destruct (one_way_transforms params data Hn)
    as (es & ea & fs & -> & -> & Hs & Ha & Hfs & Hfa & Ht & Hr & Hd & Hp & He).
  rewrite Hs, Ha, Hfs, Hfa, Ht, Hr, Hd, Hp, He. simpl. repeat split.
Qed.

Lemma X17_one_way_records_agree_witness :
  let w := answering seven_others in
  ~ round_trip_requested (Params.return_date BOM_DEL) /\
  flights (snd (Part000a.searchFlights w BOM_DEL))
  = option_map (map flat) (flights (snd (Server.searchFlights w BOM_DEL))).
Proof.
  cbv zeta.
  assert (Hn : ~ round_trip_requested (Params.return_date BOM_DEL)).
  { intros (H & _). now apply H. }
  split; [exact Hn|].
  apply (X17_one_way_records_agree (answering seven_others) BOM_DEL Hn).
Defined.

(** ** callGemini *)



(** X19: when the answer has a success status and a body [data],
    [callGemini] returns exactly when [data] holds a first candidate that
    has a content that has a first part, and it returns the text of that
    part, whatever the other candidates and parts are; in every other case
    (no candidates, an empty list of candidates, a candidate without
    content, no parts, an empty list of parts) it throws. *)
Theorem X19_gemini_first_text (w : Gemini.world) (prompt : string)
  (response : Gemini.response) (data : Gemini.answer) :
  Gemini.fetch w (Gemini.request_for w prompt) = inr response ->
  Gemini.ok response = true ->
  Gemini.json response = inr data ->
  let run := Gemini.callGemini w prompt in
  (forall v, snd run = inr v <-> first_text data v) /\
  ((forall v, ~ first_text data v) -> exists e, snd run = inl e).
Proof.
  intros Hf Hok Hj. cbv zeta. unfold Gemini.callGemini, first_text.
  cbv zeta. cbn [fst snd]. rewrite Hf. unfold bind. rewrite Hok, Hj.
  simpl negb. cbv iota.
  destruct (Gemini.candidates data) as [[|first others]|] eqn:Hc.
  - split.
    + intros v. split; [discriminate|].
      intros (f & o & c & p & ps & [=] & _).
    + intros _. eexists. reflexivity.
  - destruct (Gemini.content_of first) as [c|] eqn:Hco.
    + destruct (Gemini.parts c) as [[|p ps]|] eqn:Hp.
      * split.
        -- intros v. split; [discriminate|].
           intros (f & o & c' & p' & ps' & [= <- <-] & Hc' & Hp' & _).
           rewrite Hco in Hc'. injection Hc' as <-. rewrite Hp in Hp'.
           discriminate.
        -- intros _. eexists. reflexivity.
      * split.
        -- intros v. split.
           ++ intros [= <-]. exists first, others, c, p, ps. auto.
           ++ intros (f & o & c' & p' & ps' & [= <- <-] & Hc' & Hp' & ->).
              rewrite Hco in Hc'. injection Hc' as <-. rewrite Hp in Hp'.
              injection Hp' as <- <-. reflexivity.
        -- intros H. exfalso. apply (H (Gemini.text p)).
           exists first, others, c, p, ps. auto.
      * split.
        -- intros v. split; [discriminate|].
           intros (f & o & c' & p' & ps' & [= <- <-] & Hc' & Hp' & _).
           rewrite Hco in Hc'. injection Hc' as <-. rewrite Hp in Hp'.
           discriminate.
        -- intros _. eexists. reflexivity.
    + split.
      * intros v. split; [discriminate|].
        intros (f & o & c' & p' & ps' & [= <- <-] & Hc' & _).
        rewrite Hco in Hc'. discriminate.
      * intros _. eexists. reflexivity.
  - split.
    + intros v. split; [discriminate|].
      intros (f & o & c & p & ps & [=] & _).
    + intros _. eexists. reflexivity.
Qed.

Lemma X19_gemini_first_text_witness :
  let w := completing (Some "key") two_candidates in
  Gemini.fetch w (Gemini.request_for w "flights to Goa") = inr two_candidates /\
  Gemini.ok two_candidates = true /\
  snd (Gemini.callGemini w "flights to Goa") = inr (VStr "BOM to DEL").
Proof.
  cbv zeta. split; [reflexivity|]. split; [reflexivity|].
  apply (proj1 (X19_gemini_first_text (completing (Some "key") two_candidates)
                  "flights to Goa" two_candidates _ eq_refl eq_refl eq_refl)).
  do 5 eexists. repeat split.
Defined.

(** ** A [return_date] that is not a string *)

(** X20: in src/server.js a search with its three required fields and a
    credential whose [return_date] is truthy and not a string (a number, a
    boolean, an array, an object) never reaches the provider: line 136
    throws inside the [try] block and the [catch] block answers
    [success: false] with the message of that error.  A falsy [return_date]
    of any kind (absent, [null], [false], 0, the empty string) is a one-way
    search: [type: '2'] is sent and no [return_date].  For a [return_date]
    that is absent, [null] or a string the search is the one of [Server]. *)
Theorem X20_return_date_of_another_kind (w : world) (r : Request.t) :
  complete (ServerAny.required r) -> configured w = true ->
  let run := ServerAny.searchFlights w r in
  (~ trimmable (Request.return_date r) ->
   fst run = [] /\ success (snd run) = false /\
   error (snd run) = Some "return_date.trim is not a function" /\
   flights (snd run) = None /\
   exists text,
     fallback_message (snd run) = Some text /\
     names_the_search (ServerAny.required r) text) /\
  (truthy (Request.return_date r) = false ->
   exists c,
     fst run = [c] /\ lookup "type" (query c) = VStr "2" /\
     has_key "return_date" (query c) = false) /\
  (forall params, r = ServerAny.of_params params ->
     run = Server.searchFlights w params).
Proof.
  intros (Ho & Hd & Hdd) Hw. cbv zeta. simpl in Ho, Hd, Hdd.
  split; [|split].
  - intros Ht. unfold ServerAny.searchFlights.
    rewrite Ho, Hd, Hdd, Hw,
      (proj2 (isRoundTrip_returns (Request.return_date r)) Ht).
    cbn [negb orb fst snd]. unfold Server.on_error.
    cbn [success error flights fallback_message message TypeError].
    repeat split. eexists. split; [reflexivity|].
    unfold names_the_search. repeat split; found_in_text.
  - intros Hf. unfold ServerAny.searchFlights, ServerAny.isRoundTrip.
    rewrite Ho, Hd, Hdd, Hw, Hf. simpl.
    eexists. split; [reflexivity|]. simpl. rewrite Hf. split; reflexivity.
  - intros params ->. apply ServerAny_agrees.
Qed.

Lemma X20_return_date_of_another_kind_witness :
  let run := ServerAny.searchFlights (answering one_best) BOM_DEL_number in
  fst run = [] /\ success (snd run) = false /\
  error (snd run) = Some "return_date.trim is not a function".
Proof.
  cbv zeta.
  assert (Ht : ~ trimmable (Request.return_date BOM_DEL_number)).
  { intros [H|(s & H)]; discriminate. }
  assert (Hc : complete (ServerAny.required BOM_DEL_number))
    by (repeat split).
  destruct (X20_return_date_of_another_kind (answering one_best)
              BOM_DEL_number Hc eq_refl) as (H & _).
  destruct (H Ht) as (H1 & H2 & H3 & _). auto.
Defined.
